(** * Federated aggregation of regression weights under CKKS (Ckks.py)

    A shallow embedding of [MINOR/Ckks-RNS/Ckks.py].  The script is glue
    around three external components: Python's floats, pandas (CSV reading
    and writing) and Pyfhel (the CKKS engine and its binary serialisers).
    They enter as interfaces ([PyFloat], [Pandas], [PyfhelLib]); everything
    the script itself does -- which files it reads and writes, in which
    order, which handle it passes to which library call, which exception it
    raises where -- is modelled as written, in a state-and-exception monad
    over a [World] made of the regular files on disk, the heap of mutable
    [PyCtxt] objects, the library's random source and the printed lines.
    The persisted formats of the context, the keys and the ciphertexts, whose
    code is not in the repository, are modelled from the spec in [Persisted]
    and give one instance of the library interface, [persisted_lib]. *)

From Stdlib Require Import ZArith Ascii String List Strings.Byte.
From stdpp Require Import base option list gmap strings pretty.

Set Default Proof Using "Type*".

(** ** Exceptions of the script and of the code it calls *)

Inductive exn : Type :=
  | ValueError (msg : string)
  | FileNotFoundError (msg : string)
  | IndexError (msg : string)
  | KeyError (msg : string)
  | RuntimeError (msg : string).

(** A computation that may raise. *)
Definition res (A : Type) : Type := exn + A.

Abbreviation bytes := (list Byte.byte).

(** ** External components *)

(** Python floats: the script only converts to them, prints them and
    divides [1.0] by a length. *)
Class PyFloat : Type := {
  float : Type;
  float_of_Z : Z → float;               (* float(i) for an int i *)
  float_of_str : string → option float; (* float(s) for a str s *)
  float_str : float → string;           (* str(x) *)
  float_div : float → float → float;    (* x / y *)
}.

(** A cell of a data frame, and a data frame as its ordered, named columns
    (over the type of floats). *)
Inductive cell_of (float : Type) : Type :=
  | CInt (z : Z)
  | CFloat (x : float)
  | CStr (s : string).
Arguments CInt {_} _.
Arguments CFloat {_} _.
Arguments CStr {_} _.

Record DataFrame_of (float : Type) : Type := mkDataFrame {
  df_cols : list (string * list (cell_of float));
}.
Arguments mkDataFrame {_} _.
Arguments df_cols {_} _.

Abbreviation cell := (cell_of float).
Abbreviation DataFrame := (DataFrame_of float).

(** pandas: [pd.read_csv] on the bytes of a file and [DataFrame.to_csv(index=False)]. *)
Class Pandas `{PyFloat} : Type := {
  csv_parse : bytes → res DataFrame;
  csv_render : DataFrame → bytes;
}.

(** Pyfhel.  A [Pyfhel] object ([PyfhelObj] below) holds an optional context,
    public key and secret key; the methods the script calls on it receive
    the whole object, as [self] does in Python. *)
Record PyfhelObj (HEContext PublicKey SecretKey : Type) : Type := mkPyfhel {
  he_ctx : option HEContext;
  he_pk : option PublicKey;
  he_sk : option SecretKey;
}.
Arguments mkPyfhel {_ _ _} _ _ _.
Arguments he_ctx {_ _ _} _.
Arguments he_pk {_ _ _} _.
Arguments he_sk {_ _ _} _.

Class PyfhelLib `{PyFloat} : Type := {
  HEContext : Type;
  PublicKey : Type;
  SecretKey : Type;
  PyPtxt : Type;
  Ciphertext : Type;
  Rng : Type;
  (* HE.contextGen(scheme="CKKS", n=.., scale=.., sec=..) *)
  contextGen_ckks : Z → Z → Z → res HEContext;
  (* HE.keyGen() *)
  keyGen : HEContext → Rng → res (PublicKey * SecretKey) * Rng;
  (* contextSave / contextLoad, savepublicKey / restorepublicKey,
     savesecretKey / restoresecretKey, PyCtxt.save / PyCtxt(fileName=..) *)
  context_to_bytes : HEContext → bytes;
  context_from_bytes : bytes → res HEContext;
  publicKey_to_bytes : PublicKey → bytes;
  publicKey_from_bytes : HEContext → bytes → res PublicKey;
  secretKey_to_bytes : SecretKey → bytes;
  secretKey_from_bytes : HEContext → bytes → res SecretKey;
  ctxt_to_bytes : Ciphertext → bytes;
  ctxt_from_bytes : PyfhelObj HEContext PublicKey SecretKey → bytes → res Ciphertext;
  (* HE.encodeVec, HE.encryptPtxt, HE.decryptFrac *)
  encodeVec : PyfhelObj HEContext PublicKey SecretKey → list float → res PyPtxt;
  encryptPtxt : PyfhelObj HEContext PublicKey SecretKey → PyPtxt → Rng → res Ciphertext * Rng;
  decryptFrac : PyfhelObj HEContext PublicKey SecretKey → Ciphertext → res (list float);
  (* the values PyCtxt.__iadd__ and PyCtxt.__imul__ (by a Python float)
     store into their left operand *)
  ctxt_add : PyfhelObj HEContext PublicKey SecretKey → Ciphertext → Ciphertext → res Ciphertext;
  ctxt_mul_scalar : PyfhelObj HEContext PublicKey SecretKey → Ciphertext → float → res Ciphertext;
}.

Abbreviation HE_t := (PyfhelObj HEContext PublicKey SecretKey).

(** ** What the script prints, one constructor per [print] call *)

Inductive out_line_of (float : Type) : Type :=
  | OutKeysGenerated (key_dir : string)                  (* line 101 *)
  | OutEncrypted (weights_csv out_path : string) (len : nat)  (* line 132 *)
  | OutVerifyHeader                                      (* line 138 *)
  | OutVerifyEntry (orig dec : float)                    (* line 140 *)
  | OutVerifySkipped (e : exn)                           (* line 142 *)
  | OutAggregated (average : bool) (out_path : string)   (* line 156 *)
  | OutDecrypted (ct_path : string)                      (* line 175 *)
  | OutDecryptedIdx (out_csv_idx : string)               (* line 176 *)
  | OutDecryptedNamed (out_csv_named : string)           (* line 177 *)
  | OutDone                                              (* line 207 *)
  | OutKeepSecret.                                       (* line 208 *)
Arguments OutKeysGenerated {_} _.
Arguments OutEncrypted {_} _ _ _.
Arguments OutVerifyHeader {_}.
Arguments OutVerifyEntry {_} _ _.
Arguments OutVerifySkipped {_} _.
Arguments OutAggregated {_} _ _.
Arguments OutDecrypted {_} _.
Arguments OutDecryptedIdx {_} _.
Arguments OutDecryptedNamed {_} _.
Arguments OutDone {_}.
Arguments OutKeepSecret {_}.

Abbreviation out_line := (out_line_of float).

(** ** The world the script runs in *)

(** A [PyCtxt] object: the ciphertext it currently holds and the [Pyfhel]
    object it was built with ([pyfhel=HE]), which its operators use. *)
Record PyCtxt_of (HEContext PublicKey SecretKey Ciphertext : Type) : Type := mkPyCtxt {
  ct_pyfhel : PyfhelObj HEContext PublicKey SecretKey;
  ct_val : Ciphertext;
}.
Arguments mkPyCtxt {_ _ _ _} _ _.
Arguments ct_pyfhel {_ _ _ _} _.
Arguments ct_val {_ _ _ _} _.

Abbreviation PyCtxt := (PyCtxt_of HEContext PublicKey SecretKey Ciphertext).

(** [files] are the regular files on disk (directories are not
    represented); [heap] holds the [PyCtxt] objects, a reference being an
    index into it; [rng] is the library's random source; [stdout] the
    lines printed so far, oldest first. *)
Record World_of (Obj Rng Out : Type) : Type := mkWorld {
  files : gmap string bytes;
  heap : list Obj;
  rng : Rng;
  stdout : list Out;
}.
Arguments mkWorld {_ _ _} _ _ _ _.
Arguments files {_ _ _} _.
Arguments heap {_ _ _} _.
Arguments rng {_ _ _} _.
Arguments stdout {_ _ _} _.

Abbreviation World := (World_of PyCtxt Rng out_line).

Definition M `{PyfhelLib} (A : Type) : Type := World → World * res A.

Definition ret `{PyfhelLib} {A} (a : A) : M A := λ w, (w, inr a).
Definition raise `{PyfhelLib} {A} (e : exn) : M A := λ w, (w, inl e).
Definition lift `{PyfhelLib} {A} (r : res A) : M A := λ w, (w, r).
Definition bind `{PyfhelLib} {A B} (m : M A) (k : A → M B) : M B :=
  λ w, match m w with
       | (w', inl e) => (w', inl e)
       | (w', inr a) => k a w'
       end.

Notation "'let!' x ':=' m 'in' k" := (bind m (λ x, k))
  (at level 10, x pattern, m at level 100, k at level 200,
   format "'[v' 'let!'  x  ':='  m  'in' '/' k ']'").
Notation "m ';;' k" := (bind m (λ _, k))
  (at level 100, k at level 200, right associativity).

(** ** Python and pandas helpers used by the script *)

(** [posixpath.join] of two components. *)
Definition is_abs (p : string) : bool :=
  match p with String "/" _ => true | _ => false end.

Fixpoint ends_with_slash (p : string) : bool :=
  match p with
  | "" => false
  | String c "" => bool_decide (c = "/"%char)
  | String _ r => ends_with_slash r
  end.

Definition is_empty (p : string) : bool :=
  match p with "" => true | _ => false end.

Definition os_path_join (a b : string) : string :=
  if is_abs b then b
  else if is_empty a || ends_with_slash a then a +:+ b
  else a +:+ "/" +:+ b.

(** [str.lower] on ASCII letters. *)
Definition lower_ascii (c : ascii) : ascii :=
  let n := nat_of_ascii c in
  if (65 <=? n)%nat && (n <=? 90)%nat then ascii_of_nat (n + 32) else c.

Fixpoint str_lower (s : string) : string :=
  match s with
  | "" => ""
  | String c r => String (lower_ascii c) (str_lower r)
  end.

(** [repr] of a list of column names (names without quotes or escapes). *)
Fixpoint join_comma (l : list string) : string :=
  match l with
  | [] => ""
  | [x] => x
  | x :: r => x +:+ ", " +:+ join_comma r
  end.

Definition repr_str_list (l : list string) : string :=
  "[" +:+ join_comma (map (λ s, "'" +:+ s +:+ "'") l) +:+ "]".

(** [values[-1]] and [values[:-1]]. *)
Definition values_last {A} (xs : list A) : res A :=
  match last xs with
  | Some x => inr x
  | None => inl (IndexError "index -1 is out of bounds for axis 0 with size 0")
  end.

(** [values[0]] *)
Definition values_first {A} (xs : list A) : res A :=
  match xs with
  | x :: _ => inr x
  | [] => inl (IndexError "index 0 is out of bounds for axis 0 with size 0")
  end.

Definition values_init {A} (xs : list A) : list A := removelast xs.

(** Selection of a column by a boolean mask, as [df.loc[mask, col]]. *)
Fixpoint mask_select {A} (mask : list bool) (xs : list A) : list A :=
  match mask, xs with
  | m :: mask', x :: xs' => if m then x :: mask_select mask' xs' else mask_select mask' xs'
  | _, _ => []
  end.

Section Frames.
Context `{F : PyFloat}.

Definition df_columns (df : DataFrame) : list string := map fst (df_cols df).

(** [cand in df.columns] *)
Definition has_column (df : DataFrame) (c : string) : bool :=
  bool_decide (c ∈ df_columns df).

Fixpoint assoc_col (c : string) (cols : list (string * list cell)) : option (list cell) :=
  match cols with
  | [] => None
  | (n, v) :: r => if bool_decide (n = c) then Some v else assoc_col c r
  end.

(** [df[c]] *)
Definition df_getitem (df : DataFrame) (c : string) : res (list cell) :=
  match assoc_col c (df_cols df) with
  | Some v => inr v
  | None => inl (KeyError c)
  end.

(** [.astype(str)] on one cell. *)
Definition cell_str (c : cell) : string :=
  match c with
  | CInt z => pretty z
  | CFloat x => float_str x
  | CStr s => s
  end.

(** [float(c)] on one cell. *)
Definition cell_float (c : cell) : res float :=
  match c with
  | CInt z => inr (float_of_Z z)
  | CFloat x => inr x
  | CStr s =>
      match float_of_str s with
      | Some x => inr x
      | None => inl (ValueError ("could not convert string to float: '" +:+ s +:+ "'"))
      end
  end.

(** [.astype(float)] on a column: the first cell that does not convert raises. *)
Fixpoint astype_float (cs : list cell) : res (list float) :=
  match cs with
  | [] => inr []
  | c :: r =>
      match cell_float c with
      | inl e => inl e
      | inr x =>
          match astype_float r with
          | inl e => inl e
          | inr xs => inr (x :: xs)
          end
      end
  end.

(** [pd.DataFrame({n1: c1, n2: c2})]: pandas refuses columns of different lengths. *)
Definition DataFrame_of_dict (n1 : string) (c1 : list cell) (n2 : string) (c2 : list cell)
    : res DataFrame :=
  if bool_decide (length c1 = length c2)
  then inr (mkDataFrame [(n1, c1); (n2, c2)])
  else inl (ValueError "All arrays must be of the same length").

(** [np.arange(n)] *)
Definition arange (n : nat) : list Z := map Z.of_nat (seq 0 n).

Definition _find_coef_column (df : DataFrame) : res string :=
  match find (has_column df) ["Coefficient"; "coefficient"; "coef"; "Coef"] with
  | Some cand => inr cand
  | None => inl (ValueError ("Coefficient column not found. Available columns: "
                             +:+ repr_str_list (df_columns df)))
  end.

(** [df["Feature"].astype(str).str.lower().eq("intercept")] *)
Definition intercept_mask (feature : list cell) : list bool :=
  map (λ c, bool_decide (str_lower (cell_str c) = "intercept")) feature.

(** [mask_int.any()] *)
Definition mask_any (mask : list bool) : bool := existsb id mask.
End Frames.

(** ** The script *)

(** The parsed command line ([argparse] with its defaults applied). *)
Record Args : Type := mkArgs {
  h1 : string;
  h2 : string;
  do_sum : bool;
  verify : bool;
}.

Section Script.
Context `{F : PyFloat} {P : Pandas} {L : PyfhelLib}.

(** Directory of the script, [os.path.dirname(os.path.abspath(__file__))]. *)
Variable HERE : string.

Definition KEY_DIR : string := os_path_join HERE "keys".
Definition CT_DIR : string := os_path_join HERE "ciphertexts".
Definition GLOBAL_DIR : string := os_path_join HERE "global".

(** *** Primitive effects *)

Definition os_path_exists (p : string) : M bool :=
  λ w, (w, inr (bool_decide (is_Some (files w !! p)))).

Definition read_file (p : string) : M bytes :=
  λ w, match files w !! p with
       | Some b => (w, inr b)
       | None => (w, inl (FileNotFoundError p))
       end.

Definition write_file (p : string) (b : bytes) : M unit :=
  λ w, (mkWorld (<[p := b]> (files w)) (heap w) (rng w) (stdout w), inr tt).

Definition print (l : out_line) : M unit :=
  λ w, (mkWorld (files w) (heap w) (rng w) (stdout w ++ [l]), inr tt).

Definition with_rng {A} (f : Rng → res A * Rng) : M A :=
  λ w, (mkWorld (files w) (heap w) (snd (f (rng w))) (stdout w), fst (f (rng w))).

(** Object creation, read and in-place update of a [PyCtxt]. *)
Definition new_obj (c : PyCtxt) : M nat :=
  λ w, (mkWorld (files w) (heap w ++ [c]) (rng w) (stdout w), inr (length (heap w))).

Definition get_obj (r : nat) : M PyCtxt :=
  λ w, match heap w !! r with
       | Some c => (w, inr c)
       | None => (w, inl (RuntimeError "no such object"))
       end.

Definition set_obj (r : nat) (c : PyCtxt) : M unit :=
  λ w, (mkWorld (files w) (<[r := c]> (heap w)) (rng w) (stdout w), inr tt).

(** [try: body except Exception as e: handler(e)] *)
Definition try_except {A} (body : M A) (handler : exn → M A) : M A :=
  λ w, match body w with
       | (w', inl e) => handler e w'
       | (w', inr a) => (w', inr a)
       end.

(** [xs[i]] *)
Definition index {A} (xs : list A) (i : nat) : M A :=
  match xs !! i with
  | Some x => ret x
  | None => raise (IndexError "index out of range")
  end.

(** *** pandas and Pyfhel calls as the script makes them *)

Definition pd_read_csv (path : string) : M DataFrame :=
  let! b := read_file path in lift (csv_parse b).

Definition to_csv (df : DataFrame) (path : string) : M unit :=
  write_file path (csv_render df).

(** [Pyfhel()] *)
Definition Pyfhel_new : HE_t := mkPyfhel None None None.

Definition the_context (HE : HE_t) : M HEContext :=
  match he_ctx HE with
  | Some c => ret c
  | None => raise (RuntimeError "context not initialized")
  end.

Definition contextLoad (HE : HE_t) (path : string) : M HE_t :=
  let! b := read_file path in
  let! c := lift (context_from_bytes b) in
  ret (mkPyfhel (Some c) (he_pk HE) (he_sk HE)).

Definition restorepublicKey (HE : HE_t) (path : string) : M HE_t :=
  let! b := read_file path in
  let! c := the_context HE in
  let! pk := lift (publicKey_from_bytes c b) in
  ret (mkPyfhel (he_ctx HE) (Some pk) (he_sk HE)).

Definition restoresecretKey (HE : HE_t) (path : string) : M HE_t :=
  let! b := read_file path in
  let! c := the_context HE in
  let! sk := lift (secretKey_from_bytes c b) in
  ret (mkPyfhel (he_ctx HE) (he_pk HE) (Some sk)).

Definition contextGen (HE : HE_t) (n scale sec : Z) : M HE_t :=
  let! c := lift (contextGen_ckks n scale sec) in
  ret (mkPyfhel (Some c) (he_pk HE) (he_sk HE)).

Definition HE_keyGen (HE : HE_t) : M HE_t :=
  let! c := the_context HE in
  let! (pk, sk) := with_rng (keyGen c) in
  ret (mkPyfhel (he_ctx HE) (Some pk) (Some sk)).

Definition contextSave (HE : HE_t) (path : string) : M unit :=
  let! c := the_context HE in
  write_file path (context_to_bytes c).

Definition savepublicKey (HE : HE_t) (path : string) : M unit :=
  match he_pk HE with
  | Some pk => write_file path (publicKey_to_bytes pk)
  | None => raise (RuntimeError "public key not initialized")
  end.

Definition savesecretKey (HE : HE_t) (path : string) : M unit :=
  match he_sk HE with
  | Some sk => write_file path (secretKey_to_bytes sk)
  | None => raise (RuntimeError "secret key not initialized")
  end.

(** [PyCtxt(pyfhel=HE, serialized=True, fileName=p)]: a new object. *)
Definition PyCtxt_load (HE : HE_t) (p : string) : M nat :=
  let! b := read_file p in
  let! c := lift (ctxt_from_bytes HE b) in
  new_obj (mkPyCtxt HE c).

(** [ctxt.save(path)] *)
Definition PyCtxt_save (r : nat) (path : string) : M unit :=
  let! o := get_obj r in
  write_file path (ctxt_to_bytes (ct_val o)).

(** [HE.encryptPtxt(ptxt)]: a new object. *)
Definition HE_encryptPtxt (HE : HE_t) (ptxt : PyPtxt) : M nat :=
  let! c := with_rng (encryptPtxt HE ptxt) in
  new_obj (mkPyCtxt HE c).

(** [HE.decryptFrac(ctxt)] *)
Definition HE_decryptFrac (HE : HE_t) (r : nat) : M (list float) :=
  let! o := get_obj r in
  lift (decryptFrac HE (ct_val o)).

(** [a += b] on [PyCtxt] objects: the sum is stored into the object [a]. *)
Definition PyCtxt_iadd (a b : nat) : M unit :=
  let! oa := get_obj a in
  let! ob := get_obj b in
  let! s := lift (ctxt_add (ct_pyfhel oa) (ct_val oa) (ct_val ob)) in
  set_obj a (mkPyCtxt (ct_pyfhel oa) s).

(** [a *= k] on a [PyCtxt] object and a float: the product is stored into [a]. *)
Definition PyCtxt_imul (a : nat) (k : float) : M unit :=
  let! oa := get_obj a in
  let! s := lift (ctxt_mul_scalar (ct_pyfhel oa) (ct_val oa) k) in
  set_obj a (mkPyCtxt (ct_pyfhel oa) s).

(** *** The functions of Ckks.py *)

Definition weights_csv_to_vector (csv_path : string) : M (list float) :=
  let! df := pd_read_csv csv_path in
  let! coef_col := lift (_find_coef_column df) in
  let! coef := lift (df_getitem df coef_col) in
  let last_row_intercept : M (list float) :=
    let! intercept := (let! c := lift (values_last coef) in lift (cell_float c)) in
    let! coefs := lift (astype_float (values_init coef)) in
    ret (coefs ++ [intercept]) in
  if has_column df "Feature" then
    let! feature := lift (df_getitem df "Feature") in
    let mask_int := intercept_mask feature in
    if mask_any mask_int then
      let! intercept := (let! c := lift (values_first (mask_select mask_int coef)) in lift (cell_float c)) in
      let! coefs := lift (astype_float (mask_select (map negb mask_int) coef)) in
      ret (coefs ++ [intercept])
    else last_row_intercept
  else last_row_intercept.

Definition weights_csv_feature_names (csv_path : string) : M (list string) :=
  let! df := pd_read_csv csv_path in
  let! coef_col := lift (_find_coef_column df) in
  let! features :=
    if has_column df "Feature" then
      let! feature := lift (df_getitem df "Feature") in
      let mask_int := intercept_mask feature in
      if mask_any mask_int then
        ret (map cell_str (mask_select (map negb mask_int) feature))
      else
        ret (values_init (map cell_str feature))
    else
      let! coef := lift (df_getitem df coef_col) in
      let n := length coef - 1 in
      ret (map (λ i, "f" +:+ pretty i) (seq 0 n)) in
  ret (features ++ ["Intercept"]).

(** Directories are not represented in [files]; creating them changes nothing there. *)
Definition ensure_dirs : M unit := ret tt.

Definition keygen_if_missing (poly_degree scale_bits sec_bits : Z) : M HE_t :=
  let ctx_path := os_path_join KEY_DIR "ckks_context.bin" in
  let pub_path := os_path_join KEY_DIR "ckks_public.key" in
  let sec_path := os_path_join KEY_DIR "ckks_secret.key" in
  let HE := Pyfhel_new in
  let! e_ctx := os_path_exists ctx_path in
  let! e_pub := os_path_exists pub_path in
  let! e_sec := os_path_exists sec_path in
  if e_ctx && e_pub && e_sec then
    let! HE := contextLoad HE ctx_path in
    let! HE := restorepublicKey HE pub_path in
    let! HE := restoresecretKey HE sec_path in
    ret HE
  else
    let! HE := contextGen HE poly_degree (2 ^ scale_bits) sec_bits in
    let! HE := HE_keyGen HE in
    contextSave HE ctx_path;;
    savepublicKey HE pub_path;;
    savesecretKey HE sec_path;;
    print (OutKeysGenerated KEY_DIR);;
    ret HE.

(** The defaults of the signature: [poly_degree=2**15, scale_bits=40, sec_bits=128]. *)
Definition keygen_if_missing_default : M HE_t := keygen_if_missing (2 ^ 15) 40 128.

Definition load_for_server : M HE_t :=
  let HE := Pyfhel_new in
  let! HE := contextLoad HE (os_path_join KEY_DIR "ckks_context.bin") in
  let! HE := restorepublicKey HE (os_path_join KEY_DIR "ckks_public.key") in
  ret HE.

Definition load_for_decrypt : M HE_t :=
  let HE := Pyfhel_new in
  let! HE := contextLoad HE (os_path_join KEY_DIR "ckks_context.bin") in
  let! HE := restorepublicKey HE (os_path_join KEY_DIR "ckks_public.key") in
  let! HE := restoresecretKey HE (os_path_join KEY_DIR "ckks_secret.key") in
  ret HE.

(** [for i in range(k): print(orig=vec[i], dec=dec[i])] *)
Fixpoint verify_loop (vec dec : list float) (range : list nat) : M unit :=
  match range with
  | [] => ret tt
  | i :: range' =>
      let! o := index vec i in
      let! d := index dec i in
      print (OutVerifyEntry o d);;
      verify_loop vec dec range'
  end.

Definition encrypt_weights_csv (weights_csv out_name : string) (verify : bool) : M string :=
  let! HE := keygen_if_missing_default in
  let! vec := weights_csv_to_vector weights_csv in
  let! ptxt := lift (encodeVec HE vec) in
  let! ctxt := HE_encryptPtxt HE ptxt in
  let out_path := os_path_join CT_DIR out_name in
  PyCtxt_save ctxt out_path;;
  print (OutEncrypted weights_csv out_path (length vec));;
  (if verify then
     try_except
       (let! dec := HE_decryptFrac HE ctxt in
        let k := Nat.min 5 (length vec) in
        print OutVerifyHeader;;
        verify_loop vec dec (seq 0 k))
       (λ e, print (OutVerifySkipped e))
   else ret tt);;
  ret out_path.

(** [for p in ct_paths[1:]: c = PyCtxt(..., fileName=p); agg += c] *)
Fixpoint aggregate_loop (HE : HE_t) (agg : nat) (ps : list string) : M unit :=
  match ps with
  | [] => ret tt
  | p :: ps' =>
      let! c := PyCtxt_load HE p in
      PyCtxt_iadd agg c;;
      aggregate_loop HE agg ps'
  end.

Definition aggregate_ciphertexts (ct_paths : list string) (average : bool) : M string :=
  let! HE := load_for_server in
  let! p0 := index ct_paths 0 in
  let! agg := PyCtxt_load HE p0 in
  aggregate_loop HE agg (drop 1 ct_paths);;
  (if average then
     PyCtxt_imul agg (float_div (float_of_Z 1) (float_of_Z (Z.of_nat (length ct_paths))))
   else ret tt);;
  let out_path := os_path_join GLOBAL_DIR (if average then "global_avg.ct" else "global_sum.ct") in
  PyCtxt_save agg out_path;;
  print (OutAggregated average out_path);;
  ret out_path.

Definition decrypt_ciphertext_to_csv (ct_path : string) (canonical_features : list string)
    : M (string * string) :=
  let! HE := load_for_decrypt in
  let! ctxt := PyCtxt_load HE ct_path in
  let! vec := HE_decryptFrac HE ctxt in
  let out_csv_idx := os_path_join GLOBAL_DIR "global_weights.csv" in
  let! df_idx := lift (DataFrame_of_dict "Index" (map CInt (arange (length vec)))
                                         "Value" (map CFloat vec)) in
  to_csv df_idx out_csv_idx;;
  if negb (bool_decide (length canonical_features = length vec)) then
    raise (ValueError ("Length mismatch: features(" +:+ pretty (length canonical_features)
                         +:+ ") vs values(" +:+ pretty (length vec) +:+ "). "
                         +:+ "Ensure both hospitals used identical feature order + intercept."))
  else
    let out_csv_named := os_path_join GLOBAL_DIR "global_weights_named.csv" in
    let! df_named := lift (DataFrame_of_dict "Feature" (map CStr canonical_features)
                                             "Coefficient" (map CFloat vec)) in
    to_csv df_named out_csv_named;;
    print (OutDecrypted ct_path);;
    print (OutDecryptedIdx out_csv_idx);;
    print (OutDecryptedNamed out_csv_named);;
    ret (out_csv_idx, out_csv_named).

Definition main (args : Args) : M unit :=
  ensure_dirs;;
  let! e1 := os_path_exists (h1 args) in
  (if negb e1 then raise (FileNotFoundError ("Hospital-1 weights not found: " +:+ h1 args))
   else ret tt);;
  let! e2 := os_path_exists (h2 args) in
  (if negb e2 then raise (FileNotFoundError ("Hospital-2 weights not found: " +:+ h2 args))
   else ret tt);;
  let! ct1 := encrypt_weights_csv (h1 args) "hospital1.ct" (verify args) in
  let! ct2 := encrypt_weights_csv (h2 args) "hospital2.ct" (verify args) in
  let! v1 := weights_csv_to_vector (h1 args) in
  let len1 := length v1 in
  let! v2 := weights_csv_to_vector (h2 args) in
  let len2 := length v2 in
  (if negb (bool_decide (len1 = len2)) then
     raise (ValueError ("Weight vector length mismatch: H1=" +:+ pretty len1 +:+ ", H2="
                          +:+ pretty len2 +:+ ". Align features & intercept."))
   else ret tt);;
  let! global_ct := aggregate_ciphertexts [ct1; ct2] (negb (do_sum args)) in
  let! canonical_feats := weights_csv_feature_names (h1 args) in
  decrypt_ciphertext_to_csv global_ct canonical_feats;;
  print OutDone;;
  print OutKeepSecret;;
  ret tt.
End Script.

(** ** Vocabulary of the statements *)

(** The separator [os.path.join] puts after its first component. *)
Definition sep_after (a : string) : string :=
  if is_empty a || ends_with_slash a then "" else "/".

Section Vocabulary.
Context `{F : PyFloat} {P : Pandas} {L : PyfhelLib}.
Variable HERE : string.

(** *** The files of the script *)

(** The three key files, a ciphertext file, the two aggregate ciphertext
    files and the two CSV files of the global weights. *)
Definition ctx_path : string := os_path_join (KEY_DIR HERE) "ckks_context.bin".
Definition pub_path : string := os_path_join (KEY_DIR HERE) "ckks_public.key".
Definition sec_path : string := os_path_join (KEY_DIR HERE) "ckks_secret.key".
Definition ct_path_of (out_name : string) : string := os_path_join (CT_DIR HERE) out_name.
Definition avg_path : string := os_path_join (GLOBAL_DIR HERE) "global_avg.ct".
Definition sum_path : string := os_path_join (GLOBAL_DIR HERE) "global_sum.ct".
Definition idx_csv_path : string := os_path_join (GLOBAL_DIR HERE) "global_weights.csv".
Definition named_csv_path : string := os_path_join (GLOBAL_DIR HERE) "global_weights_named.csv".

(** The files [main] may write before it compares the two lengths. *)
Definition encryption_outputs : list string :=
  [ctx_path; pub_path; sec_path;
   ct_path_of "hospital1.ct"; ct_path_of "hospital2.ct"].

(** The files [main] writes after the comparison. *)
Definition aggregation_outputs : list string :=
  [avg_path; sum_path; idx_csv_path; named_csv_path].

(** *** Kinds of computations *)

(** [m] never changes the world. *)
Definition readonly {A} (m : M A) : Prop := ∀ w, fst (m w) = w.

(** Run from two worlds related by [R], [m] ends in related worlds with
    the same outcome. *)
Definition respects (R : World → World → Prop) {A} (m : M A) : Prop :=
  ∀ w1 w2, R w1 w2 → R (fst (m w1)) (fst (m w2)) ∧ snd (m w1) = snd (m w2).

(** [m] leaves every file outside [S] as it was. *)
Definition writes_within (S : list string) {A} (m : M A) : Prop :=
  ∀ w p, p ∉ S → files (fst (m w)) !! p = files w !! p.

(** [m] leaves the files and the objects as they were. *)
Definition prints_only {A} (m : M A) : Prop :=
  ∀ w, files (fst (m w)) = files w ∧ heap (fst (m w)) = heap w.

(** *** Keys and serialisation *)

(** The test of line 85. *)
Definition all_key_files_exist (w : World) : Prop :=
  is_Some (files w !! ctx_path) ∧ is_Some (files w !! pub_path)
  ∧ is_Some (files w !! sec_path).

(** The saved forms of the context [c] and of the key pair [pk], [sk] load
    back, the keys under that same context [c]. *)
Definition keys_load_back (c : HEContext) (pk : PublicKey) (sk : SecretKey) : Prop :=
  context_from_bytes (context_to_bytes c) = inr c
  ∧ publicKey_from_bytes c (publicKey_to_bytes pk) = inr pk
  ∧ secretKey_from_bytes c (secretKey_to_bytes sk) = inr sk.

(** The handle [HE] holds a context and a key pair that load back. *)
Definition handle_loads_back (HE : HE_t) : Prop :=
  ∃ c pk sk, HE = mkPyfhel (Some c) (Some pk) (Some sk) ∧ keys_load_back c pk sk.

(** The three key files of [w1] and [w2] hold the same bytes. *)
Definition same_key_files (w1 w2 : World) : Prop :=
  files w1 !! ctx_path = files w2 !! ctx_path
  ∧ files w1 !! pub_path = files w2 !! pub_path
  ∧ files w1 !! sec_path = files w2 !! sec_path.

(** Two worlds that differ at most in the content (or presence) of the
    secret-key file. *)
Definition same_but_secret (w1 w2 : World) : Prop :=
  heap w1 = heap w2 ∧ rng w1 = rng w2 ∧ stdout w1 = stdout w2
  ∧ ∀ p, p ≠ sec_path → files w1 !! p = files w2 !! p.

(** Worlds that hold the same bytes at [p]. *)
Definition same_file (p : string) (w1 w2 : World) : Prop := files w1 !! p = files w2 !! p.

(** *** Parts of the script and of its results *)

(** The verification block of [encrypt_weights_csv] (lines 134-142). *)
Definition verify_block (HE : HE_t) (vec : list float) (ctxt : nat) (verify : bool) : M unit :=
  if verify then
    try_except
      (let! dec := HE_decryptFrac HE ctxt in
       let k := Nat.min 5 (length vec) in
       print OutVerifyHeader;;
       verify_loop vec dec (seq 0 k))
      (λ e, print (OutVerifySkipped e))
  else ret tt.

(** Lines 160-162 of [decrypt_ciphertext_to_csv]: the decrypted vector. *)
Definition decrypt_vector (ct_path : string) : M (list float) :=
  let! HE := load_for_decrypt HERE in
  let! ctxt := PyCtxt_load HE ct_path in
  HE_decryptFrac HE ctxt.

(** The text of the exception raised at line 168. *)
Definition length_mismatch_msg (nf nv : nat) : string :=
  "Length mismatch: features(" +:+ pretty nf +:+ ") vs values(" +:+ pretty nv +:+ "). "
    +:+ "Ensure both hospitals used identical feature order + intercept.".

(** The text of the exception raised at line 200. *)
Definition weight_length_msg (len1 len2 : nat) : string :=
  "Weight vector length mismatch: H1=" +:+ pretty len1 +:+ ", H2=" +:+ pretty len2
    +:+ ". Align features & intercept.".

(** The frames of lines 165 and 173. *)
Definition idx_frame (vec : list float) : DataFrame :=
  mkDataFrame [("Index", map CInt (arange (length vec))); ("Value", map CFloat vec)].

Definition named_frame (feats : list string) (vec : list float) : DataFrame :=
  mkDataFrame [("Feature", map CStr feats); ("Coefficient", map CFloat vec)].

(** [c] is what [PyCtxt(pyfhel=HE, fileName=p)] holds when built in world [w]. *)
Definition loaded_value (HE : HE_t) (w : World) (p : string) (c : Ciphertext) : Prop :=
  ∃ b, files w !! p = Some b ∧ ctxt_from_bytes HE b = inr c.

(** The value [agg] holds after [agg += c] for each [c] of [cs] in turn. *)
Fixpoint fold_add (HE : HE_t) (a : Ciphertext) (cs : list Ciphertext) : res Ciphertext :=
  match cs with
  | [] => inr a
  | c :: cs' =>
      match ctxt_add HE a c with
      | inl e => inl e
      | inr s => fold_add HE s cs'
      end
  end.

(** The scalar of line 153, [1.0 / len(ct_paths)]. *)
Definition avg_scalar (n : nat) : float :=
  float_div (float_of_Z 1) (float_of_Z (Z.of_nat n)).

(** The object built from the [j]-th path still holds, in [w'], the value
    that was loaded from its file. *)
Definition input_object_unchanged (HE : HE_t) (ct_paths : list string)
    (w w' : World) (j : nat) : Prop :=
  ∃ p c, ct_paths !! j = Some p ∧ loaded_value HE w p c
         ∧ heap w' !! (length (heap w) + j) = Some (mkPyCtxt HE c).
End Vocabulary.

(** ** A small executable instance of the interfaces

    Integers stand for floats, a CSV file is one coefficient per byte, and
    the encryption is an additive mask modulo 256 whose ciphertexts carry,
    in their first byte, how many masks they contain.  It serves to run the
    script on concrete worlds. *)

Module Toy.
Local Open Scope Z_scope.

Definition byte_of_Z (z : Z) : Byte.byte :=
  default Byte.x00 (Byte.of_N (Z.to_N (z mod 256))).
Definition Z_of_byte (b : Byte.byte) : Z := Z.of_N (Byte.to_N b).

Definition badd (a b : Byte.byte) : Byte.byte := byte_of_Z (Z_of_byte a + Z_of_byte b).
Definition bmul (k : Z) (a : Byte.byte) : Byte.byte := byte_of_Z (k * Z_of_byte a).

#[export] Instance toy_float : PyFloat := {|
  float := Z;
  float_of_Z := id;
  float_of_str := λ _, None;
  float_str := pretty;
  float_div := Z.div;
|}.

#[export] Instance toy_pandas : Pandas := {|
  csv_parse := λ b, inr (mkDataFrame [("Coefficient", map (λ x, CInt (Z_of_byte x)) b)]);
  csv_render := λ df,
    flat_map (λ col, String.list_byte_of_string (fst col)
                     ++ flat_map (λ c, String.list_byte_of_string (cell_str c)) (snd col))
             (df_cols df);
|}.

Definition one_byte {A} (what : string) (f : Byte.byte → A) (b : bytes) : res A :=
  match b with
  | [x] => inr (f x)
  | _ => inl (RuntimeError ("cannot load " +:+ what))
  end.

Definition toy_Pyfhel : Type := PyfhelObj Byte.byte Byte.byte Byte.byte.

Definition toy_decrypt (HE : toy_Pyfhel) (c : bytes) : res (list Z) :=
  match he_sk HE, c with
  | Some k, n :: body => inr (map (λ b, (Z_of_byte b - Z_of_byte n * Z_of_byte k) mod 256) body)
  | _, _ => inl (RuntimeError "cannot decrypt")
  end.

Definition toy_encrypt (HE : toy_Pyfhel) (p : list Byte.byte) (g : Z) : res bytes * Z :=
  match he_pk HE with
  | Some k => (inr (Byte.x01 :: map (badd k) p), g + 1)
  | None => (inl (RuntimeError "no public key"), g)
  end.

Definition toy_add (HE : toy_Pyfhel) (a b : bytes) : res bytes :=
  match he_ctx HE, a, b with
  | Some _, n :: xs, m :: ys =>
      if bool_decide (length xs = length ys)
      then inr (badd n m :: zip_with badd xs ys)
      else inl (RuntimeError "size mismatch")
  | _, _, _ => inl (RuntimeError "cannot add")
  end.

Definition toy_mul (HE : toy_Pyfhel) (a : bytes) (k : Z) : res bytes :=
  match he_ctx HE with
  | Some _ => inr (map (bmul k) a)
  | None => inl (RuntimeError "cannot multiply")
  end.

#[export] Instance toy_lib : PyfhelLib := {|
  HEContext := Byte.byte;
  PublicKey := Byte.byte;
  SecretKey := Byte.byte;
  PyPtxt := list Byte.byte;
  Ciphertext := bytes;
  Rng := Z;
  contextGen_ckks := λ n scale sec,
    if bool_decide (0 < n)%Z then inr (byte_of_Z sec) else inl (ValueError "invalid parameters");
  keyGen := λ c g, (inr (byte_of_Z g, byte_of_Z g), (g + 1)%Z);
  context_to_bytes := λ c, [c];
  context_from_bytes := one_byte "context" id;
  publicKey_to_bytes := λ k, [k];
  publicKey_from_bytes := λ _, one_byte "public key" id;
  secretKey_to_bytes := λ k, [k];
  secretKey_from_bytes := λ _, one_byte "secret key" id;
  ctxt_to_bytes := id;
  ctxt_from_bytes := λ HE b,
    match he_ctx HE with
    | Some _ => inr b
    | None => inl (RuntimeError "context not initialized")
    end;
  encodeVec := λ _ v, inr (map byte_of_Z v);
  encryptPtxt := toy_encrypt;
  decryptFrac := toy_decrypt;
  ctxt_add := toy_add;
  ctxt_mul_scalar := toy_mul;
|}.

Definition HERE : string := "/srv/MINOR/Ckks-RNS".

Definition b (z : Z) : Byte.byte := byte_of_Z z.

(** A fresh machine holding two weight files of three rows each. *)
Definition w0 : World := mkWorld
  (<["/data/h1.csv" := [b 1; b 2; b 5]]> (<["/data/h2.csv" := [b 3; b 7; b 15]]> ∅)) [] 42%Z [].

(** The same machine when the second hospital has one row more. *)
Definition w_short : World := mkWorld
  (<["/data/h1.csv" := [b 1; b 2; b 5]]> (<["/data/h2.csv" := [b 3; b 7; b 15; b 4]]> ∅)) [] 42%Z [].

Definition args0 : Args := mkArgs "/data/h1.csv" "/data/h2.csv" true false.

(** The machine after a complete run of [main] in sum mode. *)
Definition w_done : World := Eval vm_compute in fst (main HERE args0 w0).

(** The same machine with another secret key on disk. *)
Definition w_other_key : World :=
  mkWorld (<[os_path_join (KEY_DIR HERE) "ckks_secret.key" := [b 7]]> (files w_done))
          (heap w_done) (rng w_done) (stdout w_done).

(** The finished machine again, for a call with other feature names. *)
Definition w_other_names : World :=
  mkWorld (delete (os_path_join (GLOBAL_DIR HERE) "global_weights_named.csv")
             (delete (os_path_join (GLOBAL_DIR HERE) "global_weights.csv") (files w_done)))
          (heap w_done) (rng w_done) (stdout w_done).

(** The two ciphertext files [main] hands to [aggregate_ciphertexts]. *)
Definition ct_files : list string :=
  [os_path_join (CT_DIR HERE) "hospital1.ct"; os_path_join (CT_DIR HERE) "hospital2.ct"].
End Toy.

(** ** Vocabulary of the further properties *)

Section ReaderVocabulary.
Context `{F : PyFloat} {P : Pandas} {L : PyfhelLib}.

(** The column names [_find_coef_column] tries, in this order (line 23). *)
Definition coef_candidates : list string := ["Coefficient"; "coefficient"; "coef"; "Coef"].

(** The text of the exception raised at line 26. *)
Definition coef_not_found_msg (df : DataFrame) : string :=
  "Coefficient column not found. Available columns: " +:+ repr_str_list (df_columns df).

(** All columns of a frame have the same number of rows, as pandas keeps them. *)
Definition rectangular (df : DataFrame) : Prop :=
  ∀ n1 c1 n2 c2, (n1, c1) ∈ df_cols df → (n2, c2) ∈ df_cols df → length c1 = length c2.

(** The file at [p] is read by pandas as the frame [df]. *)
Definition reads_as (w : World) (p : string) (df : DataFrame) : Prop :=
  ∃ b, files w !! p = Some b ∧ csv_parse b = inr df.

(** The number of rows whose feature name is "intercept" in any casing. *)
Definition intercept_rows (feature : list cell) : nat :=
  length (filter (λ m, m = true) (intercept_mask feature)).

(** The frame LogisticRegression.py builds at lines 27-28: a column
    "feature" with the names of the training columns and a column
    "Coffiecients" with the fitted coefficients, then one more row
    ["intercept", intercept]. *)
Definition hospital2_weights (X_columns : list string) (coef : list float) (intercept : float)
    : DataFrame :=
  mkDataFrame [("feature", map CStr X_columns ++ [CStr "intercept"]);
               ("Coffiecients", map CFloat coef ++ [CFloat intercept])].
End ReaderVocabulary.

Section RunVocabulary.
Context `{F : PyFloat} {P : Pandas} {L : PyfhelLib}.
Variable HERE : string.

(** The files a run of [main] may write: keys, the two ciphertexts, the
    aggregate of the chosen mode and the two CSV files. *)
Definition main_outputs (do_sum : bool) : list string :=
  encryption_outputs HERE
  ++ [if do_sum then sum_path HERE else avg_path HERE;
      idx_csv_path HERE; named_csv_path HERE].

(** [m] deletes no file. *)
Definition keeps_files {A} (m : M A) : Prop :=
  ∀ w p, is_Some (files w !! p) → is_Some (files (fst (m w)) !! p).




End RunVocabulary.

(** ** More toy files: frames with named rows *)

Module ToyFrames.
Import Toy.
Local Open Scope Z_scope.

(** A second toy [read_csv]: two bytes per row, a name and a coefficient;
    the name 0 stands for the row called "Intercept". *)
Definition feature_name (x : Byte.byte) : string :=
  if bool_decide (Z_of_byte x = 0) then "Intercept" else "x" +:+ pretty (Z_of_byte x).

Fixpoint named_rows (bs : bytes) : list (string * Z) :=
  match bs with
  | n :: v :: r => (feature_name n, Z_of_byte v) :: named_rows r
  | _ => []
  end.

Definition named_frame_of (bs : bytes) : DataFrame :=
  mkDataFrame [("Feature", map (λ r, CStr (fst r)) (named_rows bs));
               ("Coefficient", map (λ r, CInt (snd r)) (named_rows bs))].

Definition named_pandas : Pandas := {|
  csv_parse := λ bs, inr (named_frame_of bs);
  csv_render := csv_render (Pandas := toy_pandas);
|}.

(** A third one, for the file LogisticRegression.py writes: one byte per
    feature row, the intercept row appended. *)
Definition hospital2_pandas : Pandas := {|
  csv_parse := λ bs,
    inr (hospital2_weights (map (λ x, "x" +:+ pretty (Z_of_byte x)) bs) (map Z_of_byte bs) 1);
  csv_render := csv_render (Pandas := toy_pandas);
|}.

(** Rows x3 = 10, Intercept = 7, x4 = 20; the same rows under other names;
    a file without rows. *)
Definition h_named : bytes := [b 3; b 10; b 0; b 7; b 4; b 20].
Definition h_renamed : bytes := [b 8; b 10; b 0; b 7; b 9; b 20].

(** Rows x3 = 10, Intercept = 7, x4 = 20, Intercept = 9. *)
Definition h_two_intercepts : bytes := [b 3; b 10; b 0; b 7; b 4; b 20; b 0; b 9].

Definition w_named : World := mkWorld
  (<["/data/h1.csv" := h_named]> (<["/data/h1_renamed.csv" := h_renamed]>
     (<["/data/two.csv" := h_two_intercepts]> (<["/data/empty.csv" := []]> ∅)))) [] 42%Z [].

(** The finished machine of [Toy] without its secret key file. *)
Definition w_no_secret : World :=
  mkWorld (delete (os_path_join (KEY_DIR HERE) "ckks_secret.key") (files w_done))
          (heap w_done) (rng w_done) (stdout w_done).

(** The fresh machine of [Toy] once keys are generated, and the handle. *)
Definition w_keys : World := Eval vm_compute in fst (keygen_if_missing_default HERE w0).
Definition HE_keys : HE_t := Eval vm_compute in
  match snd (keygen_if_missing_default HERE w0) with
  | inr HE => HE
  | inl _ => Pyfhel_new
  end.
End ToyFrames.


(** ** The persisted formats, modelled from the spec

    Ckks.py saves and loads the context, the keys and the ciphertexts only
    through Pyfhel ([save_context], [load_public_key], [PyCtxt.save], ...).
    The code of these serialisers is not under src/; what the spec says of
    the persisted values (§3) and of their files (§6, §7) is modelled here. *)

Module Persisted.
Local Open Scope N_scope.

(** Modelled from the spec: the ParameterSet of §3, "ring_dimension,
    modulus_chain (ordered list of coprime primes), scale, security_level";
    it is what the context file holds (§6).  Missing from src/: the engine's
    context type. *)
Record ParameterSet : Type := mkParameterSet {
  ring_dimension : N;
  modulus_chain : list N;
  scale : N;
  security_level : N;
}.

(** Modelled from the spec: a polynomial as it is persisted, "ordered
    sequence of fixed-width integers per RNS limb" (§6): one sequence of
    coefficients per prime.  Missing from src/: the engine's polynomials. *)
Definition Polynomial : Type := list (list N).

(** Modelled from the spec: SecretKey, "a polynomial [...] reduced mod each
    prime in the chain"; PublicKey, "a pair of polynomials" (§3). *)
Definition SecretKey : Type := Polynomial.
Definition PublicKey : Type := (Polynomial * Polynomial)%type.

(** Modelled from the spec: Ciphertext, "pair of polynomials (c0, c1) each
    reduced modulo the current modulus level, current scale, current
    modulus-chain level/depth" (§3). *)
Record Ciphertext : Type := mkCiphertext {
  ct_c0 : Polynomial;
  ct_c1 : Polynomial;
  ct_scale : N;
  ct_level : N;
}.

(** Modelled from the spec: the one error of loading (§7), "persisted file
    is truncated/corrupted/from an incompatible context". *)
Inductive error : Type := DeserializationError.

Section Formats.
(** The width, in bytes, of the "fixed-width integers" of §6.  The spec
    fixes neither the width nor the byte order; the width is left open and
    the least significant byte is written first. *)
Variable width : nat.

(** Modelled from the spec: an integer that fits the "fixed-width integers"
    of §6.  Missing from src/: the serialisers, for this and every
    definition of this section. *)
Definition fixed_width (x : N) : Prop := x < 256 ^ N.of_nat width.

(** Modelled from the spec: one fixed-width integer as its bytes, least
    significant first, and back. *)
Definition byte_of_N (x : N) : Byte.byte := default Byte.x00 (Byte.of_N (x mod 256)).

Fixpoint le_bytes (k : nat) (x : N) : bytes :=
  match k with
  | O => []
  | S k' => byte_of_N x :: le_bytes k' (x / 256)
  end.

Fixpoint le_value (bs : bytes) : N :=
  match bs with
  | [] => 0
  | b :: r => Byte.to_N b + 256 * le_value r
  end.

(** Modelled from the spec: a sequence cut into [k] consecutive pieces of
    [n] elements each, as a file of fixed-width integers is read. *)
Fixpoint chunks {A} (k n : nat) (xs : list A) : list (list A) :=
  match k with
  | O => []
  | S k' => take n xs :: chunks k' n (drop n xs)
  end.

(** Modelled from the spec: a file as a sequence of fixed-width integers
    (§6).  A file whose length is no multiple of the width is truncated. *)
Definition ints_to_bytes (xs : list N) : bytes := concat (map (le_bytes width) xs).

(** Modelled from the spec: reading such a file; a length that is no
    multiple of the width is the "truncated" file of §7. *)
Definition ints_of_bytes (bs : bytes) : option (list N) :=
  let k := (length bs / width)%nat in
  if bool_decide (length bs = (k * width)%nat)
  then Some (map le_value (chunks k width bs))
  else None.

(** Modelled from the spec: the context file, "serialized ParameterSet
    (ring_dimension, modulus chain primes, scale, security_level tag)" (§6),
    the four in this order. *)
Definition save_context (ps : ParameterSet) : bytes :=
  ints_to_bytes (ring_dimension ps :: modulus_chain ps ++ [scale ps; security_level ps]).

(** Modelled from the spec: loading the context file; a file too short to
    hold the three scalar fields raises DeserializationError (§7). *)
Definition load_context (bs : bytes) : error + ParameterSet :=
  match ints_of_bytes bs with
  | Some (n :: rest) =>
      match reverse rest with
      | sec :: sc :: primes => inr (mkParameterSet n (reverse primes) sc sec)
      | _ => inl DeserializationError
      end
  | _ => inl DeserializationError
  end.

(** Modelled from the spec: a polynomial of a context has one limb per prime
    of the chain it is reduced by, as many coefficients per limb as the ring
    dimension, each coefficient reduced modulo the prime of its limb (§3,
    §4.2). *)
Definition poly_ok (n : nat) (primes : list N) (p : Polynomial) : Prop :=
  Forall2 (λ q limb, length limb = n ∧ Forall (λ x, x < q) limb) primes p.

#[export] Instance poly_ok_dec n primes p : Decision (poly_ok n primes p).
Proof. unfold poly_ok. apply _. Defined.

(** Modelled from the spec: the integers of a file as a polynomial of the
    context; anything else than a polynomial of this context is refused
    ("from an incompatible context", §7). *)
Definition poly_of_ints (n : nat) (primes : list N) (xs : list N) : option Polynomial :=
  let p := chunks (length primes) n xs in
  if bool_decide (length xs = (length primes * n)%nat ∧ poly_ok n primes p)
  then Some p else None.

(** Modelled from the spec: the number of coefficients of a polynomial of
    the ring, the ring dimension (§3). *)
Definition degree (ps : ParameterSet) : nat := N.to_nat (ring_dimension ps).

(** Modelled from the spec: the secret key file, "same layout as one
    polynomial", and the public key file, "two polynomials" (§6).  Loading
    takes the context and refuses a file "from an incompatible context"
    (§7). *)
Definition save_secret_key (sk : SecretKey) : bytes := ints_to_bytes (concat sk).

(** Modelled from the spec: loading the secret key file under a context. *)
Definition load_secret_key (ps : ParameterSet) (bs : bytes) : error + SecretKey :=
  match ints_of_bytes bs with
  | Some xs =>
      match poly_of_ints (degree ps) (modulus_chain ps) xs with
      | Some p => inr p
      | None => inl DeserializationError
      end
  | None => inl DeserializationError
  end.

(** Modelled from the spec: the public key file, its two polynomials one
    after the other. *)
Definition save_public_key (pk : PublicKey) : bytes :=
  ints_to_bytes (concat (fst pk) ++ concat (snd pk)).

(** Modelled from the spec: loading the public key file under a context. *)
Definition load_public_key (ps : ParameterSet) (bs : bytes) : error + PublicKey :=
  match ints_of_bytes bs with
  | Some xs =>
      let m := (length (modulus_chain ps) * degree ps)%nat in
      match poly_of_ints (degree ps) (modulus_chain ps) (take m xs),
            poly_of_ints (degree ps) (modulus_chain ps) (drop m xs) with
      | Some a, Some b => inr (a, b)
      | _, _ => inl DeserializationError
      end
  | None => inl DeserializationError
  end.

(** Modelled from the spec: the primes a ciphertext of level [l] is reduced
    by ("the current modulus level", §3).  The spec does not say which
    primes a level stands for; the level is read as the number of primes of
    the chain still in use, the first [l] of them. *)
Definition primes_at (ps : ParameterSet) (l : N) : list N :=
  take (N.to_nat l) (modulus_chain ps).

(** Modelled from the spec: the ciphertext file, "two polynomials + scale +
    level metadata" (§6), in this order. *)
Definition save_ciphertext (c : Ciphertext) : bytes :=
  ints_to_bytes (concat (ct_c0 c) ++ concat (ct_c1 c) ++ [ct_scale c; ct_level c]).

(** Modelled from the spec: loading the ciphertext file under a context;
    a level beyond the chain, or polynomials that are not of this context
    at this level, raise DeserializationError (§7). *)
Definition load_ciphertext (ps : ParameterSet) (bs : bytes) : error + Ciphertext :=
  match ints_of_bytes bs with
  | Some xs =>
      match reverse xs with
      | level :: sc :: body =>
          let primes := primes_at ps level in
          let m := (length primes * degree ps)%nat in
          if bool_decide (N.to_nat level ≤ length (modulus_chain ps))%nat then
            match poly_of_ints (degree ps) primes (take m (reverse body)),
                  poly_of_ints (degree ps) primes (drop m (reverse body)) with
            | Some a, Some b => inr (mkCiphertext a b sc level)
            | _, _ => inl DeserializationError
            end
          else inl DeserializationError
      | _ => inl DeserializationError
      end
  | None => inl DeserializationError
  end.

(** Modelled from the spec: the values of the data model (§3).  Every
    field of a parameter set fits the width. *)
Definition ParameterSet_ok (ps : ParameterSet) : Prop :=
  fixed_width (ring_dimension ps) ∧ Forall fixed_width (modulus_chain ps)
  ∧ fixed_width (scale ps) ∧ fixed_width (security_level ps).

(** Modelled from the spec: a key is made of polynomials of its context,
    "reduced mod each prime in the chain" (§3). *)
Definition SecretKey_ok (ps : ParameterSet) (sk : SecretKey) : Prop :=
  poly_ok (degree ps) (modulus_chain ps) sk.

Definition PublicKey_ok (ps : ParameterSet) (pk : PublicKey) : Prop :=
  poly_ok (degree ps) (modulus_chain ps) (fst pk)
  ∧ poly_ok (degree ps) (modulus_chain ps) (snd pk).

(** Modelled from the spec: a ciphertext holds two polynomials of its
    context at its level, "each reduced modulo the current modulus level";
    its level is within the chain and its scale and level fit the width. *)
Definition Ciphertext_ok (ps : ParameterSet) (c : Ciphertext) : Prop :=
  (N.to_nat (ct_level c) ≤ length (modulus_chain ps))%nat
  ∧ poly_ok (degree ps) (primes_at ps (ct_level c)) (ct_c0 c)
  ∧ poly_ok (degree ps) (primes_at ps (ct_level c)) (ct_c1 c)
  ∧ fixed_width (ct_scale c) ∧ fixed_width (ct_level c).
End Formats.
End Persisted.

(** ** Pyfhel over the persisted formats *)

(** Modelled from the spec: the operations of §4 other than serialisation
    ([createContext], [generateKeys], encoding, encryption, decryption,
    addition, multiplication by a plain scalar), over the values of
    [Persisted].  Missing from src/: the engine; what these operations
    compute stays a parameter. *)
Record Engine `{PyFloat} : Type := mkEngine {
  eng_Plaintext : Type;
  eng_Rng : Type;
  createContext : Z → Z → Z → res Persisted.ParameterSet;
  generateKeys : Persisted.ParameterSet → eng_Rng
                 → res (Persisted.PublicKey * Persisted.SecretKey) * eng_Rng;
  eng_encode : PyfhelObj Persisted.ParameterSet Persisted.PublicKey Persisted.SecretKey
               → list float → res eng_Plaintext;
  eng_encrypt : PyfhelObj Persisted.ParameterSet Persisted.PublicKey Persisted.SecretKey
                → eng_Plaintext → eng_Rng → res Persisted.Ciphertext * eng_Rng;
  eng_decrypt : PyfhelObj Persisted.ParameterSet Persisted.PublicKey Persisted.SecretKey
                → Persisted.Ciphertext → res (list float);
  eng_add : PyfhelObj Persisted.ParameterSet Persisted.PublicKey Persisted.SecretKey
            → Persisted.Ciphertext → Persisted.Ciphertext → res Persisted.Ciphertext;
  eng_multiplyPlainScalar :
    PyfhelObj Persisted.ParameterSet Persisted.PublicKey Persisted.SecretKey
    → Persisted.Ciphertext → float → res Persisted.Ciphertext;
}.

(** A failed load as the Python exception the script sees. *)
Definition raised {A} (r : Persisted.error + A) : res A :=
  match r with
  | inl Persisted.DeserializationError => inl (RuntimeError "DeserializationError")
  | inr a => inr a
  end.

(** The library interface of the script, with the engine [E] and the
    persisted formats for integers of [width] bytes. *)
Definition persisted_lib `{PyFloat} (width : nat) (E : Engine) : PyfhelLib := {|
  HEContext := Persisted.ParameterSet;
  PublicKey := Persisted.PublicKey;
  SecretKey := Persisted.SecretKey;
  PyPtxt := eng_Plaintext E;
  Ciphertext := Persisted.Ciphertext;
  Rng := eng_Rng E;
  contextGen_ckks := createContext E;
  keyGen := generateKeys E;
  context_to_bytes := Persisted.save_context width;
  context_from_bytes := λ b, raised (Persisted.load_context width b);
  publicKey_to_bytes := Persisted.save_public_key width;
  publicKey_from_bytes := λ ps b, raised (Persisted.load_public_key width ps b);
  secretKey_to_bytes := Persisted.save_secret_key width;
  secretKey_from_bytes := λ ps b, raised (Persisted.load_secret_key width ps b);
  ctxt_to_bytes := Persisted.save_ciphertext width;
  ctxt_from_bytes := λ HE b,
    match he_ctx HE with
    | Some ps => raised (Persisted.load_ciphertext width ps b)
    | None => inl (RuntimeError "context not initialized")
    end;
  encodeVec := eng_encode E;
  encryptPtxt := eng_encrypt E;
  decryptFrac := eng_decrypt E;
  ctxt_add := eng_add E;
  ctxt_mul_scalar := eng_multiplyPlainScalar E;
|}.

(** Modelled from the spec: what the engine's operations produce are values
    of the data model (§3): parameter sets whose fields fit the width, keys
    and ciphertexts that are polynomials of the context they were made
    under. *)
Record Engine_ok `{PyFloat} (width : nat) (E : Engine) : Prop := {
  createContext_ok : ∀ n sc sec ps,
    createContext E n sc sec = inr ps → Persisted.ParameterSet_ok width ps;
  generateKeys_ok : ∀ ps g pk sk,
    Persisted.ParameterSet_ok width ps →
    fst (generateKeys E ps g) = inr (pk, sk) →
    Persisted.PublicKey_ok ps pk ∧ Persisted.SecretKey_ok ps sk;
  eng_encrypt_ok : ∀ HE ps ptxt g c,
    he_ctx HE = Some ps → Persisted.ParameterSet_ok width ps →
    fst (eng_encrypt E HE ptxt g) = inr c → Persisted.Ciphertext_ok width ps c;
}.

(** ** A tiny engine over the persisted formats

    Ring dimension 4 and the one prime 251; keys are constant polynomials
    and a ciphertext is the encoded vector shifted by the random state.  It
    serves to run the script over the formats of [Persisted]. *)

Module TinyEngine.
Import Toy.
Local Open Scope N_scope.

Definition tiny_ps : Persisted.ParameterSet := Persisted.mkParameterSet 4 [251] 16 128.

Definition tiny_handle : Type :=
  PyfhelObj Persisted.ParameterSet Persisted.PublicKey Persisted.SecretKey.

Definition tiny_createContext (n sc sec : Z) : res Persisted.ParameterSet :=
  if bool_decide (0 < n)%Z then inr tiny_ps else inl (ValueError "invalid parameters").

(** The polynomial whose coefficients are all [x], reduced by each prime. *)
Definition constant_poly (n : nat) (primes : list N) (x : N) : Persisted.Polynomial :=
  map (λ q, replicate n (x mod q)) primes.

(** The coefficients [xs], padded or cut to the ring dimension, shifted by
    [k] and reduced by each prime. *)
Definition shifted_poly (n : nat) (primes : list N) (k : N) (xs : list N)
    : Persisted.Polynomial :=
  map (λ q, take n (map (λ x, (x + k) mod q) xs ++ replicate n 0)) primes.

Definition positive_chain (ps : Persisted.ParameterSet) : bool :=
  bool_decide (Persisted.modulus_chain ps ≠ [] ∧ Forall (λ q, 0 < q) (Persisted.modulus_chain ps)).

Definition tiny_generateKeys (ps : Persisted.ParameterSet) (g : N)
    : res (Persisted.PublicKey * Persisted.SecretKey) * N :=
  if positive_chain ps then
    let poly := constant_poly (Persisted.degree ps) (Persisted.modulus_chain ps) in
    (inr ((poly g, poly (g + 1)), poly (g + 2)), g + 3)
  else (inl (ValueError "invalid parameters"), g).

Definition tiny_encode (HE : tiny_handle) (v : list Z) : res (list N) := inr (map Z.to_N v).

Definition tiny_encrypt (HE : tiny_handle) (ptxt : list N) (g : N)
    : res Persisted.Ciphertext * N :=
  match he_ctx HE, he_pk HE with
  | Some ps, Some _ =>
      if positive_chain ps then
        let primes := Persisted.primes_at ps 1 in
        (inr (Persisted.mkCiphertext
                (shifted_poly (Persisted.degree ps) primes g ptxt)
                (constant_poly (Persisted.degree ps) primes g)
                (Persisted.scale ps) 1), g + 1)
      else (inl (ValueError "invalid parameters"), g)
  | _, _ => (inl (RuntimeError "no public key"), g)
  end.

Definition tiny_decrypt (HE : tiny_handle) (c : Persisted.Ciphertext) : res (list Z) :=
  match he_sk HE, Persisted.ct_c0 c, Persisted.ct_c1 c with
  | Some _, limb :: _, (k :: _) :: _ => inr (map (λ x, Z.of_N x - Z.of_N k)%Z limb)
  | _, _, _ => inl (RuntimeError "cannot decrypt")
  end.

Definition tiny_add (HE : tiny_handle) (a b : Persisted.Ciphertext) : res Persisted.Ciphertext :=
  if bool_decide (Persisted.ct_level a = Persisted.ct_level b
                  ∧ Persisted.ct_scale a = Persisted.ct_scale b) then
    inr (Persisted.mkCiphertext
           (zip_with (zip_with N.add) (Persisted.ct_c0 a) (Persisted.ct_c0 b))
           (zip_with (zip_with N.add) (Persisted.ct_c1 a) (Persisted.ct_c1 b))
           (Persisted.ct_scale a) (Persisted.ct_level a))
  else inl (RuntimeError "level or scale mismatch").

Definition tiny_multiplyPlainScalar (HE : tiny_handle) (a : Persisted.Ciphertext) (k : Z)
    : res Persisted.Ciphertext :=
  inr (Persisted.mkCiphertext
         (map (map (N.mul (Z.to_N k))) (Persisted.ct_c0 a))
         (map (map (N.mul (Z.to_N k))) (Persisted.ct_c1 a))
         (Persisted.ct_scale a) (Persisted.ct_level a)).

Definition tiny_engine : Engine := {|
  eng_Plaintext := list N;
  eng_Rng := N;
  createContext := tiny_createContext;
  generateKeys := tiny_generateKeys;
  eng_encode := tiny_encode;
  eng_encrypt := tiny_encrypt;
  eng_decrypt := tiny_decrypt;
  eng_add := tiny_add;
  eng_multiplyPlainScalar := tiny_multiplyPlainScalar;
|}.

(** Pyfhel with this engine and integers of 8 bytes. *)
Definition tiny_persisted : PyfhelLib := persisted_lib 8 tiny_engine.

(** A fresh machine holding one weight file of three rows. *)
Definition w_tiny
    : World_of (PyCtxt_of Persisted.ParameterSet Persisted.PublicKey Persisted.SecretKey
                          Persisted.Ciphertext) N (out_line_of Z) :=
  mkWorld (<["/data/h1.csv" := [b 1; b 2; b 5]]> ∅) [] 42 [].
End TinyEngine.
(** * Properties *)

(** ** Paths *)

Lemma str_app_cons (x : ascii) (a b : string) : String x a +:+ b = String x (a +:+ b).
Proof. reflexivity. Qed.

Lemma str_app_assoc (a b c : string) : (a +:+ b) +:+ c = a +:+ (b +:+ c).
Proof. induction a as [|x a IH]; [done|]. rewrite !str_app_cons. by f_equal. Qed.

Lemma ends_with_slash_app (a : string) (c : ascii) (r : string) :
  ends_with_slash (a +:+ String c r) = ends_with_slash (String c r).
Proof.
  induction a as [|x a IH]; [done|].
  rewrite str_app_cons. cbn [ends_with_slash]. rewrite IH.
  destruct a; reflexivity.
Qed.

Lemma is_empty_app (a : string) (c : ascii) (r : string) : is_empty (a +:+ String c r) = false.
Proof. by destruct a. Qed.

Section Paths.
Variable HERE : string.

(** Every path of the script is [HERE], the separator, and a literal suffix. *)
Lemma in_dir_eq (d f : string) (c : ascii) :
  ends_with_slash (String c d) = false →
  is_abs (String c d) = false → is_abs f = false →
  os_path_join (os_path_join HERE (String c d)) f
  = HERE +:+ (sep_after HERE +:+ (String c d +:+ ("/" +:+ f))).
Proof.
  intros Hd Hc Hf. unfold os_path_join at 1. rewrite Hf.
  unfold os_path_join. rewrite Hc.
  assert (∀ a, is_empty (a +:+ String c d) || ends_with_slash (a +:+ String c d) = false) as Hn.
  { intros a. by rewrite ends_with_slash_app, Hd, is_empty_app. }
  unfold sep_after.
  destruct (is_empty HERE || ends_with_slash HERE).
  - rewrite Hn. by rewrite !str_app_assoc.
  - rewrite <-(str_app_assoc HERE "/" (String c d)), Hn.
    by rewrite !str_app_assoc.
Qed.

Lemma ctx_path_eq : ctx_path HERE = HERE +:+ (sep_after HERE +:+ "keys/ckks_context.bin").
Proof. unfold ctx_path, KEY_DIR. by rewrite in_dir_eq. Qed.
Lemma pub_path_eq : pub_path HERE = HERE +:+ (sep_after HERE +:+ "keys/ckks_public.key").
Proof. unfold pub_path, KEY_DIR. by rewrite in_dir_eq. Qed.
Lemma sec_path_eq : sec_path HERE = HERE +:+ (sep_after HERE +:+ "keys/ckks_secret.key").
Proof. unfold sec_path, KEY_DIR. by rewrite in_dir_eq. Qed.
Lemma avg_path_eq : avg_path HERE = HERE +:+ (sep_after HERE +:+ "global/global_avg.ct").
Proof. unfold avg_path, GLOBAL_DIR. by rewrite in_dir_eq. Qed.
Lemma sum_path_eq : sum_path HERE = HERE +:+ (sep_after HERE +:+ "global/global_sum.ct").
Proof. unfold sum_path, GLOBAL_DIR. by rewrite in_dir_eq. Qed.
Lemma idx_csv_path_eq : idx_csv_path HERE = HERE +:+ (sep_after HERE +:+ "global/global_weights.csv").
Proof. unfold idx_csv_path, GLOBAL_DIR. by rewrite in_dir_eq. Qed.
Lemma named_csv_path_eq :
  named_csv_path HERE = HERE +:+ (sep_after HERE +:+ "global/global_weights_named.csv").
Proof. unfold named_csv_path, GLOBAL_DIR. by rewrite in_dir_eq. Qed.
Lemma ct_path_of_eq (out_name : string) :
  is_abs out_name = false →
  ct_path_of HERE out_name = HERE +:+ (sep_after HERE +:+ ("ciphertexts/" +:+ out_name)).
Proof. intros Hn. unfold ct_path_of, CT_DIR. by rewrite in_dir_eq. Qed.

(** Two such paths differ as soon as their suffixes do. *)
Lemma here_path_neq (s t : string) :
  s ≠ t → HERE +:+ (sep_after HERE +:+ s) ≠ HERE +:+ (sep_after HERE +:+ t).
Proof. intros Hne Heq. apply Hne. by do 2 apply String.app_inj in Heq. Qed.
End Paths.

Ltac path_neq :=
  rewrite ?ctx_path_eq, ?pub_path_eq, ?sec_path_eq, ?avg_path_eq, ?sum_path_eq,
    ?idx_csv_path_eq, ?named_csv_path_eq, ?ct_path_of_eq by reflexivity;
  apply here_path_neq; discriminate.


(** ** Reasoning about computations *)

Section Effects.
Context `{F : PyFloat} {P : Pandas} {L : PyfhelLib}.

Lemma bind_run {A B} (m : M A) (k : A → M B) w :
  bind m k w = match snd (m w) with
               | inl e => (fst (m w), inl e)
               | inr a => k a (fst (m w))
               end.
Proof. unfold bind. by destruct (m w) as [w' [e|a]]. Qed.

Lemma bind_ok {A B} (m : M A) (k : A → M B) w w' a :
  m w = (w', inr a) → bind m k w = k a w'.
Proof. intros Hm. unfold bind. by rewrite Hm. Qed.

(** A successful [bind] splits into its two successful halves. *)
Lemma bind_inv_ok {A B} (m : M A) (k : A → M B) w w'' b :
  bind m k w = (w'', inr b) → ∃ w' a, m w = (w', inr a) ∧ k a w' = (w'', inr b).
Proof. unfold bind. destruct (m w) as [w' [e|a]]; [done|eauto]. Qed.

(** *** Read-only computations *)

Lemma readonly_ret {A} (a : A) : readonly (ret a).
Proof. done. Qed.
Lemma readonly_raise {A} e : readonly (raise (A:=A) e).
Proof. done. Qed.
Lemma readonly_lift {A} (r : res A) : readonly (lift r).
Proof. done. Qed.
Lemma readonly_bind {A B} (m : M A) (k : A → M B) :
  readonly m → (∀ a, readonly (k a)) → readonly (bind m k).
Proof.
  intros Hm Hk w. rewrite bind_run. specialize (Hm w).
  destruct (snd (m w)); simpl; [done|]. rewrite Hk. done.
Qed.
Lemma readonly_exists p : readonly (os_path_exists p).
Proof. done. Qed.
Lemma readonly_read_file p : readonly (read_file p).
Proof. intros w. unfold read_file. by destruct (files w !! p). Qed.
Lemma readonly_get_obj r : readonly (get_obj r).
Proof. intros w. unfold get_obj. by destruct (heap w !! r). Qed.
Lemma readonly_index {A} (xs : list A) i : readonly (index xs i).
Proof. unfold index. by destruct (xs !! i). Qed.
Lemma readonly_the_context HE : readonly (the_context HE).
Proof. unfold the_context. by destruct (he_ctx HE). Qed.
Lemma readonly_if {A} (c : bool) (m1 m2 : M A) :
  readonly m1 → readonly m2 → readonly (if c then m1 else m2).
Proof. by destruct c. Qed.

(** *** Computations that respect a relation between worlds *)

Lemma respects_ret R {A} (a : A) : respects R (ret a).
Proof. by intros w1 w2 HR. Qed.
Lemma respects_raise R {A} e : respects R (raise (A:=A) e).
Proof. by intros w1 w2 HR. Qed.
Lemma respects_lift R {A} (r : res A) : respects R (lift r).
Proof. by intros w1 w2 HR. Qed.
Lemma respects_bind R {A B} (m : M A) (k : A → M B) :
  respects R m → (∀ a, respects R (k a)) → respects R (bind m k).
Proof.
  intros Hm Hk w1 w2 HR. rewrite !bind_run.
  destruct (Hm w1 w2 HR) as [HR' ->].
  destruct (snd (m w2)); [done|]. by apply Hk.
Qed.
Lemma respects_if R {A} (c : bool) (m1 m2 : M A) :
  respects R m1 → respects R m2 → respects R (if c then m1 else m2).
Proof. by destruct c. Qed.
Lemma respects_index R {A} (xs : list A) i : respects R (index xs i).
Proof. unfold index. destruct (xs !! i); [apply respects_ret|apply respects_raise]. Qed.
Lemma respects_the_context R HE : respects R (the_context HE).
Proof.
  unfold the_context. destruct (he_ctx HE); [apply respects_ret|apply respects_raise].
Qed.

(** *** Computations that write only within a set of paths *)

Lemma writes_within_readonly S {A} (m : M A) : readonly m → writes_within S m.
Proof. intros Hm w p _. by rewrite Hm. Qed.
Lemma writes_within_bind S {A B} (m : M A) (k : A → M B) :
  writes_within S m → (∀ a, writes_within S (k a)) → writes_within S (bind m k).
Proof.
  intros Hm Hk w p Hp. rewrite bind_run.
  destruct (snd (m w)) as [e|a]; cbn [fst]; [by apply Hm|].
  rewrite (Hk a _ p Hp). by apply Hm.
Qed.
Lemma writes_within_if S {A} (c : bool) (m1 m2 : M A) :
  writes_within S m1 → writes_within S m2 → writes_within S (if c then m1 else m2).
Proof. by destruct c. Qed.
Lemma writes_within_try S {A} (m : M A) (h : exn → M A) :
  writes_within S m → (∀ e, writes_within S (h e)) → writes_within S (try_except m h).
Proof.
  intros Hm Hh w p Hp. unfold try_except. specialize (Hm w p Hp).
  destruct (m w) as [w1 [e|a]]; cbn [fst] in *; [|done].
  by rewrite (Hh e w1 p Hp).
Qed.
Lemma writes_within_write_file S q b : q ∈ S → writes_within S (write_file q b).
Proof.
  intros Hq w p Hp. cbn [write_file fst files]. apply lookup_insert_ne. by intros ->.
Qed.
Lemma writes_within_print S l : writes_within S (print l).
Proof. done. Qed.
Lemma writes_within_with_rng S {A} (f : Rng → res A * Rng) : writes_within S (with_rng f).
Proof. done. Qed.
Lemma writes_within_new_obj S c : writes_within S (new_obj c).
Proof. done. Qed.
Lemma writes_within_set_obj S r c : writes_within S (set_obj r c).
Proof. done. Qed.

(** What a read-only computation returns, with the world it ran in. *)
Lemma readonly_run {A} (m : M A) w : readonly m → m w = (w, snd (m w)).
Proof. intros Hm. rewrite <-(Hm w) at 2. by destruct (m w). Qed.
End Effects.

Create HintDb ro discriminated.
#[export] Hint Resolve readonly_ret readonly_raise readonly_lift readonly_exists
  readonly_read_file readonly_get_obj readonly_index readonly_the_context : ro.

Ltac ro_step :=
  first [ apply readonly_bind; [|intros ?]
        | apply readonly_if
        | solve [eauto with ro] ].
Ltac ro := repeat ro_step.

Section ReadOnly.
Context `{F : PyFloat} {P : Pandas} {L : PyfhelLib}.
Variable HERE : string.

Lemma readonly_pd_read_csv p : readonly (pd_read_csv p).
Proof. unfold pd_read_csv. ro. Qed.
Lemma readonly_contextLoad HE p : readonly (contextLoad HE p).
Proof. unfold contextLoad. ro. Qed.
Lemma readonly_restorepublicKey HE p : readonly (restorepublicKey HE p).
Proof. unfold restorepublicKey. ro. Qed.
Lemma readonly_restoresecretKey HE p : readonly (restoresecretKey HE p).
Proof. unfold restoresecretKey. ro. Qed.
Hint Resolve readonly_pd_read_csv readonly_contextLoad readonly_restorepublicKey
  readonly_restoresecretKey : ro.

Lemma readonly_load_for_server : readonly (load_for_server HERE).
Proof. unfold load_for_server. ro. Qed.
Lemma readonly_load_for_decrypt : readonly (load_for_decrypt HERE).
Proof. unfold load_for_decrypt. ro. Qed.
Lemma readonly_weights_csv_to_vector p : readonly (weights_csv_to_vector p).
Proof. unfold weights_csv_to_vector. ro. Qed.
Lemma readonly_weights_csv_feature_names p : readonly (weights_csv_feature_names p).
Proof. unfold weights_csv_feature_names. ro. Qed.
Lemma readonly_HE_decryptFrac HE r : readonly (HE_decryptFrac HE r).
Proof. unfold HE_decryptFrac. ro. Qed.
End ReadOnly.

#[export] Hint Resolve readonly_pd_read_csv readonly_contextLoad readonly_restorepublicKey
  readonly_restoresecretKey readonly_load_for_server readonly_load_for_decrypt
  readonly_weights_csv_to_vector readonly_weights_csv_feature_names
  readonly_HE_decryptFrac : ro.

(** ** Running a computation step by step *)

Section Run.
Context `{F : PyFloat} {P : Pandas} {L : PyfhelLib}.

Lemma run_assoc {A B C} (m : M A) (k1 : A → M B) (k2 : B → M C) w :
  bind (bind m k1) k2 w = bind m (λ a, bind (k1 a) k2) w.
Proof. unfold bind. by destruct (m w) as [w' [e|a]]. Qed.
Lemma run_ret {A B} (a : A) (k : A → M B) w : bind (ret a) k w = k a w.
Proof. done. Qed.
Lemma run_raise {A B} e (k : A → M B) w : bind (raise e) k w = (w, inl e).
Proof. done. Qed.
Lemma run_lift {A B} (r : res A) (k : A → M B) w :
  bind (lift r) k w = match r with inl e => (w, inl e) | inr a => k a w end.
Proof. by destruct r. Qed.
Lemma run_exists {B} p (k : bool → M B) w :
  bind (os_path_exists p) k w = k (bool_decide (is_Some (files w !! p))) w.
Proof. done. Qed.
Lemma run_read_file {B} p (k : bytes → M B) w :
  bind (read_file p) k w
  = match files w !! p with Some b => k b w | None => (w, inl (FileNotFoundError p)) end.
Proof. unfold bind, read_file. by destruct (files w !! p). Qed.
Lemma run_write_file {B} p b (k : unit → M B) w :
  bind (write_file p b) k w = k tt (mkWorld (<[p := b]> (files w)) (heap w) (rng w) (stdout w)).
Proof. done. Qed.
Lemma run_print {B} l (k : unit → M B) w :
  bind (print l) k w = k tt (mkWorld (files w) (heap w) (rng w) (stdout w ++ [l])).
Proof. done. Qed.
Lemma run_with_rng {A B} (f : Rng → res A * Rng) (k : A → M B) w :
  bind (with_rng f) k w
  = match fst (f (rng w)) with
    | inl e => (mkWorld (files w) (heap w) (snd (f (rng w))) (stdout w), inl e)
    | inr a => k a (mkWorld (files w) (heap w) (snd (f (rng w))) (stdout w))
    end.
Proof. unfold bind, with_rng. by destruct (fst (f (rng w))). Qed.
Lemma run_new_obj {B} c (k : nat → M B) w :
  bind (new_obj c) k w
  = k (length (heap w)) (mkWorld (files w) (heap w ++ [c]) (rng w) (stdout w)).
Proof. done. Qed.
Lemma run_get_obj {B} r (k : PyCtxt → M B) w :
  bind (get_obj r) k w
  = match heap w !! r with
    | Some c => k c w
    | None => (w, inl (RuntimeError "no such object"))
    end.
Proof. unfold bind, get_obj. by destruct (heap w !! r). Qed.
Lemma run_set_obj {B} r c (k : unit → M B) w :
  bind (set_obj r c) k w = k tt (mkWorld (files w) (<[r := c]> (heap w)) (rng w) (stdout w)).
Proof. done. Qed.
Lemma run_the_context {B} HE (k : HEContext → M B) w :
  bind (the_context HE) k w
  = match he_ctx HE with
    | Some c => k c w
    | None => (w, inl (RuntimeError "context not initialized"))
    end.
Proof. unfold the_context. by destruct (he_ctx HE). Qed.
Lemma run_index {A B} (xs : list A) i (k : A → M B) w :
  bind (index xs i) k w
  = match xs !! i with
    | Some x => k x w
    | None => (w, inl (IndexError "index out of range"))
    end.
Proof. unfold index. by destruct (xs !! i). Qed.
End Run.

Ltac run1 :=
  first [ rewrite run_assoc | rewrite run_ret | rewrite run_raise | rewrite run_lift
        | rewrite run_exists | rewrite run_read_file | rewrite run_write_file
        | rewrite run_print | rewrite run_with_rng | rewrite run_new_obj
        | rewrite run_get_obj | rewrite run_set_obj | rewrite run_the_context
        | rewrite run_index ].
Ltac run :=
  repeat first [ run1 | progress cbn [he_ctx he_pk he_sk ct_pyfhel ct_val files heap rng stdout fst snd] ].

(** ** Key generation and reuse *)

Section Keygen.
Context `{F : PyFloat} {P : Pandas} {L : PyfhelLib}.
Variable HERE : string.

Lemma keygen_all_exist n s b w :
  all_key_files_exist HERE w → keygen_if_missing HERE n s b w = load_for_decrypt HERE w.
Proof.
  intros (Hc & Hp & Hs). unfold keygen_if_missing. rewrite !run_exists.
  fold (ctx_path HERE) (pub_path HERE) (sec_path HERE).
  rewrite !bool_decide_eq_true_2 by done. reflexivity.
Qed.

Lemma keygen_some_missing n s b w :
  ¬ all_key_files_exist HERE w →
  keygen_if_missing HERE n s b w
  = (let! HE := contextGen Pyfhel_new n (2 ^ s) b in
     let! HE := HE_keyGen HE in
     contextSave HE (ctx_path HERE);;
     savepublicKey HE (pub_path HERE);;
     savesecretKey HE (sec_path HERE);;
     print (OutKeysGenerated (KEY_DIR HERE));;
     ret HE) w.
Proof.
  intros Hn. unfold keygen_if_missing. rewrite !run_exists.
  fold (ctx_path HERE) (pub_path HERE) (sec_path HERE).
  destruct (bool_decide _ && bool_decide _ && bool_decide _) eqn:Hb; [|done].
  destruct Hn. rewrite !andb_true_iff, !bool_decide_eq_true in Hb.
  by destruct Hb as [[? ?] ?].
Qed.

(** What the generating branch does when it succeeds. *)
Lemma keygen_generates n s b w w' HE :
  ¬ all_key_files_exist HERE w →
  keygen_if_missing HERE n s b w = (w', inr HE) →
  ∃ c pk sk,
    HE = mkPyfhel (Some c) (Some pk) (Some sk)
    ∧ contextGen_ckks n (2 ^ s) b = inr c
    ∧ fst (keyGen c (rng w)) = inr (pk, sk)
    ∧ files w' = <[sec_path HERE := secretKey_to_bytes sk]>
                   (<[pub_path HERE := publicKey_to_bytes pk]>
                      (<[ctx_path HERE := context_to_bytes c]> (files w))).
Proof.
  intros Hn. rewrite (keygen_some_missing _ _ _ _ Hn).
  unfold contextGen, HE_keyGen, contextSave, savepublicKey, savesecretKey. run.
  destruct (contextGen_ckks n (2 ^ s) b) as [e|c]; [done|]. run.
  destruct (fst (keyGen c (rng w))) as [e|[pk sk]] eqn:Hk; [done|]. run.
  unfold ret. intros [= <- <-]. exists c, pk, sk. done.
Qed.

Lemma load_for_decrypt_same_files w1 w2 :
  same_key_files HERE w1 w2 → snd (load_for_decrypt HERE w1) = snd (load_for_decrypt HERE w2).
Proof.
  intros (Hc & Hp & Hs). unfold ctx_path, pub_path, sec_path in *.
  unfold load_for_decrypt, contextLoad, restorepublicKey, restoresecretKey. run.
  rewrite Hc. destruct (files w2 !! _); [|done]. run.
  destruct (context_from_bytes _); [done|]. run.
  rewrite Hp. destruct (files w2 !! _); [|done]. run.
  destruct (publicKey_from_bytes _ _); [done|]. run.
  rewrite Hs. destruct (files w2 !! _); [|done]. run.
  by destruct (secretKey_from_bytes _ _).
Qed.

Lemma load_for_decrypt_saved w c pk sk :
  keys_load_back c pk sk →
  files w !! ctx_path HERE = Some (context_to_bytes c) →
  files w !! pub_path HERE = Some (publicKey_to_bytes pk) →
  files w !! sec_path HERE = Some (secretKey_to_bytes sk) →
  load_for_decrypt HERE w = (w, inr (mkPyfhel (Some c) (Some pk) (Some sk))).
Proof.
  intros (Hrc & Hrp & Hrs) Hc Hp Hs. unfold ctx_path, pub_path, sec_path in *.
  unfold load_for_decrypt, contextLoad, restorepublicKey, restoresecretKey. run.
  rewrite Hc. run. rewrite Hrc. run.
  rewrite Hp. run. rewrite Hrp. run.
  rewrite Hs. run. by rewrite Hrs.
Qed.

(** After a successful call the three files exist. *)
Lemma keygen_files_exist n s b w w' HE :
  keygen_if_missing HERE n s b w = (w', inr HE) → all_key_files_exist HERE w'.
Proof.
  intros Hrun. destruct (decide (all_key_files_exist HERE w)) as [Hall|Hn].
  - rewrite (keygen_all_exist _ _ _ _ Hall) in Hrun.
    pose proof (readonly_load_for_decrypt HERE w) as Hro.
    rewrite Hrun in Hro. simpl in Hro. by subst w'.
  - destruct (keygen_generates _ _ _ _ _ _ Hn Hrun) as (c & pk & sk & _ & _ & _ & Hf).
    unfold all_key_files_exist. rewrite Hf, !lookup_insert_is_Some'. auto.
Qed.

(** They load back to the handle the call returned: always when the call
    itself loaded them, and when it generated them as soon as the library
    loads back what it saved of that handle. *)
Lemma keygen_then_load n s b w w' HE :
  all_key_files_exist HERE w ∨ handle_loads_back HE →
  keygen_if_missing HERE n s b w = (w', inr HE) →
  load_for_decrypt HERE w' = (w', inr HE).
Proof.
  intros Hor Hrun. destruct (decide (all_key_files_exist HERE w)) as [Hall|Hn].
  - rewrite (keygen_all_exist _ _ _ _ Hall) in Hrun.
    pose proof (readonly_load_for_decrypt HERE w) as Hro.
    rewrite Hrun in Hro. simpl in Hro. by subst w'.
  - destruct Hor as [Hall|(c' & pk' & sk' & Heq & Hback)]; [done|].
    destruct (keygen_generates _ _ _ _ _ _ Hn Hrun) as (c & pk & sk & -> & _ & _ & Hf).
    injection Heq as <- <- <-.
    apply load_for_decrypt_saved; [done|..]; rewrite Hf.
    + rewrite !lookup_insert_ne by path_neq. apply lookup_insert_eq.
    + rewrite lookup_insert_ne by path_neq. apply lookup_insert_eq.
    + apply lookup_insert_eq.
Qed.

(** C9.  [keygen_if_missing] loads, and changes nothing, when the three
    key files exist; it generates and writes the three files only when one
    of them is missing.  Once a call has succeeded the three files exist,
    and every later call that finds the same three files (in this run or a
    later one, whatever parameters it is given) writes nothing and returns
    what these files load to.  That is the handle of the first call when
    the first call itself loaded the files, and, when it generated them, as
    soon as the library loads back what it saved of that handle under the
    handle's own context. *)
Theorem keygen_if_missing_reuses_keys (n s b : Z) (w : World) :
  (all_key_files_exist HERE w →
     keygen_if_missing HERE n s b w = load_for_decrypt HERE w
     ∧ fst (keygen_if_missing HERE n s b w) = w)
  ∧ (¬ all_key_files_exist HERE w → ∀ w' HE,
       keygen_if_missing HERE n s b w = (w', inr HE) →
       ∃ c pk sk,
         HE = mkPyfhel (Some c) (Some pk) (Some sk)
         ∧ contextGen_ckks n (2 ^ s) b = inr c
         ∧ fst (keyGen c (rng w)) = inr (pk, sk)
         ∧ files w' = <[sec_path HERE := secretKey_to_bytes sk]>
                        (<[pub_path HERE := publicKey_to_bytes pk]>
                           (<[ctx_path HERE := context_to_bytes c]> (files w))))
  ∧ (∀ w' HE,
       keygen_if_missing HERE n s b w = (w', inr HE) →
       all_key_files_exist HERE w'
       ∧ (∀ n' s' b' w2, same_key_files HERE w2 w' →
            keygen_if_missing HERE n' s' b' w2 = (w2, snd (load_for_decrypt HERE w')))
       ∧ (all_key_files_exist HERE w ∨ handle_loads_back HE →
          ∀ n' s' b' w2, same_key_files HERE w2 w' →
            keygen_if_missing HERE n' s' b' w2 = (w2, inr HE))).
Proof.
  split; [|split].
  - intros Hall. rewrite (keygen_all_exist _ _ _ _ Hall). split; [done|].
    apply readonly_load_for_decrypt.
  - intros Hn w' HE Hrun. by apply keygen_generates.
  - intros w' HE Hrun.
    pose proof (keygen_files_exist _ _ _ _ _ _ Hrun) as Hall'.
    assert (∀ n' s' b' w2, same_key_files HERE w2 w' →
              keygen_if_missing HERE n' s' b' w2 = (w2, snd (load_for_decrypt HERE w')))
      as Hlater.
    { intros n' s' b' w2 Hsame.
      assert (all_key_files_exist HERE w2) as Hall2.
      { destruct Hsame as (Hc & Hp & Hs), Hall' as (? & ? & ?).
        unfold all_key_files_exist. by rewrite Hc, Hp, Hs. }
      rewrite (keygen_all_exist _ _ _ _ Hall2).
      rewrite (readonly_run _ w2 (readonly_load_for_decrypt HERE)).
      by rewrite (load_for_decrypt_same_files _ _ Hsame). }
    split; [done|]. split; [done|].
    intros Hor n' s' b' w2 Hsame.
    by rewrite (Hlater _ _ _ _ Hsame), (keygen_then_load _ _ _ _ _ _ Hor Hrun).
Qed.
End Keygen.

(** ** Decryption to CSV *)

Section Decrypt.
Context `{F : PyFloat} {P : Pandas} {L : PyfhelLib}.
Variable HERE : string.

Lemma bind_assoc3 {A B C D} (m1 : M A) (m2 : A → M B) (m3 : A → B → M C) (k : C → M D) w :
  bind m1 (λ a, bind (m2 a) (λ b, bind (m3 a b) k)) w
  = bind (bind m1 (λ a, bind (m2 a) (m3 a))) k w.
Proof.
  unfold bind. destruct (m1 w) as [w1 [e|a]]; [done|].
  by destruct (m2 a w1) as [w2 [e|b]].
Qed.

Lemma decrypt_vector_files ct_path w w1 vec :
  decrypt_vector HERE ct_path w = (w1, inr vec) → files w1 = files w.
Proof.
  unfold decrypt_vector. intros Hrun.
  apply bind_inv_ok in Hrun as (w' & HE & Hload & Hrun).
  pose proof (readonly_load_for_decrypt HERE w) as Hro. rewrite Hload in Hro.
  simpl in Hro. subst w'.
  apply bind_inv_ok in Hrun as (w' & r & Hobj & Hrun).
  pose proof (readonly_HE_decryptFrac HE r w') as Hro. rewrite Hrun in Hro.
  simpl in Hro. subst w'. revert Hobj. unfold PyCtxt_load. run.
  destruct (files w !! ct_path); [|done]. run.
  destruct (ctxt_from_bytes HE _); [done|]. run.
  unfold ret. by intros [= <- _].
Qed.

(** The script from line 164 on, once the vector is decrypted. *)
Lemma decrypt_ciphertext_to_csv_run ct_path feats w w1 vec :
  decrypt_vector HERE ct_path w = (w1, inr vec) →
  decrypt_ciphertext_to_csv HERE ct_path feats w
  = let w2 := mkWorld (<[idx_csv_path HERE := csv_render (idx_frame vec)]> (files w1))
                      (heap w1) (rng w1) (stdout w1) in
    if bool_decide (length feats = length vec) then
      (mkWorld (<[named_csv_path HERE := csv_render (named_frame feats vec)]> (files w2))
               (heap w2) (rng w2)
               (stdout w2 ++ [OutDecrypted ct_path] ++ [OutDecryptedIdx (idx_csv_path HERE)]
                  ++ [OutDecryptedNamed (named_csv_path HERE)]),
       inr (idx_csv_path HERE, named_csv_path HERE))
    else (w2, inl (ValueError (length_mismatch_msg (length feats) (length vec)))).
Proof.
  intros Hvec. unfold decrypt_ciphertext_to_csv.
  rewrite bind_assoc3. fold (decrypt_vector HERE ct_path).
  rewrite (bind_ok _ _ _ _ _ Hvec).
  unfold DataFrame_of_dict, to_csv. run.
  rewrite bool_decide_eq_true_2 by (unfold arange; by rewrite !length_map, length_seq).
  run. fold (idx_csv_path HERE) (named_csv_path HERE).
  destruct (bool_decide (length feats = length vec)) eqn:Hlen; cbn [negb].
  - apply bool_decide_eq_true in Hlen. run.
    rewrite bool_decide_eq_true_2 by (by rewrite !length_map).
    run. unfold ret. by rewrite <-!app_assoc.
  - by run.
Qed.

(** C5.  When the feature-name list and the decrypted vector differ in
    length, [decrypt_ciphertext_to_csv] raises the length-mismatch
    [ValueError] and writes no Feature/Coefficient file; whenever it does
    return, the lengths were equal and that file holds both sequences in
    full: nothing is truncated or padded. *)
Theorem decrypt_length_mismatch_raises (ct_path : string) (feats : list string)
    (w w1 : World) (vec : list float) :
  decrypt_vector HERE ct_path w = (w1, inr vec) →
  (length feats ≠ length vec →
     snd (decrypt_ciphertext_to_csv HERE ct_path feats w)
     = inl (ValueError (length_mismatch_msg (length feats) (length vec)))
     ∧ files (fst (decrypt_ciphertext_to_csv HERE ct_path feats w)) !! named_csv_path HERE
       = files w !! named_csv_path HERE)
  ∧ (∀ w' out, decrypt_ciphertext_to_csv HERE ct_path feats w = (w', inr out) →
       length feats = length vec
       ∧ files w' !! named_csv_path HERE = Some (csv_render (named_frame feats vec))).
Proof.
  intros Hvec. rewrite (decrypt_ciphertext_to_csv_run _ feats _ _ _ Hvec). cbv zeta.
  rewrite (decrypt_vector_files _ _ _ _ Hvec). split.
  - intros Hne. rewrite bool_decide_eq_false_2 by done. cbn [fst snd files].
    split; [done|]. apply lookup_insert_ne. path_neq.
  - intros w' out. case_bool_decide as Hlen; [|done].
    intros [= <- _]. split; [done|]. cbn [files]. apply lookup_insert_eq.
Qed.

(** C10.  On a length mismatch the Index/Value file has already been
    written when the exception is raised, while the Feature/Coefficient
    file has not been touched: the function is not atomic. *)
Theorem decrypt_writes_index_csv_before_check (ct_path : string) (feats : list string)
    (w w1 : World) (vec : list float) :
  decrypt_vector HERE ct_path w = (w1, inr vec) →
  length feats ≠ length vec →
  ∃ w' e,
    decrypt_ciphertext_to_csv HERE ct_path feats w = (w', inl e)
    ∧ files w' !! idx_csv_path HERE = Some (csv_render (idx_frame vec))
    ∧ files w' !! named_csv_path HERE = files w !! named_csv_path HERE
    ∧ ∀ p, p ≠ idx_csv_path HERE → files w' !! p = files w !! p.
Proof.
  intros Hvec Hne. rewrite (decrypt_ciphertext_to_csv_run _ feats _ _ _ Hvec). cbv zeta.
  rewrite (decrypt_vector_files _ _ _ _ Hvec).
  rewrite bool_decide_eq_false_2 by done. eexists _, _. split; [done|]. cbn [files].
  split; [apply lookup_insert_eq|].
  split; [apply lookup_insert_ne; path_neq|].
  intros p Hp. by apply lookup_insert_ne.
Qed.
End Decrypt.

(** ** The server side and the secret key *)

Section Server.
Context `{F : PyFloat} {P : Pandas} {L : PyfhelLib}.
Variable HERE : string.

Abbreviation blind := (respects (same_but_secret HERE)).

Lemma blind_read_file p : p ≠ sec_path HERE → blind (read_file p).
Proof.
  intros Hp w1 w2 HR. unfold read_file.
  destruct HR as (Hh & Hg & Ho & Hf). rewrite (Hf p Hp).
  by destruct (files w2 !! p).
Qed.
Lemma blind_write_file p b : blind (write_file p b).
Proof.
  intros w1 w2 (Hh & Hg & Ho & Hf). split; [|done]. repeat split; [done..|].
  intros q Hq. cbn [write_file fst files].
  destruct (decide (p = q)) as [->|Hne].
  - by rewrite !lookup_insert_eq.
  - rewrite !lookup_insert_ne by done. by apply Hf.
Qed.
Lemma blind_print l : blind (print l).
Proof.
  intros w1 w2 (Hh & Hg & Ho & Hf). split; [|done]. repeat split; [done..| |done].
  cbn [print fst stdout]. by rewrite Ho.
Qed.
Lemma blind_new_obj c : blind (new_obj c).
Proof.
  intros w1 w2 (Hh & Hg & Ho & Hf). unfold new_obj. cbn [fst snd]. rewrite Hh.
  by repeat split.
Qed.
Lemma blind_get_obj r : blind (get_obj r).
Proof.
  intros w1 w2 HR. unfold get_obj. destruct HR as (Hh & Hg & Ho & Hf).
  rewrite Hh. by destruct (heap w2 !! r).
Qed.
Lemma blind_set_obj r c : blind (set_obj r c).
Proof.
  intros w1 w2 (Hh & Hg & Ho & Hf). unfold set_obj. cbn [fst snd]. rewrite Hh.
  by repeat split.
Qed.
Lemma blind_bind_index {A B} (xs : list A) i (k : A → M B) :
  (∀ x, xs !! i = Some x → blind (k x)) → blind (bind (index xs i) k).
Proof.
  intros Hk w1 w2 HR. rewrite !run_index.
  destruct (xs !! i) as [x|] eqn:Hx; [by apply Hk|done].
Qed.
End Server.

Create HintDb blind discriminated.
#[export] Hint Resolve respects_ret respects_raise respects_lift respects_index
  respects_the_context blind_write_file blind_print blind_new_obj blind_get_obj
  blind_set_obj : blind.

Ltac blind_step :=
  first [ apply respects_bind; [|intros ?]
        | apply respects_if
        | apply blind_read_file; path_neq
        | solve [eauto with blind] ].
Ltac blind := repeat blind_step.

Section ServerSide.
Context `{F : PyFloat} {P : Pandas} {L : PyfhelLib}.
Variable HERE : string.

Lemma blind_load_for_server : respects (same_but_secret HERE) (load_for_server HERE).
Proof.
  unfold load_for_server, contextLoad, restorepublicKey.
  fold (ctx_path HERE) (pub_path HERE). blind.
Qed.

Lemma blind_PyCtxt_load HE p :
  p ≠ sec_path HERE → respects (same_but_secret HERE) (PyCtxt_load HE p).
Proof. intros Hp. unfold PyCtxt_load. blind. by apply blind_read_file. Qed.

Lemma blind_PyCtxt_iadd a b : respects (same_but_secret HERE) (PyCtxt_iadd a b).
Proof. unfold PyCtxt_iadd. blind. Qed.

Lemma blind_PyCtxt_imul a k : respects (same_but_secret HERE) (PyCtxt_imul a k).
Proof. unfold PyCtxt_imul. blind. Qed.

Lemma blind_PyCtxt_save r p : respects (same_but_secret HERE) (PyCtxt_save r p).
Proof. unfold PyCtxt_save. blind. Qed.

Lemma blind_aggregate_loop HE agg ps :
  sec_path HERE ∉ ps → respects (same_but_secret HERE) (aggregate_loop HE agg ps).
Proof.
  induction ps as [|p ps IH]; intros Hps; cbn [aggregate_loop].
  - apply respects_ret.
  - apply not_elem_of_cons in Hps as [Hp Hps].
    apply respects_bind; [by apply blind_PyCtxt_load|intros c].
    apply respects_bind; [apply blind_PyCtxt_iadd|intros _]. by apply IH.
Qed.

Lemma blind_aggregate_ciphertexts ct_paths average :
  sec_path HERE ∉ ct_paths →
  respects (same_but_secret HERE) (aggregate_ciphertexts HERE ct_paths average).
Proof.
  intros Hps. unfold aggregate_ciphertexts.
  apply respects_bind; [apply blind_load_for_server|intros HE].
  apply blind_bind_index. intros p0 Hp0.
  assert (p0 ≠ sec_path HERE) as Hp.
  { intros ->. apply Hps. by eapply list_elem_of_lookup_2. }
  assert (sec_path HERE ∉ drop 1 ct_paths) as Hps'.
  { intros Hin. apply Hps. by eapply (subseteq_drop 1). }
  apply respects_bind; [by apply blind_PyCtxt_load|intros agg].
  apply respects_bind; [by apply blind_aggregate_loop|intros _].
  apply respects_bind; [destruct average; [apply blind_PyCtxt_imul|apply respects_ret]|intros _].
  apply respects_bind; [apply blind_PyCtxt_save|intros _].
  blind.
Qed.

(** The handle the server works with holds no secret key. *)
Lemma load_for_server_no_secret w w' HE :
  load_for_server HERE w = (w', inr HE) → he_sk HE = None.
Proof.
  unfold load_for_server, contextLoad, restorepublicKey. run.
  destruct (files w !! _); [|done]. run.
  destruct (context_from_bytes _); [done|]. run.
  destruct (files w !! _); [|done]. run.
  destruct (publicKey_from_bytes _ _); [done|]. run.
  unfold ret. by intros [= _ <-].
Qed.

(** C4.  The server side never reads the secret key: [load_for_server]
    returns a handle without one, and [aggregate_ciphertexts], run on
    ciphertext files other than the secret-key file, has the same outcome
    and leaves the same aggregate ciphertext file whatever the secret-key
    file contains, or whether it exists at all. *)
Theorem server_side_ignores_secret_key (ct_paths : list string) (average : bool)
    (w1 w2 : World) :
  sec_path HERE ∉ ct_paths →
  same_but_secret HERE w1 w2 →
  (∀ w w' HE, load_for_server HERE w = (w', inr HE) → he_sk HE = None)
  ∧ snd (load_for_server HERE w1) = snd (load_for_server HERE w2)
  ∧ snd (aggregate_ciphertexts HERE ct_paths average w1)
    = snd (aggregate_ciphertexts HERE ct_paths average w2)
  ∧ same_but_secret HERE (fst (aggregate_ciphertexts HERE ct_paths average w1))
                         (fst (aggregate_ciphertexts HERE ct_paths average w2))
  ∧ files (fst (aggregate_ciphertexts HERE ct_paths average w1))
      !! (if average then avg_path HERE else sum_path HERE)
    = files (fst (aggregate_ciphertexts HERE ct_paths average w2))
        !! (if average then avg_path HERE else sum_path HERE).
Proof.
  intros Hps HR. split; [apply load_for_server_no_secret|].
  split; [by apply blind_load_for_server|].
  destruct (blind_aggregate_ciphertexts ct_paths average Hps w1 w2 HR) as [HR' Heq].
  split; [done|]. split; [done|].
  destruct HR' as (_ & _ & _ & Hf). apply Hf. destruct average; path_neq.
Qed.
End ServerSide.

(** ** In-place accumulation in [aggregate_ciphertexts] *)

Lemma lookup_map {A B} (f : A → B) (l : list A) (i : nat) :
  map f l !! i = f <$> (l !! i).
Proof. revert i. induction l as [|x l IH]; intros [|i]; simpl; auto. Qed.

Lemma list_insert_middle {A} (l1 l2 : list A) (x y : A) :
  <[length l1 := y]> (l1 ++ x :: l2) = l1 ++ y :: l2.
Proof. rewrite <-(Nat.add_0_r (length l1)) at 1. by rewrite insert_app_r. Qed.

Section Aggregate.
Context `{F : PyFloat} {P : Pandas} {L : PyfhelLib}.
Variable HERE : string.

Lemma aggregate_loop_spec HE agg ps : ∀ w w' oa,
  heap w !! agg = Some oa →
  aggregate_loop HE agg ps w = (w', inr tt) →
  files w' = files w ∧ rng w' = rng w ∧ stdout w' = stdout w
  ∧ ∃ cs acc,
      Forall2 (loaded_value HE w) ps cs
      ∧ fold_add (ct_pyfhel oa) (ct_val oa) cs = inr acc
      ∧ heap w' = <[agg := mkPyCtxt (ct_pyfhel oa) acc]> (heap w) ++ map (mkPyCtxt HE) cs.
Proof.
  induction ps as [|p ps IH]; intros w w' oa Hagg; cbn [aggregate_loop].
  - unfold ret. intros [= <-]. repeat split; [].
    exists [], (ct_val oa). split; [constructor|]. split; [done|].
    rewrite app_nil_r. destruct oa. by rewrite list_insert_id.
  - unfold PyCtxt_load, PyCtxt_iadd. run.
    destruct (files w !! p) as [b|] eqn:Hp; [|done]. run.
    destruct (ctxt_from_bytes HE b) as [e|c] eqn:Hc; [done|]. run.
    pose proof (lookup_lt_Some _ _ _ Hagg) as Hlt.
    rewrite (lookup_app_l _ _ _ Hlt), Hagg. run.
    rewrite list_lookup_middle by done. run.
    destruct (ctxt_add (ct_pyfhel oa) (ct_val oa) c) as [e|s] eqn:Hs; [done|]. run.
    intros Hrun. eapply (IH _ _ (mkPyCtxt (ct_pyfhel oa) s)) in Hrun as (Hf & Hg & Ho & cs & acc & Hcs & Hacc & Hh).
    + cbn [files rng stdout heap ct_pyfhel ct_val] in *. repeat split; [done..|].
      exists (c :: cs), acc. split; [constructor; [by exists b|done]|].
      split; [cbn [fold_add]; by rewrite Hs|].
      rewrite Hh, list_insert_insert_eq. rewrite insert_app_l by done.
      by rewrite <-app_assoc.
    + cbn [heap]. rewrite insert_app_l by done.
      rewrite lookup_app_l by (by rewrite length_insert).
      by apply list_lookup_insert_eq.
Qed.

(** What a successful [aggregate_ciphertexts] has done. *)
Lemma aggregate_ciphertexts_spec ct_paths average w w' out :
  aggregate_ciphertexts HERE ct_paths average w = (w', inr out) →
  ∃ HE c0 cs acc final,
    load_for_server HERE w = (w, inr HE)
    ∧ Forall2 (loaded_value HE w) ct_paths (c0 :: cs)
    ∧ fold_add HE c0 cs = inr acc
    ∧ (if average then ctxt_mul_scalar HE acc (avg_scalar (length ct_paths)) else inr acc)
      = inr final
    ∧ heap w' = heap w ++ mkPyCtxt HE final :: map (mkPyCtxt HE) cs
    ∧ out = (if average then avg_path HERE else sum_path HERE)
    ∧ files w' = <[out := ctxt_to_bytes final]> (files w)
    ∧ rng w' = rng w
    ∧ stdout w' = stdout w ++ [OutAggregated average out].
Proof.
  unfold aggregate_ciphertexts. intros Hrun.
  apply bind_inv_ok in Hrun as (w0 & HE & Hload & Hrun).
  pose proof (readonly_load_for_server HERE w) as Hro. rewrite Hload in Hro.
  simpl in Hro. subst w0. revert Hrun. run.
  destruct ct_paths as [|p ps]; [done|]. cbn [lookup list_lookup drop].
  unfold PyCtxt_load. run.
  destruct (files w !! p) as [b|] eqn:Hp; [|done]. run.
  destruct (ctxt_from_bytes HE b) as [e|c0] eqn:Hc0; [done|]. run.
  intros Hrun. apply bind_inv_ok in Hrun as (w1 & [] & Hloop & Hrun).
  eapply (aggregate_loop_spec _ _ _ _ _ (mkPyCtxt HE c0)) in Hloop
    as (Hf & Hg & Ho & cs & acc & Hcs & Hacc & Hh);
    [|cbn [heap]; by apply list_lookup_middle].
  cbn [files rng stdout heap ct_pyfhel ct_val] in *.
  rewrite list_insert_middle in Hh by done.
  assert (heap w1 !! length (heap w) = Some (mkPyCtxt HE acc)) as Hagg.
  { rewrite Hh, <-app_assoc. by apply list_lookup_middle. }
  fold (avg_scalar (length (p :: ps))) in Hrun.
  exists HE, c0, cs, acc.
  assert (∀ final w2,
    heap w2 = heap w ++ mkPyCtxt HE final :: map (mkPyCtxt HE) cs →
    files w2 = files w → rng w2 = rng w → stdout w2 = stdout w →
    (PyCtxt_save (length (heap w))
       (os_path_join (GLOBAL_DIR HERE) (if average then "global_avg.ct" else "global_sum.ct"));;
     print (OutAggregated average
       (os_path_join (GLOBAL_DIR HERE) (if average then "global_avg.ct" else "global_sum.ct")));;
     ret (os_path_join (GLOBAL_DIR HERE) (if average then "global_avg.ct" else "global_sum.ct")))
      w2 = (w', inr out) →
    heap w' = heap w ++ mkPyCtxt HE final :: map (mkPyCtxt HE) cs
    ∧ out = (if average then avg_path HERE else sum_path HERE)
    ∧ files w' = <[out := ctxt_to_bytes final]> (files w)
    ∧ rng w' = rng w
    ∧ stdout w' = stdout w ++ [OutAggregated average out]) as Hsave.
  { intros final w2 Hh2 Hf2 Hg2 Ho2. unfold PyCtxt_save. run.
    rewrite Hh2, list_lookup_middle by done. run. unfold ret.
    intros [= <- <-]. cbn [files heap rng stdout]. rewrite Hf2, Hg2, Ho2.
    unfold avg_path, sum_path. by destruct average. }
  assert (Forall2 (loaded_value HE w) (p :: ps) (c0 :: cs)) as Hall.
  { constructor; [by exists b|]. eapply Forall2_impl; [exact Hcs|].
    by intros q c (bq & Hq & Hcq); exists bq. }
  destruct average.
  - revert Hrun. unfold PyCtxt_imul. run. rewrite Hagg. run.
    destruct (ctxt_mul_scalar HE acc _) as [e|final] eqn:Hmul; [done|]. run.
    intros Hrun. exists final. do 4 (split; [done|]).
    eapply Hsave; [| | | |exact Hrun]; cbn [heap files rng stdout]; [|done..].
    rewrite Hh, <-app_assoc. cbn [app]. by rewrite list_insert_middle.
  - revert Hrun. run. intros Hrun. exists acc. do 4 (split; [done|]).
    eapply Hsave; [| | | |exact Hrun]; [|done..].
    by rewrite Hh, <-app_assoc.
Qed.

(** For the two ciphertexts of [main]: the library's sum, times
    [1.0 / 2] when averaging, is what is saved. *)
Lemma aggregate_two_ciphertexts p1 p2 average w w' out :
  aggregate_ciphertexts HERE [p1; p2] average w = (w', inr out) →
  ∃ HE c1 c2 s final,
    snd (load_for_server HERE w) = inr HE
    ∧ loaded_value HE w p1 c1 ∧ loaded_value HE w p2 c2
    ∧ ctxt_add HE c1 c2 = inr s
    ∧ (if average then ctxt_mul_scalar HE s (avg_scalar 2) else inr s) = inr final
    ∧ files w' !! out = Some (ctxt_to_bytes final).
Proof.
  intros Hrun.
  apply aggregate_ciphertexts_spec in Hrun
    as (HE & c1 & cs & acc & final & Hload & Hcs & Hacc & Hfin & _ & _ & Hf & _).
  apply Forall2_cons in Hcs as [Hc1 Hcs].
  apply Forall2_cons_inv_l in Hcs as (c2 & cs' & Hc2 & Hnil & ->).
  apply Forall2_nil_inv_l in Hnil as ->.
  cbn [fold_add] in Hacc.
  destruct (ctxt_add HE c1 c2) as [e|s] eqn:Hs; [done|]. injection Hacc as <-.
  exists HE, c1, c2, s, final. rewrite Hload, Hf, lookup_insert_eq. done.
Qed.

(** C8 (as the code has it).  [aggregate_ciphertexts] accumulates in
    place: the object built from the first path is overwritten by [+=] and
    [*=] and ends up holding the aggregate, which is the library's sum of
    the values loaded from the paths, in order, times [1.0 / len(ct_paths)]
    when averaging; that aggregate is what is saved.  Every other input
    object still holds the value loaded from its file, objects that existed
    before are untouched, and on disk only the output file changes. *)
Theorem aggregate_accumulates_in_place (ct_paths : list string) (average : bool)
    (w w' : World) (out : string) :
  aggregate_ciphertexts HERE ct_paths average w = (w', inr out) →
  ∃ HE c0 cs acc final,
    snd (load_for_server HERE w) = inr HE
    ∧ Forall2 (loaded_value HE w) ct_paths (c0 :: cs)
    ∧ fold_add HE c0 cs = inr acc
    ∧ (if average then ctxt_mul_scalar HE acc (avg_scalar (length ct_paths)) else inr acc)
      = inr final
    ∧ heap w' !! length (heap w) = Some (mkPyCtxt HE final)
    ∧ files w' !! out = Some (ctxt_to_bytes final)
    ∧ (∀ j, 0 < j < length ct_paths → input_object_unchanged HE ct_paths w w' j)
    ∧ (∀ i, i < length (heap w) → heap w' !! i = heap w !! i)
    ∧ (∀ p, p ≠ out → files w' !! p = files w !! p).
Proof.
  intros Hrun.
  apply aggregate_ciphertexts_spec in Hrun
    as (HE & c0 & cs & acc & final & Hload & Hcs & Hacc & Hfinal & Hh & Hout & Hf & _ & _).
  exists HE, c0, cs, acc, final. split; [by rewrite Hload|].
  split; [done|]. split; [done|]. split; [done|].
  split; [rewrite Hh; by apply list_lookup_middle|].
  split; [rewrite Hf; apply lookup_insert_eq|].
  split; [|split].
  - intros j [Hj0 Hj]. destruct j as [|j]; [lia|].
    destruct ct_paths as [|p0 ps]; [simpl in Hj; lia|].
    pose proof Hcs as Hcs'. apply Forall2_cons in Hcs' as [_ Hcs'].
    destruct (lookup_lt_is_Some_2 ps j) as [p Hp]; [simpl in Hj; lia|].
    destruct (Forall2_lookup_l _ _ _ _ _ Hcs' Hp) as (c & Hc & Hpc).
    exists p, c. split; [done|]. split; [done|].
    rewrite Hh, lookup_app_r by lia.
    replace (length (heap w) + S j - length (heap w)) with (S j) by lia.
    change (map (mkPyCtxt HE) cs !! j = Some (mkPyCtxt HE c)). by rewrite lookup_map, Hc.
  - intros i Hi. rewrite Hh. by apply lookup_app_l.
  - intros p Hp. rewrite Hf. by apply lookup_insert_ne.
Qed.

End Aggregate.

(** ** What encryption writes, and what the weight readers depend on *)

Section SaveFrames.
Context `{F : PyFloat} {P : Pandas} {L : PyfhelLib}.

Lemma writes_within_contextSave S HE p : p ∈ S → writes_within S (contextSave HE p).
Proof.
  intros Hp. unfold contextSave. apply writes_within_bind; [|intros c].
  - apply writes_within_readonly, readonly_the_context.
  - by apply writes_within_write_file.
Qed.
Lemma writes_within_savepublicKey S HE p : p ∈ S → writes_within S (savepublicKey HE p).
Proof.
  intros Hp. unfold savepublicKey.
  destruct (he_pk HE); [by apply writes_within_write_file|done].
Qed.
Lemma writes_within_savesecretKey S HE p : p ∈ S → writes_within S (savesecretKey HE p).
Proof.
  intros Hp. unfold savesecretKey.
  destruct (he_sk HE); [by apply writes_within_write_file|done].
Qed.
Lemma writes_within_PyCtxt_save S r p : p ∈ S → writes_within S (PyCtxt_save r p).
Proof.
  intros Hp. unfold PyCtxt_save. apply writes_within_bind; [|intros c].
  - apply writes_within_readonly, readonly_get_obj.
  - by apply writes_within_write_file.
Qed.
End SaveFrames.

Create HintDb frame discriminated.
#[export] Hint Resolve writes_within_print writes_within_with_rng writes_within_new_obj
  writes_within_set_obj : frame.

Ltac frame_step :=
  first [ apply writes_within_bind; [|intros ?]
        | apply writes_within_if
        | apply writes_within_try; [|intros ?]
        | apply writes_within_write_file; assumption
        | apply writes_within_contextSave; assumption
        | apply writes_within_savepublicKey; assumption
        | apply writes_within_savesecretKey; assumption
        | apply writes_within_PyCtxt_save; assumption
        | solve [eauto with frame]
        | apply writes_within_readonly; solve [ro]
        | match goal with |- writes_within _ (let '(_, _) := ?x in _) => destruct x end ].
Ltac frame := repeat frame_step.

Section Encrypt.
Context `{F : PyFloat} {P : Pandas} {L : PyfhelLib}.
Variable HERE : string.

Lemma encryption_outputs_elem :
  ctx_path HERE ∈ encryption_outputs HERE ∧ pub_path HERE ∈ encryption_outputs HERE
  ∧ sec_path HERE ∈ encryption_outputs HERE
  ∧ ct_path_of HERE "hospital1.ct" ∈ encryption_outputs HERE
  ∧ ct_path_of HERE "hospital2.ct" ∈ encryption_outputs HERE.
Proof. unfold encryption_outputs. repeat split; apply list_elem_of_In; simpl; tauto. Qed.

Lemma aggregation_outputs_later p :
  p ∈ aggregation_outputs HERE → p ∉ encryption_outputs HERE.
Proof.
  unfold aggregation_outputs, encryption_outputs. intros Hp.
  repeat (apply elem_of_cons in Hp as [->|Hp]);
    [repeat (apply not_elem_of_cons; split; [path_neq|]); apply not_elem_of_nil..|].
  by apply elem_of_nil in Hp.
Qed.

Lemma writes_within_keygen S n s b :
  ctx_path HERE ∈ S → pub_path HERE ∈ S → sec_path HERE ∈ S →
  writes_within S (keygen_if_missing HERE n s b).
Proof.
  intros Hc Hp Hs. unfold keygen_if_missing, contextGen, HE_keyGen.
  fold (ctx_path HERE) (pub_path HERE) (sec_path HERE). frame.
Qed.

Lemma writes_within_verify_loop S vec dec range : writes_within S (verify_loop vec dec range).
Proof. induction range as [|i range IH]; cbn [verify_loop]; frame. Qed.

Lemma writes_within_encrypt S csv out_name v :
  ctx_path HERE ∈ S → pub_path HERE ∈ S → sec_path HERE ∈ S → ct_path_of HERE out_name ∈ S →
  writes_within S (encrypt_weights_csv HERE csv out_name v).
Proof.
  intros Hc Hp Hs Ho. unfold encrypt_weights_csv, keygen_if_missing_default.
  apply writes_within_bind; [by apply writes_within_keygen|intros HE].
  unfold HE_encryptPtxt. fold (ct_path_of HERE out_name). frame.
  apply writes_within_verify_loop.
Qed.

Lemma respects_read_same p : respects (same_file p) (read_file p).
Proof.
  intros w1 w2 HR. unfold read_file. pose proof HR as Hp. red in Hp. rewrite Hp.
  by destruct (files w2 !! p).
Qed.

Lemma respects_weights_csv_to_vector p :
  respects (same_file p) (weights_csv_to_vector p).
Proof.
  unfold weights_csv_to_vector, pd_read_csv.
  repeat first [ apply respects_bind; [|intros ?]
               | apply respects_if
               | apply respects_read_same
               | apply respects_lift
               | apply respects_ret ].
Qed.

(** The weight vector read from a file depends on that file only. *)
Lemma weights_csv_to_vector_same_file p w1 w2 :
  files w1 !! p = files w2 !! p →
  snd (weights_csv_to_vector p w1) = snd (weights_csv_to_vector p w2).
Proof. intros Hp. by apply respects_weights_csv_to_vector. Qed.

(** A file that yields a vector exists. *)
Lemma weights_csv_to_vector_exists p w v :
  snd (weights_csv_to_vector p w) = inr v → is_Some (files w !! p).
Proof.
  unfold weights_csv_to_vector, pd_read_csv. run.
  destruct (files w !! p); [eauto|done].
Qed.
End Encrypt.

(** ** The command line entry point *)

Section Main.
Context `{F : PyFloat} {P : Pandas} {L : PyfhelLib}.
Variable HERE : string.

Lemma main_missing_h1 args w :
  files w !! h1 args = None →
  main HERE args w
  = (w, inl (FileNotFoundError ("Hospital-1 weights not found: " +:+ h1 args))).
Proof.
  intros Hh1. unfold main, ensure_dirs. run.
  rewrite bool_decide_eq_false_2 by (rewrite Hh1; by intros [? ?]).
  cbn [negb]. by run.
Qed.

Lemma main_missing_h2 args w :
  is_Some (files w !! h1 args) → files w !! h2 args = None →
  main HERE args w
  = (w, inl (FileNotFoundError ("Hospital-2 weights not found: " +:+ h2 args))).
Proof.
  intros Hh1 Hh2. unfold main, ensure_dirs. run.
  rewrite bool_decide_eq_true_2 by done. cbn [negb]. run.
  rewrite bool_decide_eq_false_2 by (rewrite Hh2; by intros [? ?]).
  cbn [negb]. by run.
Qed.

Lemma main_length_mismatch args w v1 v2 :
  h1 args ∉ encryption_outputs HERE → h2 args ∉ encryption_outputs HERE →
  snd (weights_csv_to_vector (h1 args) w) = inr v1 →
  snd (weights_csv_to_vector (h2 args) w) = inr v2 →
  length v1 ≠ length v2 →
  ∃ w' e, main HERE args w = (w', inl e)
          ∧ (e = ValueError (weight_length_msg (length v1) (length v2))
             ∨ (∃ w0, snd (encrypt_weights_csv HERE (h1 args) "hospital1.ct" (verify args) w0)
                      = inl e)
             ∨ (∃ w0, snd (encrypt_weights_csv HERE (h2 args) "hospital2.ct" (verify args) w0)
                      = inl e))
          ∧ ∀ p, p ∉ encryption_outputs HERE → files w' !! p = files w !! p.
Proof.
  intros Hn1 Hn2 Hv1 Hv2 Hlen. unfold main, ensure_dirs. run.
  rewrite bool_decide_eq_true_2 by (by eapply weights_csv_to_vector_exists).
  cbn [negb]. run.
  rewrite bool_decide_eq_true_2 by (by eapply weights_csv_to_vector_exists).
  cbn [negb]. run.
  destruct (encryption_outputs_elem HERE) as (Hoc & Hop & Hos & Ho1 & Ho2).
  assert (∀ csv out_name, ct_path_of HERE out_name ∈ encryption_outputs HERE →
            writes_within (encryption_outputs HERE)
              (encrypt_weights_csv HERE csv out_name (verify args))) as Hframe.
  { intros csv out_name Hin. by apply writes_within_encrypt. }
  pose proof (Hframe (h1 args) "hospital1.ct" Ho1 w) as Hf1.
  rewrite bind_run.
  destruct (snd (encrypt_weights_csv HERE (h1 args) "hospital1.ct" (verify args) w))
    as [e|ct1] eqn:He1.
  { eexists _, e. split; [done|]. split; [|done]. right. left. by exists w. }
  set (w1 := fst (encrypt_weights_csv HERE (h1 args) "hospital1.ct" (verify args) w)) in *.
  pose proof (Hframe (h2 args) "hospital2.ct" Ho2 w1) as Hf2.
  rewrite bind_run.
  destruct (snd (encrypt_weights_csv HERE (h2 args) "hospital2.ct" (verify args) w1))
    as [e|ct2] eqn:He2.
  { eexists _, e. split; [done|]. split; [right; right; by exists w1|].
    intros p Hp. rewrite Hf2 by done. by apply Hf1. }
  set (w2 := fst (encrypt_weights_csv HERE (h2 args) "hospital2.ct" (verify args) w1)) in *.
  assert (∀ p, p ∉ encryption_outputs HERE → files w2 !! p = files w !! p) as Hf.
  { intros p Hp. rewrite Hf2 by done. by apply Hf1. }
  rewrite bind_run, (readonly_weights_csv_to_vector (h1 args) w2).
  rewrite (weights_csv_to_vector_same_file _ w2 w (Hf _ Hn1)), Hv1.
  rewrite bind_run, (readonly_weights_csv_to_vector (h2 args) w2).
  rewrite (weights_csv_to_vector_same_file _ w2 w (Hf _ Hn2)), Hv2.
  rewrite bool_decide_eq_false_2 by done. cbn [negb]. run.
  eexists _, _. split; [done|]. split; [by left|done].
Qed.

(** C7.  [main] ends with an exception, having written nothing, when the
    first or the second weights file does not exist; and when the two files
    yield vectors of different lengths it ends with an exception (the
    length-mismatch [ValueError], unless encryption itself failed) before
    any aggregate ciphertext or global weights file is written. *)
Theorem main_fails_on_bad_input (args : Args) (w : World) :
  (files w !! h1 args = None →
     main HERE args w
     = (w, inl (FileNotFoundError ("Hospital-1 weights not found: " +:+ h1 args))))
  ∧ (is_Some (files w !! h1 args) → files w !! h2 args = None →
     main HERE args w
     = (w, inl (FileNotFoundError ("Hospital-2 weights not found: " +:+ h2 args))))
  ∧ (∀ v1 v2,
       h1 args ∉ encryption_outputs HERE → h2 args ∉ encryption_outputs HERE →
       snd (weights_csv_to_vector (h1 args) w) = inr v1 →
       snd (weights_csv_to_vector (h2 args) w) = inr v2 →
       length v1 ≠ length v2 →
       ∃ w' e, main HERE args w = (w', inl e)
               ∧ (e = ValueError (weight_length_msg (length v1) (length v2))
                  ∨ (∃ w0, snd (encrypt_weights_csv HERE (h1 args) "hospital1.ct"
                                  (verify args) w0) = inl e)
                  ∨ (∃ w0, snd (encrypt_weights_csv HERE (h2 args) "hospital2.ct"
                                  (verify args) w0) = inl e))
               ∧ ∀ p, p ∈ aggregation_outputs HERE → files w' !! p = files w !! p).
Proof.
  split; [apply main_missing_h1|]. split; [apply main_missing_h2|].
  intros v1 v2 Hn1 Hn2 Hv1 Hv2 Hlen.
  destruct (main_length_mismatch args w v1 v2 Hn1 Hn2 Hv1 Hv2 Hlen) as (w' & e & Hrun & He & Hf).
  exists w', e. split; [done|]. split; [done|].
  intros p Hp. by apply Hf, aggregation_outputs_later.
Qed.
End Main.

(** ** Saving and loading back *)

Section Serialization.
Context `{F : PyFloat} {P : Pandas} {L : PyfhelLib}.
Variable HERE : string.

Lemma prints_only_readonly {A} (m : M A) : readonly m → prints_only m.
Proof. intros Hm w. by rewrite Hm. Qed.
Lemma prints_only_print l : prints_only (print l).
Proof. done. Qed.
Lemma prints_only_bind {A B} (m : M A) (k : A → M B) :
  prints_only m → (∀ a, prints_only (k a)) → prints_only (bind m k).
Proof.
  intros Hm Hk w. rewrite bind_run. destruct (Hm w) as [Hf Hh].
  destruct (snd (m w)) as [e|a]; cbn [fst]; [done|].
  destruct (Hk a (fst (m w))) as [Hf' Hh']. by rewrite Hf', Hh'.
Qed.
Lemma prints_only_try {A} (m : M A) (h : exn → M A) :
  prints_only m → (∀ e, prints_only (h e)) → prints_only (try_except m h).
Proof.
  intros Hm Hh w. unfold try_except. destruct (Hm w) as [Hf Hp].
  destruct (m w) as [w1 [e|a]]; cbn [fst] in *; [|done].
  destruct (Hh e w1) as [Hf' Hp']. by rewrite Hf', Hp'.
Qed.

Lemma prints_only_verify_loop vec dec range : prints_only (verify_loop vec dec range).
Proof.
  induction range as [|i range IH]; cbn [verify_loop]; [done|].
  apply prints_only_bind; [apply prints_only_readonly, readonly_index|intros o].
  apply prints_only_bind; [apply prints_only_readonly, readonly_index|intros d].
  apply prints_only_bind; [apply prints_only_print|by intros _].
Qed.

Lemma prints_only_verify_block HE vec ctxt verify : prints_only (verify_block HE vec ctxt verify).
Proof.
  unfold verify_block. destruct verify; [|done].
  apply prints_only_try; [|intros e; apply prints_only_print].
  apply prints_only_bind; [apply prints_only_readonly, readonly_HE_decryptFrac|intros dec].
  apply prints_only_bind; [apply prints_only_print|intros _].
  apply prints_only_verify_loop.
Qed.

(** The server's handle is the decrypting party's without the secret key. *)
Lemma load_for_server_of_decrypt w HE :
  load_for_decrypt HERE w = (w, inr HE) →
  load_for_server HERE w = (w, inr (mkPyfhel (he_ctx HE) (he_pk HE) None)).
Proof.
  unfold load_for_decrypt, load_for_server, contextLoad, restorepublicKey, restoresecretKey.
  run. destruct (files w !! _); [|done]. run.
  destruct (context_from_bytes _); [done|]. run.
  destruct (files w !! _); [|done]. run.
  destruct (publicKey_from_bytes _ _); [done|]. run.
  destruct (files w !! _); [|done]. run.
  destruct (secretKey_from_bytes _ _); [done|]. run.
  unfold ret. by intros [= <-].
Qed.

Lemma load_for_decrypt_has_context w w' HE :
  load_for_decrypt HERE w = (w', inr HE) → is_Some (he_ctx HE).
Proof.
  unfold load_for_decrypt, contextLoad, restorepublicKey, restoresecretKey.
  run. destruct (files w !! _); [|done]. run.
  destruct (context_from_bytes _); [done|]. run.
  destruct (files w !! _); [|done]. run.
  destruct (publicKey_from_bytes _ _); [done|]. run.
  destruct (files w !! _); [|done]. run.
  destruct (secretKey_from_bytes _ _); [done|]. run.
  unfold ret. intros [= _ <-]. cbn [he_ctx]. eauto.
Qed.

(** What a successful [encrypt_weights_csv] leaves behind. *)
Lemma encrypt_weights_csv_spec csv out_name v w w' out_path :
  encrypt_weights_csv HERE csv out_name v w = (w', inr out_path) →
  ∃ w0 HE vec ptxt c,
    keygen_if_missing_default HERE w = (w0, inr HE)
    ∧ snd (weights_csv_to_vector csv w0) = inr vec
    ∧ encodeVec HE vec = inr ptxt
    ∧ fst (encryptPtxt HE ptxt (rng w0)) = inr c
    ∧ out_path = ct_path_of HERE out_name
    ∧ files w' = <[out_path := ctxt_to_bytes c]> (files w0)
    ∧ heap w' = heap w0 ++ [mkPyCtxt HE c].
Proof.
  unfold encrypt_weights_csv. intros Hrun.
  apply bind_inv_ok in Hrun as (w0 & HE & Hkey & Hrun).
  apply bind_inv_ok in Hrun as (w0' & vec & Hvec & Hrun).
  pose proof (readonly_weights_csv_to_vector csv w0) as Hro. rewrite Hvec in Hro.
  simpl in Hro. subst w0'. revert Hrun. unfold HE_encryptPtxt, PyCtxt_save. run.
  destruct (encodeVec HE vec) as [e|ptxt] eqn:Henc; [done|]. run.
  destruct (fst (encryptPtxt HE ptxt (rng w0))) as [e|c] eqn:Hc; [done|]. run.
  rewrite list_lookup_middle by done. run.
  fold (ct_path_of HERE out_name). fold (verify_block HE vec (length (heap w0)) v).
  intros Hrun. apply bind_inv_ok in Hrun as (w2 & [] & Hver & Hrun).
  revert Hrun. unfold ret. intros [= <- <-].
  match type of Hver with ?m ?w = _ =>
    destruct (prints_only_verify_block HE vec (length (heap w0)) v w) as [Hf Hh] end.
  rewrite Hver in Hf, Hh. cbn [fst files heap] in Hf, Hh.
  exists w0, HE, vec, ptxt, c. by rewrite Hvec.
Qed.

(** The handle [load_for_decrypt] returns holds a context that was read
    from a file. *)
Lemma load_for_decrypt_context w w' HE :
  load_for_decrypt HERE w = (w', inr HE) →
  ∃ b c, context_from_bytes b = inr c ∧ he_ctx HE = Some c.
Proof.
  unfold load_for_decrypt, contextLoad, restorepublicKey, restoresecretKey.
  run. destruct (files w !! _) as [b|]; [|done]. run.
  destruct (context_from_bytes b) as [|c] eqn:Hc; [done|]. run.
  destruct (files w !! _); [|done]. run.
  destruct (publicKey_from_bytes _ _); [done|]. run.
  destruct (files w !! _); [|done]. run.
  destruct (secretKey_from_bytes _ _); [done|]. run.
  unfold ret. intros [= _ <-]. cbn [he_ctx]. eauto.
Qed.

(** Writing a ciphertext file leaves the keys where they are. *)
Lemma load_for_decrypt_after_encrypt w0 w' HE out_name bs :
  is_abs out_name = false →
  files w' = <[ct_path_of HERE out_name := bs]> (files w0) →
  load_for_decrypt HERE w0 = (w0, inr HE) →
  load_for_decrypt HERE w' = (w', inr HE).
Proof.
  intros Hrel Hf Hload.
  rewrite (readonly_run _ w' (readonly_load_for_decrypt HERE)).
  rewrite (load_for_decrypt_same_files HERE w' w0), Hload; [done|].
  unfold same_key_files. rewrite Hf.
  rewrite !lookup_insert_ne; [done|..];
    rewrite ct_path_of_eq by done;
    rewrite ?ctx_path_eq, ?pub_path_eq, ?sec_path_eq;
    apply here_path_neq; discriminate.
Qed.

(** [aggregate_ciphertexts] on the one path [p] in sum mode, when the keys
    and the file at [p] load. *)
Lemma aggregate_single w HEs p bs c :
  load_for_server HERE w = (w, inr HEs) →
  files w !! p = Some bs → ctxt_from_bytes HEs bs = inr c →
  aggregate_ciphertexts HERE [p] false w
  = (mkWorld (<[sum_path HERE := ctxt_to_bytes c]> (files w)) (heap w ++ [mkPyCtxt HEs c])
             (rng w) (stdout w ++ [OutAggregated false (sum_path HERE)]),
     inr (sum_path HERE)).
Proof.
  intros Hload Hp Hc. unfold aggregate_ciphertexts.
  rewrite (bind_ok _ _ _ _ _ Hload). unfold PyCtxt_load, PyCtxt_save. run.
  change ([p] !! 0) with (Some p). run.
  rewrite Hp. run. rewrite Hc. run. cbn [drop aggregate_loop]. run.
  rewrite list_lookup_middle by done. run. done.
Qed.
End Serialization.

(** ** The persisted formats load back what they saved *)

Section Formats.
Import Persisted.
Variable width : nat.

Lemma to_N_byte_of_N (x : N) : Byte.to_N (byte_of_N x) = (x mod 256)%N.
Proof.
  unfold byte_of_N. destruct (Byte.of_N (x mod 256)) as [b|] eqn:Hb.
  - by apply Byte.to_of_N.
  - apply Byte.of_N_None_iff in Hb.
    pose proof (N.mod_upper_bound x 256 ltac:(done)). lia.
Qed.

Lemma length_le_bytes (k : nat) (x : N) : length (le_bytes k x) = k.
Proof. revert x. induction k as [|k IH]; intros x; [done|]. cbn. by rewrite IH. Qed.

Lemma le_value_le_bytes (k : nat) (x : N) :
  (x < 256 ^ N.of_nat k)%N → le_value (le_bytes k x) = x.
Proof.
  revert x. induction k as [|k IH]; intros x Hx.
  - cbn in *. lia.
  - cbn [le_bytes le_value]. rewrite to_N_byte_of_N, IH.
    + symmetry. rewrite N.add_comm. apply N.div_mod. done.
    + rewrite Nat2N.inj_succ, N.pow_succ_r' in Hx.
      apply N.Div0.div_lt_upper_bound. lia.
Qed.

Lemma le_value_bound (bs : bytes) : (le_value bs < 256 ^ N.of_nat (length bs))%N.
Proof.
  induction bs as [|b bs IH]; [cbn; lia|].
  cbn [le_value length]. rewrite Nat2N.inj_succ, N.pow_succ_r'.
  pose proof (Byte.to_N_bounded b). lia.
Qed.

Lemma length_concat_uniform {A} (n : nat) (ls : list (list A)) :
  Forall (λ l, length l = n) ls → length (concat ls) = length ls * n.
Proof.
  induction 1 as [|l ls Hl _ IH]; [done|].
  cbn [concat length]. rewrite length_app, IH, Hl. lia.
Qed.

Lemma chunks_concat {A} (n : nat) (ls : list (list A)) :
  Forall (λ l, length l = n) ls → chunks (length ls) n (concat ls) = ls.
Proof.
  induction 1 as [|l ls Hl _ IH]; [done|].
  cbn [concat length chunks]. rewrite take_app_length', drop_app_length' by done.
  by rewrite IH.
Qed.

Lemma chunks_uniform {A} (k n : nat) (xs : list A) :
  length xs = k * n → Forall (λ l, length l = n) (chunks k n xs) ∧ length (chunks k n xs) = k.
Proof.
  revert xs. induction k as [|k IH]; intros xs Hlen; [by split|].
  cbn [chunks length]. destruct (IH (drop n xs)) as [Hall Hk].
  { rewrite length_drop. lia. }
  split; [|by rewrite Hk]. constructor; [|done]. rewrite length_take. lia.
Qed.

Lemma ints_of_to_bytes (xs : list N) :
  0 < width → Forall (fixed_width width) xs →
  ints_of_bytes width (ints_to_bytes width xs) = Some xs.
Proof.
  intros Hpos Hxs. unfold ints_of_bytes, ints_to_bytes.
  assert (Forall (λ l, length l = width) (map (le_bytes width) xs)) as Hall.
  { apply Forall_forall. intros l (x & <- & _)%list_elem_of_In%in_map_iff.
    apply length_le_bytes. }
  rewrite (length_concat_uniform _ _ Hall), length_map.
  rewrite Nat.div_mul by lia. rewrite bool_decide_eq_true_2 by done. f_equal.
  rewrite <-(length_map (le_bytes width) xs) at 1. rewrite (chunks_concat _ _ Hall).
  rewrite map_map. induction Hxs as [|x xs Hx _ IH]; [done|].
  cbn [map]. rewrite le_value_le_bytes by done. f_equal. apply IH.
  by apply Forall_cons in Hall as [_ ?].
Qed.

Lemma ints_of_bytes_fixed_width (bs : bytes) (xs : list N) :
  ints_of_bytes width bs = Some xs → Forall (fixed_width width) xs.
Proof.
  unfold ints_of_bytes. case_bool_decide as Hlen; [|done]. intros [= <-].
  destruct (chunks_uniform _ _ _ Hlen) as [Hall _].
  apply Forall_forall. intros x (l & <- & Hl%list_elem_of_In)%list_elem_of_In%in_map_iff.
  rewrite Forall_forall in Hall. unfold fixed_width. rewrite <-(Hall l Hl).
  apply le_value_bound.
Qed.

(** *** Contexts *)

Lemma load_save_context (ps : ParameterSet) :
  0 < width → ParameterSet_ok width ps → load_context width (save_context width ps) = inr ps.
Proof.
  intros Hpos (Hn & Hchain & Hsc & Hsec). unfold load_context, save_context.
  rewrite ints_of_to_bytes; [|done|].
  2:{ constructor; [done|]. apply Forall_app. split; [done|]. by repeat constructor. }
  rewrite reverse_app.
  change (reverse [scale ps; security_level ps]) with [security_level ps; scale ps].
  cbn [app]. rewrite reverse_involutive. by destruct ps.
Qed.

Lemma load_context_ok (bs : bytes) (ps : ParameterSet) :
  load_context width bs = inr ps → ParameterSet_ok width ps.
Proof.
  unfold load_context. destruct (ints_of_bytes width bs) as [[|n rest]|] eqn:Hints; [done| |done].
  apply ints_of_bytes_fixed_width in Hints. apply Forall_cons in Hints as [Hn Hrest].
  apply Forall_reverse in Hrest.
  destruct (reverse rest) as [|sec [|sc primes]]; [done..|]. intros [= <-].
  apply Forall_cons in Hrest as [Hsec Hrest]. apply Forall_cons in Hrest as [Hsc Hrest].
  unfold ParameterSet_ok. cbn. by rewrite Forall_reverse.
Qed.

(** *** Polynomials, keys and ciphertexts *)

Lemma poly_ok_uniform n primes p :
  poly_ok n primes p → Forall (λ l, length l = n) p ∧ length p = length primes.
Proof.
  intros Hp. split; [|symmetry; by eapply Forall2_length].
  induction Hp as [|q l primes p [Hl _] _ IH]; by constructor.
Qed.

Lemma poly_ok_fixed_width n primes p :
  Forall (fixed_width width) primes → poly_ok n primes p →
  Forall (fixed_width width) (concat p).
Proof.
  intros Hprimes Hp. revert Hprimes.
  induction Hp as [|q l primes p [_ Hl] _ IH]; intros Hprimes; [constructor|].
  apply Forall_cons in Hprimes as [Hq Hprimes]. cbn [concat]. apply Forall_app.
  split; [|by apply IH]. eapply Forall_impl; [exact Hl|].
  intros x Hx. unfold fixed_width in *. lia.
Qed.

Lemma poly_of_ints_concat n primes p :
  poly_ok n primes p → poly_of_ints n primes (concat p) = Some p.
Proof.
  intros Hp. destruct (poly_ok_uniform _ _ _ Hp) as [Hall Hlen].
  unfold poly_of_ints. rewrite <-Hlen, (chunks_concat _ _ Hall).
  rewrite bool_decide_eq_true_2; [done|]. split; [|done].
  by apply length_concat_uniform.
Qed.

Lemma poly_of_ints_ok n primes xs p :
  poly_of_ints n primes xs = Some p → poly_ok n primes p ∧ length xs = length primes * n.
Proof.
  unfold poly_of_ints. case_bool_decide as H; [|done]. intros [= <-]. tauto.
Qed.

Lemma load_save_secret_key (ps : ParameterSet) (sk : SecretKey) :
  0 < width → ParameterSet_ok width ps → SecretKey_ok ps sk →
  load_secret_key width ps (save_secret_key width sk) = inr sk.
Proof.
  intros Hpos (_ & Hchain & _) Hsk. unfold load_secret_key, save_secret_key.
  rewrite ints_of_to_bytes; [|done|by eapply poly_ok_fixed_width].
  by rewrite poly_of_ints_concat.
Qed.

Lemma load_save_public_key (ps : ParameterSet) (pk : PublicKey) :
  0 < width → ParameterSet_ok width ps → PublicKey_ok ps pk →
  load_public_key width ps (save_public_key width pk) = inr pk.
Proof.
  intros Hpos (_ & Hchain & _) [Ha Hb]. unfold load_public_key, save_public_key.
  rewrite ints_of_to_bytes; [|done|].
  2:{ apply Forall_app. split; by eapply poly_ok_fixed_width. }
  destruct (poly_ok_uniform _ _ _ Ha) as [Hall Hlen].
  rewrite <-Hlen, <-(length_concat_uniform _ _ Hall).
  rewrite take_app_length, drop_app_length.
  rewrite !poly_of_ints_concat by done. by destruct pk.
Qed.

Lemma load_save_ciphertext (ps : ParameterSet) (c : Ciphertext) :
  0 < width → ParameterSet_ok width ps → Ciphertext_ok width ps c →
  load_ciphertext width ps (save_ciphertext width c) = inr c.
Proof.
  intros Hpos (_ & Hchain & _) (Hlvl & H0 & H1 & Hsc & Hl).
  unfold load_ciphertext, save_ciphertext.
  assert (Forall (fixed_width width) (primes_at ps (ct_level c))) as Hprimes.
  { unfold primes_at. by apply Forall_take. }
  rewrite ints_of_to_bytes; [|done|].
  2:{ apply Forall_app. split; [by eapply poly_ok_fixed_width|].
      apply Forall_app. split; [by eapply poly_ok_fixed_width|]. by repeat constructor. }
  rewrite app_assoc, reverse_app.
  change (reverse [ct_scale c; ct_level c]) with [ct_level c; ct_scale c].
  cbn [app]. rewrite bool_decide_eq_true_2 by done. rewrite reverse_involutive.
  destruct (poly_ok_uniform _ _ _ H0) as [Hall Hlen].
  rewrite <-Hlen, <-(length_concat_uniform _ _ Hall).
  rewrite take_app_length, drop_app_length.
  rewrite !poly_of_ints_concat by done. by destruct c.
Qed.

(** A key file of another shape than the context's is refused. *)
Lemma load_public_key_incompatible (ps ps' : ParameterSet) (pk : PublicKey) :
  0 < width → ParameterSet_ok width ps → PublicKey_ok ps pk →
  length (modulus_chain ps') * degree ps' ≠ length (modulus_chain ps) * degree ps →
  load_public_key width ps' (save_public_key width pk) = inl DeserializationError.
Proof.
  intros Hpos (_ & Hchain & _) [Ha Hb] Hne. unfold load_public_key, save_public_key.
  rewrite ints_of_to_bytes; [|done|].
  2:{ apply Forall_app. split; by eapply poly_ok_fixed_width. }
  cbv zeta.
  destruct (poly_of_ints _ _ (take _ _)) as [a|] eqn:Hta; [|done].
  destruct (poly_of_ints _ _ (drop _ _)) as [b|] eqn:Htb; [|done].
  apply poly_of_ints_ok in Hta as [_ Hta]. apply poly_of_ints_ok in Htb as [_ Htb].
  rewrite length_take in Hta. rewrite length_drop in Htb. rewrite length_app in Hta, Htb.
  destruct (poly_ok_uniform _ _ _ Ha) as [Hall Hlen].
  destruct (poly_ok_uniform _ _ _ Hb) as [Hall' Hlen'].
  rewrite (length_concat_uniform _ _ Hall), (length_concat_uniform _ _ Hall') in Hta, Htb.
  rewrite Hlen, Hlen' in Hta, Htb. lia.
Qed.
End Formats.

(** ** The files of the script load back *)

Section PersistedScript.
Context `{F : PyFloat} {P : Pandas}.
Variable width : nat.
Variable E : Engine.
Variable HERE : string.
Let PL : PyfhelLib := persisted_lib width E.
#[local] Existing Instance PL.

Lemma persisted_keys_load_back ps pk sk :
  0 < width → Persisted.ParameterSet_ok width ps →
  Persisted.PublicKey_ok ps pk → Persisted.SecretKey_ok ps sk →
  keys_load_back ps pk sk.
Proof.
  intros Hpos Hps Hpk Hsk. split; [|split].
  - change (raised (Persisted.load_context width (Persisted.save_context width ps)) = inr ps).
    by rewrite load_save_context.
  - change (raised (Persisted.load_public_key width ps (Persisted.save_public_key width pk))
            = inr pk).
    by rewrite load_save_public_key.
  - change (raised (Persisted.load_secret_key width ps (Persisted.save_secret_key width sk))
            = inr sk).
    by rewrite load_save_secret_key.
Qed.

Lemma persisted_keygen_then_load n s b w w' HE :
  0 < width → Engine_ok width E →
  keygen_if_missing HERE n s b w = (w', inr HE) →
  load_for_decrypt HERE w' = (w', inr HE).
Proof.
  intros Hpos Hok Hrun. apply (keygen_then_load HERE n s b w); [|done].
  destruct (decide (all_key_files_exist HERE w)) as [Hall|Hn]; [by left|right].
  destruct (keygen_generates _ _ _ _ _ _ _ Hn Hrun) as (c & pk & sk & -> & Hc & Hk & _).
  exists c, pk, sk. split; [done|].
  pose proof (createContext_ok _ _ Hok _ _ _ _ Hc) as Hps.
  destruct (generateKeys_ok _ _ Hok _ _ _ _ Hps Hk) as [Hpk Hsk].
  by apply persisted_keys_load_back.
Qed.

Lemma raised_inr {A} (r : Persisted.error + A) (a : A) : raised r = inr a → r = inr a.
Proof. destruct r as [[]|a']; [done|]. by intros [= ->]. Qed.

(** C6.  Spec-modelled serialisers.  For the persisted formats of the spec
    (the context file, the key files and the ciphertext file of §6, for
    integers of any fixed width), loading the saved form of a value of the
    data model gives the value back, field for field, for parameter sets,
    public keys, secret keys and ciphertexts, the last three under the
    context they belong to.  In the script over these formats: the three
    files a successful [keygen_if_missing] leaves load back, in a later
    call or another process, to the handle it returned ([load_for_decrypt])
    and to its context and public key ([load_for_server]); and the file a
    successful [encrypt_weights_csv] leaves holds the saved form of the
    ciphertext it made, which [aggregate_ciphertexts], called on that path,
    loads back as the same ciphertext and saves as the sum. *)
Theorem saved_files_load_back :
  0 < width → Engine_ok width E →
  (∀ ps, Persisted.ParameterSet_ok width ps →
     Persisted.load_context width (Persisted.save_context width ps) = inr ps)
  ∧ (∀ ps pk, Persisted.ParameterSet_ok width ps → Persisted.PublicKey_ok ps pk →
     Persisted.load_public_key width ps (Persisted.save_public_key width pk) = inr pk)
  ∧ (∀ ps sk, Persisted.ParameterSet_ok width ps → Persisted.SecretKey_ok ps sk →
     Persisted.load_secret_key width ps (Persisted.save_secret_key width sk) = inr sk)
  ∧ (∀ ps c, Persisted.ParameterSet_ok width ps → Persisted.Ciphertext_ok width ps c →
     Persisted.load_ciphertext width ps (Persisted.save_ciphertext width c) = inr c)
  ∧ (∀ n s b w w' HE, keygen_if_missing HERE n s b w = (w', inr HE) →
     load_for_decrypt HERE w' = (w', inr HE)
     ∧ load_for_server HERE w' = (w', inr (mkPyfhel (he_ctx HE) (he_pk HE) None)))
  ∧ (∀ csv out_name v w w' out_path,
     is_abs out_name = false →
     encrypt_weights_csv HERE csv out_name v w = (w', inr out_path) →
     ∃ HE c,
       last (heap w') = Some (mkPyCtxt HE c)
       ∧ load_for_decrypt HERE w' = (w', inr HE)
       ∧ files w' !! out_path = Some (Persisted.save_ciphertext width c)
       ∧ aggregate_ciphertexts HERE [out_path] false w'
         = (mkWorld (<[sum_path HERE := Persisted.save_ciphertext width c]> (files w'))
                    (heap w' ++ [mkPyCtxt (mkPyfhel (he_ctx HE) (he_pk HE) None) c])
                    (rng w') (stdout w' ++ [OutAggregated false (sum_path HERE)]),
            inr (sum_path HERE))).
Proof.
  intros Hpos Hok.
  split; [intros; by apply load_save_context|].
  split; [intros; by apply load_save_public_key|].
  split; [intros; by apply load_save_secret_key|].
  split; [intros; by apply load_save_ciphertext|].
  split.
  - intros n s b w w' HE Hrun.
    pose proof (persisted_keygen_then_load _ _ _ _ _ _ Hpos Hok Hrun) as Hload.
    split; [done|]. by apply load_for_server_of_decrypt.
  - intros csv out_name v w w' out_path Hrel Hrun.
    apply encrypt_weights_csv_spec in Hrun
      as (w0 & HE & vec & ptxt & c & Hkey & _ & _ & Hc & -> & Hf & Hh).
    pose proof (persisted_keygen_then_load _ _ _ _ _ _ Hpos Hok Hkey) as Hload.
    destruct (load_for_decrypt_context _ _ _ _ Hload) as (b & ps & Hb & Hctx).
    apply raised_inr, load_context_ok in Hb.
    pose proof (eng_encrypt_ok _ _ Hok _ _ _ _ _ Hctx Hb Hc) as Hcok.
    pose proof (load_for_decrypt_after_encrypt _ _ _ _ _ _ Hrel Hf Hload) as Hdec.
    pose proof (load_for_server_of_decrypt _ _ _ Hdec) as Hload'.
    exists HE, c. split; [by rewrite Hh, last_snoc|]. split; [done|].
    assert (files w' !! ct_path_of HERE out_name = Some (Persisted.save_ciphertext width c))
      as Hfile by (rewrite Hf; apply lookup_insert_eq).
    split; [done|].
    apply (aggregate_single HERE w' _ _ _ c Hload' Hfile).
    change (match he_ctx HE with
            | Some ps => raised (Persisted.load_ciphertext width ps
                                   (Persisted.save_ciphertext width c))
            | None => inl (RuntimeError "context not initialized")
            end = inr c).
    rewrite Hctx. by rewrite load_save_ciphertext.
Qed.
End PersistedScript.
(** ** The two readers of a weights file *)

Section Readers.
Context `{F : PyFloat} {P : Pandas} {L : PyfhelLib}.

Lemma assoc_col_elem c cols v : assoc_col c cols = Some v → (c, v) ∈ cols.
Proof.
  induction cols as [|[n x] cols IH]; [done|]. cbn [assoc_col].
  case_bool_decide as Hn.
  - intros [= <-]. subst n. apply list_elem_of_here.
  - intros Hv. apply list_elem_of_further. by apply IH.
Qed.

Lemma df_getitem_elem df c v : df_getitem df c = inr v → (c, v) ∈ df_cols df.
Proof.
  unfold df_getitem. destruct (assoc_col c (df_cols df)) eqn:Ha; [|done].
  intros [= <-]. by apply assoc_col_elem.
Qed.

Lemma assoc_col_columns c cols : c ∈ map fst cols → is_Some (assoc_col c cols).
Proof.
  induction cols as [|[n x] cols IH]; cbn [map fst assoc_col].
  - by intros ?%elem_of_nil.
  - intros [->|Hin]%elem_of_cons; [by rewrite bool_decide_eq_true_2; eauto|].
    case_bool_decide; eauto.
Qed.

Lemma has_column_getitem df c : has_column df c = true → ∃ v, df_getitem df c = inr v.
Proof.
  unfold has_column, df_getitem, df_columns. intros Hc%bool_decide_eq_true.
  destruct (assoc_col_columns _ _ Hc) as [v ->]. eauto.
Qed.

(** X1.  [_find_coef_column] returns the first of "Coefficient", "coefficient",
    "coef", "Coef" that is a column of the frame: the result is a column,
    and no candidate before it is one.  When none of the four is a column it
    raises ValueError with the text of line 26, which lists the columns. *)
Theorem find_coef_column_first (df : DataFrame) :
  match _find_coef_column df with
  | inr c => ∃ earlier later,
      coef_candidates = earlier ++ c :: later
      ∧ c ∈ df_columns df
      ∧ ∀ x, x ∈ earlier → x ∉ df_columns df
  | inl e =>
      e = ValueError (coef_not_found_msg df)
      ∧ ∀ x, x ∈ coef_candidates → x ∉ df_columns df
  end.
Proof.
  unfold _find_coef_column, coef_candidates, has_column. cbn [find].
  repeat case_bool_decide.
  - exists [], ["coefficient"; "coef"; "Coef"]. split; [done|]. split; [done|].
    by intros x ?%elem_of_nil.
  - exists ["Coefficient"], ["coef"; "Coef"]. split; [done|]. split; [done|].
    intros x Hx. repeat (apply elem_of_cons in Hx as [->|Hx]; [done|]). by apply elem_of_nil in Hx.
  - exists ["Coefficient"; "coefficient"], ["Coef"]. split; [done|]. split; [done|].
    intros x Hx. repeat (apply elem_of_cons in Hx as [->|Hx]; [done|]). by apply elem_of_nil in Hx.
  - exists ["Coefficient"; "coefficient"; "coef"], []. split; [done|]. split; [done|].
    intros x Hx. repeat (apply elem_of_cons in Hx as [->|Hx]; [done|]). by apply elem_of_nil in Hx.
  - split; [done|].
    intros x Hx. repeat (apply elem_of_cons in Hx as [->|Hx]; [done|]). by apply elem_of_nil in Hx.
Qed.

(** What [weights_csv_to_vector] returns for a file pandas reads as [df]. *)
Lemma weights_csv_to_vector_frame p w df :
  reads_as w p df →
  snd (weights_csv_to_vector p w)
  = match _find_coef_column df with
    | inl e => inl e
    | inr cc =>
      match df_getitem df cc with
      | inl e => inl e
      | inr coef =>
        let last_row_intercept :=
          match values_last coef with
          | inl e => inl e
          | inr c =>
            match cell_float c with
            | inl e => inl e
            | inr i =>
              match astype_float (values_init coef) with
              | inl e => inl e
              | inr cs => inr (cs ++ [i])
              end
            end
          end in
        if has_column df "Feature" then
          match df_getitem df "Feature" with
          | inl e => inl e
          | inr feature =>
            if mask_any (intercept_mask feature) then
              match values_first (mask_select (intercept_mask feature) coef) with
              | inl e => inl e
              | inr c =>
                match cell_float c with
                | inl e => inl e
                | inr i =>
                  match astype_float (mask_select (map negb (intercept_mask feature)) coef) with
                  | inl e => inl e
                  | inr cs => inr (cs ++ [i])
                  end
                end
              end
            else last_row_intercept
          end
        else last_row_intercept
      end
    end.
Proof.
  intros (b & Hb & Hdf). unfold weights_csv_to_vector, pd_read_csv. run.
  rewrite Hb. run. rewrite Hdf. run.
  destruct (_find_coef_column df) as [e|cc]; [done|]. run.
  destruct (df_getitem df cc) as [e|coef]; [done|]. cbv zeta.
  assert (∀ w0 : World,
    snd ((let! intercept := let! c := lift (values_last coef) in lift (cell_float c) in
          let! coefs := lift (astype_float (values_init coef)) in
          ret (coefs ++ [intercept])) w0)
    = match values_last coef with
      | inl e => inl e
      | inr c =>
        match cell_float c with
        | inl e => inl e
        | inr i =>
          match astype_float (values_init coef) with
          | inl e => inl e
          | inr cs => inr (cs ++ [i])
          end
        end
      end) as Hlast.
  { intros w0. run. destruct (values_last coef); [done|]. run.
    destruct (cell_float _); [done|]. run. by destruct (astype_float _). }
  destruct (has_column df "Feature"); [|apply Hlast]. run.
  destruct (df_getitem df "Feature") as [e|feature]; [done|].
  destruct (mask_any (intercept_mask feature)); [|apply Hlast]. run.
  destruct (values_first _); [done|]. run.
  destruct (cell_float _); [done|]. run. clear Hlast.
  by destruct (astype_float (mask_select _ coef)).
Qed.

(** What [weights_csv_feature_names] returns for a file pandas reads as [df]. *)
Lemma weights_csv_feature_names_frame p w df :
  reads_as w p df →
  snd (weights_csv_feature_names p w)
  = match _find_coef_column df with
    | inl e => inl e
    | inr cc =>
      if has_column df "Feature" then
        match df_getitem df "Feature" with
        | inl e => inl e
        | inr feature =>
          if mask_any (intercept_mask feature) then
            inr (map cell_str (mask_select (map negb (intercept_mask feature)) feature)
                   ++ ["Intercept"])
          else inr (values_init (map cell_str feature) ++ ["Intercept"])
        end
      else
        match df_getitem df cc with
        | inl e => inl e
        | inr coef => inr (map (λ i, "f" +:+ pretty i) (seq 0 (length coef - 1)) ++ ["Intercept"])
        end
    end.
Proof.
  intros (b & Hb & Hdf). unfold weights_csv_feature_names, pd_read_csv. run.
  rewrite Hb. run. rewrite Hdf. run.
  destruct (_find_coef_column df) as [e|cc]; [done|]. run.
  destruct (has_column df "Feature").
  - run. destruct (df_getitem df "Feature") as [e|feature]; [done|].
    by destruct (mask_any (intercept_mask feature)).
  - run. by destruct (df_getitem df cc).
Qed.

Lemma find_coef_column_candidate df c :
  _find_coef_column df = inr c → c ∈ coef_candidates ∧ has_column df c = true.
Proof.
  unfold _find_coef_column, coef_candidates. cbn [find].
  destruct (has_column df "Coefficient") eqn:H1;
    [intros [= <-]; split; [apply list_elem_of_In; simpl; tauto|done]|].
  destruct (has_column df "coefficient") eqn:H2;
    [intros [= <-]; split; [apply list_elem_of_In; simpl; tauto|done]|].
  destruct (has_column df "coef") eqn:H3;
    [intros [= <-]; split; [apply list_elem_of_In; simpl; tauto|done]|].
  destruct (has_column df "Coef") eqn:H4;
    [intros [= <-]; split; [apply list_elem_of_In; simpl; tauto|done]|].
  done.
Qed.

Lemma df_getitem_has_column df c v : df_getitem df c = inr v → has_column df c = true.
Proof.
  intros Hv%df_getitem_elem. apply bool_decide_eq_true. unfold df_columns.
  apply list_elem_of_In, in_map_iff. exists (c, v). split; [done|]. by apply list_elem_of_In.
Qed.

Lemma astype_float_length cs fs : astype_float cs = inr fs → length fs = length cs.
Proof.
  revert fs. induction cs as [|c cs IH]; intros fs; cbn [astype_float].
  - by intros [= <-].
  - destruct (cell_float c); [done|]. destruct (astype_float cs); [done|].
    intros [= <-]. cbn [length]. by rewrite (IH _ eq_refl).
Qed.

Lemma astype_float_app cs1 cs2 :
  astype_float (cs1 ++ cs2)
  = match astype_float cs1 with
    | inl e => inl e
    | inr f1 =>
      match astype_float cs2 with
      | inl e => inl e
      | inr f2 => inr (f1 ++ f2)
      end
    end.
Proof.
  induction cs1 as [|c cs1 IH]; cbn [app astype_float].
  - by destruct (astype_float cs2).
  - destruct (cell_float c); [done|]. rewrite IH.
    destruct (astype_float cs1); [done|]. by destruct (astype_float cs2).
Qed.

Lemma astype_float_one c :
  astype_float [c] = match cell_float c with inl e => inl e | inr x => inr [x] end.
Proof. cbn [astype_float]. by destruct (cell_float c). Qed.

(** Converting a column reordered gives the floats reordered. *)
Lemma astype_float_perm cs1 cs2 f1 :
  Permutation cs1 cs2 → astype_float cs1 = inr f1 →
  ∃ f2, astype_float cs2 = inr f2 ∧ Permutation f1 f2.
Proof.
  intros Hp. revert f1. induction Hp as [|c cs1 cs2 Hp IH|c1 c2 cs|cs1 cs2 cs3 Hp1 IH1 Hp2 IH2];
    intros f1; cbn [astype_float].
  - intros [= <-]. by exists [].
  - destruct (cell_float c) as [|x]; [done|].
    destruct (astype_float cs1) as [|f] eqn:H1; [done|]. intros [= <-].
    destruct (IH f eq_refl) as (f2 & -> & Hf). exists (x :: f2). by split; [|constructor].
  - destruct (cell_float c2) as [|x2]; [done|]. destruct (cell_float c1) as [|x1]; [done|].
    destruct (astype_float cs) as [|f]; [done|]. intros [= <-].
    exists (x1 :: x2 :: f). split; [done|]. constructor.
  - intros H1. destruct (IH1 _ H1) as (f2 & H2 & Hf12).
    destruct (IH2 _ H2) as (f3 & H3 & Hf23). exists f3. split; [done|]. by etrans.
Qed.

Lemma last_removelast {A} (l : list A) x : last l = Some x → removelast l ++ [x] = l.
Proof.
  induction l as [|y l IH]; [done|]. destruct l as [|z l].
  - by intros [= <-].
  - intros Hl. cbn [removelast app]. f_equal. by apply IH.
Qed.

Lemma length_removelast {A} (l : list A) : length (removelast l) = length l - 1.
Proof.
  induction l as [|y l IH]; [done|]. destruct l as [|z l]; [done|].
  cbn [removelast length] in *. lia.
Qed.

Lemma mask_select_length {A B} (m : list bool) (xs : list A) (ys : list B) :
  length xs = length m → length ys = length m →
  length (mask_select m xs) = length (mask_select m ys).
Proof.
  revert xs ys. induction m as [|b m IH]; intros [|x xs] [|y ys]; try done.
  cbn [length mask_select]. intros [= Hx] [= Hy]. destruct b; cbn [length]; auto.
Qed.

Lemma mask_select_count {A} (m : list bool) (xs : list A) :
  length xs = length m →
  length (mask_select m xs) = length (filter (λ b, b = true) m)
  ∧ length (mask_select (map negb m) xs) + length (filter (λ b, b = true) m) = length xs.
Proof.
  revert xs. induction m as [|b m IH]; intros [|x xs]; try done.
  cbn [length mask_select map]. intros [= Hx]. destruct (IH xs Hx) as [H1 H2].
  destruct b; cbn [negb].
  - rewrite filter_cons_True by done. cbn [length]. lia.
  - rewrite filter_cons_False by done. cbn [length]. lia.
Qed.

(** The rows a mask keeps and the rows it drops are all the rows. *)
Lemma mask_select_partition {A} (m : list bool) (xs : list A) :
  length xs = length m →
  Permutation (mask_select (map negb m) xs ++ mask_select m xs) xs.
Proof.
  revert xs. induction m as [|b m IH]; intros [|x xs]; try done.
  cbn [length mask_select map]. intros [= Hx]. destruct b; cbn [negb].
  - rewrite <-Permutation_middle. constructor. by apply IH.
  - cbn [app]. constructor. by apply IH.
Qed.

(** The vector of a frame whose last row is taken as the intercept. *)
Lemma last_row_vector (coef : list cell) v :
  match values_last coef with
  | inl e => inl e
  | inr c =>
    match cell_float c with
    | inl e => inl e
    | inr i =>
      match astype_float (values_init coef) with
      | inl e => inl e
      | inr cs => inr (cs ++ [i])
      end
    end
  end = inr v →
  coef ≠ [] ∧ astype_float coef = inr v.
Proof.
  unfold values_last, values_init. destruct (last coef) as [c|] eqn:Hlast; [|done].
  destruct (cell_float c) as [|i] eqn:Hc; [done|].
  destruct (astype_float (removelast coef)) as [|cs] eqn:Hcs; [done|]. intros [= <-].
  split; [by intros ->|].
  rewrite <-(last_removelast coef c Hlast) at 1.
  by rewrite astype_float_app, Hcs, astype_float_one, Hc.
Qed.

Lemma last_row_vector_ok (coef : list cell) v :
  coef ≠ [] → astype_float coef = inr v →
  match values_last coef with
  | inl e => inl e
  | inr c =>
    match cell_float c with
    | inl e => inl e
    | inr i =>
      match astype_float (values_init coef) with
      | inl e => inl e
      | inr cs => inr (cs ++ [i])
      end
    end
  end = inr v.
Proof.
  intros Hne Hv. unfold values_last, values_init.
  destruct (last coef) as [c|] eqn:Hlast; [|by apply last_None in Hlast].
  rewrite <-(last_removelast coef c Hlast), astype_float_app, astype_float_one in Hv.
  destruct (astype_float (removelast coef)) as [|cs]; [done|].
  by destruct (cell_float c) as [|i].
Qed.

(** X2.  Whenever [weights_csv_to_vector] yields a vector for a file,
    [weights_csv_feature_names] yields names for the same file, as many as
    the vector has entries, the last one being "Intercept". *)
Theorem feature_names_align_with_vector (p : string) (w : World) (df : DataFrame)
    (v : list float) :
  reads_as w p df → rectangular df →
  snd (weights_csv_to_vector p w) = inr v →
  ∃ names, snd (weights_csv_feature_names p w) = inr names
           ∧ length names = length v
           ∧ last names = Some "Intercept".
Proof.
  intros Hr Hrect Hv. rewrite (weights_csv_to_vector_frame _ _ _ Hr) in Hv.
  rewrite (weights_csv_feature_names_frame _ _ _ Hr).
  destruct (_find_coef_column df) as [|cc] eqn:Hcc; [done|].
  destruct (df_getitem df cc) as [|coef] eqn:Hcoef; [done|]. cbv zeta in Hv.
  destruct (has_column df "Feature").
  - destruct (df_getitem df "Feature") as [|feature] eqn:Hfeat; [done|].
    assert (length feature = length coef) as Hlen.
    { eapply Hrect; by apply df_getitem_elem. }
    destruct (mask_any (intercept_mask feature)).
    + destruct (values_first _) as [|c]; [done|]. destruct (cell_float c) as [|i]; [done|].
      destruct (astype_float _) as [|cs] eqn:Hcs; [done|]. injection Hv as <-.
      eexists. split; [done|]. rewrite last_snoc. split; [|done].
      rewrite !length_app, length_map, (astype_float_length _ _ Hcs). f_equal.
      apply mask_select_length; unfold intercept_mask; rewrite !length_map; done.
    + apply last_row_vector in Hv as [Hne Hv]. eexists. split; [done|].
      rewrite last_snoc. split; [|done].
      rewrite length_app, (astype_float_length _ _ Hv). unfold values_init.
      rewrite length_removelast, length_map, Hlen. cbn [length].
      destruct coef; [done|]. cbn [length]. lia.
  - apply last_row_vector in Hv as [Hne Hv]. eexists. split; [done|].
    rewrite last_snoc. split; [|done].
    rewrite length_app, length_map, length_seq, (astype_float_length _ _ Hv).
    destruct coef; [done|]. cbn [length]. lia.
Qed.

(** X3.  When the frame has no row named "intercept" (or no "Feature"
    column at all) and at least one row, [weights_csv_to_vector] yields
    exactly the coefficient column converted to floats, in file order: the
    last row is taken as the intercept. *)
Theorem vector_is_column_when_no_intercept_row (p : string) (w : World) (df : DataFrame)
    (cc : string) (coef : list cell) :
  reads_as w p df →
  _find_coef_column df = inr cc → df_getitem df cc = inr coef →
  (has_column df "Feature" = false
   ∨ ∃ feature, df_getitem df "Feature" = inr feature
                ∧ mask_any (intercept_mask feature) = false) →
  coef ≠ [] →
  ∀ v, snd (weights_csv_to_vector p w) = inr v ↔ astype_float coef = inr v.
Proof.
  intros Hr Hcc Hcoef Hno Hne v. rewrite (weights_csv_to_vector_frame _ _ _ Hr), Hcc, Hcoef.
  cbv zeta.
  assert (∀ X : res (list float), (has_column df "Feature" = false
            ∨ ∃ feature, df_getitem df "Feature" = inr feature
                ∧ mask_any (intercept_mask feature) = false) →
          (if has_column df "Feature" then
             match df_getitem df "Feature" with
             | inl e => inl e
             | inr feature =>
               if mask_any (intercept_mask feature) then
                 match values_first (mask_select (intercept_mask feature) coef) with
                 | inl e => inl e
                 | inr c =>
                   match cell_float c with
                   | inl e => inl e
                   | inr i =>
                     match astype_float (mask_select (map negb (intercept_mask feature)) coef) with
                     | inl e => inl e
                     | inr cs => inr (cs ++ [i])
                     end
                   end
                 end
               else X
             end
           else X) = X) as Hbranch.
  { intros X [->|(feature & -> & ->)]; [done|]. by destruct (has_column df "Feature"). }
  rewrite Hbranch by done. split.
  - by intros [_ ?]%last_row_vector.
  - by apply last_row_vector_ok.
Qed.

Lemma mask_select_first {A} (m : list bool) (xs : list A) (c : A) (sel : list A) :
  length xs = length m → mask_select m xs = c :: sel →
  ∃ j, m !! j = Some true ∧ (∀ k, k < j → m !! k = Some false) ∧ xs !! j = Some c.
Proof.
  revert xs. induction m as [|b m IH]; intros [|x xs]; try done.
  cbn [length mask_select]. intros [= Hlen]. destruct b.
  - intros [= -> _]. exists 0. split; [done|]. split; [lia|done].
  - intros Hsel. destruct (IH xs Hlen Hsel) as (j & Hj & Hbefore & Hx).
    exists (S j). split; [done|]. split; [|done].
    intros [|k] Hk; [done|]. apply Hbefore. lia.
Qed.

(** X4.  With rows named "intercept", the intercept of the vector (its last
    entry) is the coefficient of the first such row of the file; the vector
    has one entry per other row plus one, so every intercept row after the
    first is dropped; with exactly one such row the vector is a
    rearrangement of the whole coefficient column. *)
Theorem vector_with_intercept_rows (p : string) (w : World) (df : DataFrame)
    (cc : string) (coef feature : list cell) (v : list float) :
  reads_as w p df → rectangular df →
  _find_coef_column df = inr cc → df_getitem df cc = inr coef →
  df_getitem df "Feature" = inr feature →
  mask_any (intercept_mask feature) = true →
  snd (weights_csv_to_vector p w) = inr v →
  (∃ j c i, intercept_mask feature !! j = Some true
            ∧ (∀ k, k < j → intercept_mask feature !! k = Some false)
            ∧ coef !! j = Some c ∧ cell_float c = inr i ∧ last v = Some i)
  ∧ length v + intercept_rows feature = length coef + 1
  ∧ (intercept_rows feature = 1 →
     ∃ fs, astype_float coef = inr fs ∧ Permutation v fs).
Proof.
  intros Hr Hrect Hcc Hcoef Hfeat Hany.
  rewrite (weights_csv_to_vector_frame _ _ _ Hr), Hcc, Hcoef, Hfeat.
  rewrite (df_getitem_has_column _ _ _ Hfeat), Hany. cbv zeta.
  assert (length coef = length (intercept_mask feature)) as Hlen.
  { unfold intercept_mask. rewrite length_map. eapply Hrect; by apply df_getitem_elem. }
  destruct (mask_select_count (intercept_mask feature) coef Hlen) as [Hk Hrest].
  pose proof (mask_select_partition (intercept_mask feature) coef Hlen) as Hperm.
  fold (intercept_rows feature) in Hk, Hrest.
  destruct (mask_select (intercept_mask feature) coef) as [|c sel] eqn:Hsel; [done|].
  cbn [values_first]. destruct (cell_float c) as [|i] eqn:Hc; [done|].
  destruct (astype_float _) as [|cs] eqn:Hcs; [done|]. intros [= <-].
  split; [|split].
  - destruct (mask_select_first _ _ _ _ Hlen Hsel) as (j & Hj & Hbefore & Hcj).
    exists j, c, i. by rewrite last_snoc.
  - rewrite length_app, (astype_float_length _ _ Hcs). cbn [length]. lia.
  - intros Hone. rewrite Hone in Hk. destruct sel; [|done].
    eapply astype_float_perm; [exact Hperm|].
    by rewrite astype_float_app, Hcs, astype_float_one, Hc.
Qed.

(** X5.  On a file with a coefficient column and no rows the two readers
    disagree: [weights_csv_to_vector] raises IndexError, while
    [weights_csv_feature_names] returns the single name "Intercept". *)
Theorem empty_weights_file (p : string) (w : World) (df : DataFrame) (cc : string) :
  reads_as w p df → rectangular df →
  _find_coef_column df = inr cc → df_getitem df cc = inr [] →
  snd (weights_csv_to_vector p w)
  = inl (IndexError "index -1 is out of bounds for axis 0 with size 0")
  ∧ snd (weights_csv_feature_names p w) = inr ["Intercept"].
Proof.
  intros Hr Hrect Hcc Hcoef.
  rewrite (weights_csv_to_vector_frame _ _ _ Hr), (weights_csv_feature_names_frame _ _ _ Hr).
  rewrite Hcc, Hcoef. cbv zeta.
  destruct (has_column df "Feature") eqn:Hf; [|done].
  destruct (has_column_getitem _ _ Hf) as [feature Hfeat]. rewrite Hfeat.
  assert (feature = []) as ->.
  { apply length_zero_iff_nil. change 0 with (length (@nil cell)).
    eapply Hrect; by apply df_getitem_elem. }
  done.
Qed.

Lemma NoDup_map_inj {A B} (f : A → B) (l : list A) :
  (∀ x y, f x = f y → x = y) → NoDup l → NoDup (map f l).
Proof.
  intros Hf. induction 1 as [|x l Hx Hl IH]; cbn [map]; constructor; [|done].
  intros Hin. apply list_elem_of_In, in_map_iff in Hin as (y & Hy & Hin).
  apply Hf in Hy as ->. by apply Hx, list_elem_of_In.
Qed.

Lemma f_name_inj (i j : nat) : "f" +:+ pretty i = "f" +:+ pretty j → i = j.
Proof. intros H. apply String.app_inj in H. by apply (inj pretty). Qed.

(** X6.  Without a "Feature" column the names [weights_csv_feature_names]
    synthesises, f0, f1, ... and "Intercept", are pairwise distinct. *)
Theorem synthesized_names_distinct (p : string) (w : World) (df : DataFrame)
    (names : list string) :
  reads_as w p df → has_column df "Feature" = false →
  snd (weights_csv_feature_names p w) = inr names →
  NoDup names.
Proof.
  intros Hr Hf. rewrite (weights_csv_feature_names_frame _ _ _ Hr), Hf.
  destruct (_find_coef_column df) as [|cc]; [done|].
  destruct (df_getitem df cc) as [|coef]; [done|]. intros [= <-].
  apply NoDup_app. split; [|split].
  - apply NoDup_map_inj; [apply f_name_inj|apply NoDup_seq].
  - intros x Hx ->%list_elem_of_singleton.
    apply list_elem_of_In, in_map_iff in Hx as (i & Hi & _). discriminate Hi.
  - apply NoDup_singleton.
Qed.

(** X7.  The weights frame LogisticRegression.py writes (columns "feature"
    and "Coffiecients", lines 27-29) is refused by both readers of Ckks.py:
    they raise ValueError, since none of the coefficient column names they
    look for is there. *)
Theorem hospital2_weights_rejected (p : string) (w : World) (X_columns : list string)
    (coef : list float) (intercept : float) :
  reads_as w p (hospital2_weights X_columns coef intercept) →
  snd (weights_csv_to_vector p w)
  = inl (ValueError "Coefficient column not found. Available columns: ['feature', 'Coffiecients']")
  ∧ snd (weights_csv_feature_names p w)
    = inl (ValueError "Coefficient column not found. Available columns: ['feature', 'Coffiecients']").
Proof.
  intros Hr.
  by rewrite (weights_csv_to_vector_frame _ _ _ Hr), (weights_csv_feature_names_frame _ _ _ Hr).
Qed.

(** X8.  The vector depends on the feature names only through which rows
    are named "intercept": two files with the same column names, the same
    other columns and intercept rows at the same places yield the same
    outcome of [weights_csv_to_vector]. *)
Theorem vector_ignores_feature_names (p1 p2 : string) (w1 w2 : World) (df1 df2 : DataFrame) :
  reads_as w1 p1 df1 → reads_as w2 p2 df2 →
  df_columns df1 = df_columns df2 →
  (∀ c, c ≠ "Feature" → df_getitem df1 c = df_getitem df2 c) →
  (∀ f1 f2, df_getitem df1 "Feature" = inr f1 → df_getitem df2 "Feature" = inr f2 →
            intercept_mask f1 = intercept_mask f2) →
  snd (weights_csv_to_vector p1 w1) = snd (weights_csv_to_vector p2 w2).
Proof.
  intros Hr1 Hr2 Hcols Hother Hmask.
  rewrite (weights_csv_to_vector_frame _ _ _ Hr1), (weights_csv_to_vector_frame _ _ _ Hr2).
  assert (∀ c, has_column df1 c = has_column df2 c) as Hhas.
  { intros c. unfold has_column. by rewrite Hcols. }
  assert (_find_coef_column df1 = _find_coef_column df2) as Hfind.
  { unfold _find_coef_column. cbn [find]. by rewrite !Hhas, Hcols. }
  rewrite <-Hfind. destruct (_find_coef_column df1) as [|cc] eqn:Hcc; [done|].
  apply find_coef_column_candidate in Hcc as [Hcand _].
  rewrite <-(Hother cc).
  2:{ intros ->. apply list_elem_of_In in Hcand. simpl in Hcand. intuition discriminate. }
  destruct (df_getitem df1 cc) as [|coef]; [done|]. cbv zeta. rewrite <-Hhas.
  destruct (has_column df1 "Feature") eqn:Hf; [|done].
  destruct (has_column_getitem _ _ Hf) as [f1 Hf1].
  rewrite Hhas in Hf. destruct (has_column_getitem _ _ Hf) as [f2 Hf2].
  by rewrite Hf1, Hf2, (Hmask _ _ Hf1 Hf2).
Qed.
End Readers.

Section Rows.
Context `{F : PyFloat} {P : Pandas} {L : PyfhelLib}.

Lemma mask_select_map {A B} (f : A → B) (m : list bool) (xs : list A) :
  mask_select m (map f xs) = map f (mask_select m xs).
Proof.
  revert xs. induction m as [|b m IH]; intros [|x xs]; try done.
  cbn [map mask_select]. destruct b; cbn [map]; by rewrite IH.
Qed.

Lemma mask_select_sublist {A} (m : list bool) (xs : list A) : sublist (mask_select m xs) xs.
Proof.
  revert xs. induction m as [|b m IH]; intros [|x xs]; cbn [mask_select];
    try apply sublist_nil_l.
  destruct b; [by apply sublist_skip|by apply sublist_cons].
Qed.

Lemma removelast_sublist {A} (xs : list A) : sublist (removelast xs) xs.
Proof.
  induction xs as [|x [|y xs] IH]; cbn [removelast]; [done|apply sublist_nil_l|].
  by apply sublist_skip.
Qed.

Lemma removelast_map {A B} (f : A → B) (xs : list A) :
  removelast (map f xs) = map f (removelast xs).
Proof.
  induction xs as [|x [|y xs] IH]; [done..|].
  change (f x :: removelast (map f (y :: xs)) = f x :: map f (removelast (y :: xs))).
  by rewrite IH.
Qed.

Lemma map_fst_zip {A B} (xs : list A) (ys : list B) :
  length xs = length ys → map fst (zip xs ys) = xs ∧ map snd (zip xs ys) = ys.
Proof.
  revert ys. induction xs as [|x xs IH]; intros [|y ys]; try done.
  intros [= Hlen]. destruct (IH ys Hlen) as [H1 H2]. cbn [zip zip_with map fst snd].
  by rewrite H1, H2.
Qed.

(** X9.  With a "Feature" column, the names and the vector are read off
    the same rows in the same order: there are rows of the file, kept in
    file order, whose feature names are the names (before "Intercept") and
    whose coefficients, followed by the coefficient of one more row of the
    file (the intercept), are the vector. *)
Theorem names_and_vector_share_rows (p : string) (w : World) (df : DataFrame)
    (cc : string) (coef feature : list cell) (v : list float) (names : list string) :
  reads_as w p df → rectangular df →
  _find_coef_column df = inr cc → df_getitem df cc = inr coef →
  df_getitem df "Feature" = inr feature →
  snd (weights_csv_to_vector p w) = inr v →
  snd (weights_csv_feature_names p w) = inr names →
  ∃ rows irow,
    sublist rows (zip feature coef) ∧ irow ∈ zip feature coef
    ∧ names = map (λ r, cell_str (fst r)) rows ++ ["Intercept"]
    ∧ astype_float (map snd rows ++ [snd irow]) = inr v.
Proof.
  intros Hr Hrect Hcc Hcoef Hfeat.
  rewrite (weights_csv_to_vector_frame _ _ _ Hr), (weights_csv_feature_names_frame _ _ _ Hr).
  rewrite Hcc, Hcoef, Hfeat, (df_getitem_has_column _ _ _ Hfeat). cbv zeta.
  assert (length feature = length coef) as Hlen.
  { eapply Hrect; by apply df_getitem_elem. }
  destruct (map_fst_zip feature coef Hlen) as [Hfst Hsnd].
  set (zs := zip feature coef) in *.
  destruct (mask_any (intercept_mask feature)).
  - set (m := intercept_mask feature).
    assert (∀ k, mask_select k coef = map snd (mask_select k zs)) as Hc
      by (intros k; by rewrite <-mask_select_map, Hsnd).
    assert (∀ k, mask_select k feature = map fst (mask_select k zs)) as Hf
      by (intros k; by rewrite <-mask_select_map, Hfst).
    rewrite !Hc, Hf.
    destruct (mask_select m zs) as [|irow sel] eqn:Hsel; [done|].
    cbn [map values_first]. destruct (cell_float (snd irow)) as [|i] eqn:Hi; [done|].
    destruct (astype_float _) as [|cs] eqn:Hcs; [done|]. intros [= <-] [= <-].
    exists (mask_select (map negb m) zs), irow.
    split; [apply mask_select_sublist|]. split; [|split].
    + eapply elem_of_sublist; [|apply (mask_select_sublist m zs)].
      rewrite Hsel. by left.
    + by rewrite map_map.
    + by rewrite astype_float_app, Hcs, astype_float_one, Hi.
  - intros [Hne Hv]%last_row_vector [= <-].
    destruct (last zs) as [irow|] eqn:Hlast.
    2:{ apply last_None in Hlast. destruct Hne. by rewrite <-Hsnd, Hlast. }
    exists (removelast zs), irow. split; [apply removelast_sublist|]. split; [|split].
    + rewrite <-(last_removelast zs irow Hlast). apply elem_of_app. right. by left.
    + unfold values_init. by rewrite <-Hfst at 1; rewrite map_map, removelast_map.
    + rewrite <-(map_app snd _ [irow]), last_removelast by done. by rewrite Hsnd.
Qed.
End Rows.

(** ** The verification flag, failures and the files of a whole run *)

Section Verify.
Context `{F : PyFloat} {P : Pandas} {L : PyfhelLib}.
Variable HERE : string.

Lemma verify_loop_prints vec dec range w :
  files (fst (verify_loop vec dec range w)) = files w
  ∧ heap (fst (verify_loop vec dec range w)) = heap w
  ∧ rng (fst (verify_loop vec dec range w)) = rng w
  ∧ ∃ out, stdout (fst (verify_loop vec dec range w)) = stdout w ++ out
           ∧ match snd (verify_loop vec dec range w) with
             | inr _ => length out = length range
             | inl _ => length out < length range
             end.
Proof.
  revert w. induction range as [|i range IH]; intros w; cbn [verify_loop].
  - repeat split. exists []. by rewrite app_nil_r.
  - run. destruct (vec !! i) as [o|].
    2:{ repeat split. exists []. rewrite app_nil_r. split; [done|]. cbn. lia. }
    run. destruct (dec !! i) as [d|].
    2:{ repeat split. exists []. rewrite app_nil_r. split; [done|]. cbn. lia. }
    run. specialize (IH (mkWorld (files w) (heap w) (rng w) (stdout w ++ [OutVerifyEntry o d]))).
    destruct IH as (Hf & Hh & Hg & out & Ho & Hlen). cbn [files heap rng stdout] in *.
    repeat split; [done..|]. exists (OutVerifyEntry o d :: out).
    split; [by rewrite Ho, <-app_assoc|].
    destruct (snd _); cbn [length]; lia.
Qed.

Lemma verify_block_prints HE vec ctxt v w :
  snd (verify_block HE vec ctxt v w) = inr tt
  ∧ files (fst (verify_block HE vec ctxt v w)) = files w
  ∧ heap (fst (verify_block HE vec ctxt v w)) = heap w
  ∧ rng (fst (verify_block HE vec ctxt v w)) = rng w
  ∧ ∃ out, stdout (fst (verify_block HE vec ctxt v w)) = stdout w ++ out
           ∧ length out ≤ (if v then 6 else 0).
Proof.
  unfold verify_block. destruct v.
  2:{ repeat split. exists []. by rewrite app_nil_r. }
  unfold try_except, HE_decryptFrac. run.
  destruct (heap w !! ctxt) as [o|].
  2:{ repeat split. exists [OutVerifySkipped (RuntimeError "no such object")].
      split; [done|]. cbn. lia. }
  run. destruct (decryptFrac HE (ct_val o)) as [e|dec].
  { repeat split. exists [OutVerifySkipped e]. split; [done|]. cbn. lia. }
  run.
  destruct (verify_loop_prints vec dec (seq 0 (Nat.min 5 (length vec)))
              (mkWorld (files w) (heap w) (rng w) (stdout w ++ [OutVerifyHeader])))
    as (Hf & Hh & Hg & out & Ho & Hlen).
  rewrite length_seq in Hlen. cbn [files heap rng stdout] in *.
  destruct (verify_loop vec dec _ _) as [w1 [e|[]]]; cbn [fst snd] in *; run.
  - unfold print; cbn [fst snd files heap rng stdout]. repeat split; [done..|].
    exists (OutVerifyHeader :: out ++ [OutVerifySkipped e]).
    split; [unfold print; cbn [fst stdout]; by rewrite Ho, <-!app_assoc|].
    cbn [length]. rewrite length_app. cbn [length]. lia.
  - repeat split; [done..|]. exists (OutVerifyHeader :: out).
    split; [by rewrite Ho, <-app_assoc|]. cbn [length]. lia.
Qed.

(** X10.  The [verify] flag of [encrypt_weights_csv] changes nothing but the
    printed lines: with and without it the call has the same outcome (a
    failure of the check is caught), the same files, objects and random
    state; the check adds at most six lines to the output. *)
Theorem verify_flag_only_prints (weights_csv out_name : string) (w : World) :
  let with_check := encrypt_weights_csv HERE weights_csv out_name true w in
  let without := encrypt_weights_csv HERE weights_csv out_name false w in
  snd with_check = snd without
  ∧ files (fst with_check) = files (fst without)
  ∧ heap (fst with_check) = heap (fst without)
  ∧ rng (fst with_check) = rng (fst without)
  ∧ ∃ out, stdout (fst with_check) = stdout (fst without) ++ out ∧ length out ≤ 6.
Proof.
  cbv zeta. unfold encrypt_weights_csv.
  assert (∀ A (r : World * res A), ∃ out : list out_line, stdout (fst r) = stdout (fst r) ++ out
            ∧ length out ≤ 6) as Hsame.
  { intros A r. exists []. rewrite app_nil_r. split; [done|]. cbn. lia. }
  rewrite !(bind_run (keygen_if_missing_default HERE)).
  destruct (snd (keygen_if_missing_default HERE w)) as [e|HE]; [by repeat split|].
  rewrite !(bind_run (weights_csv_to_vector weights_csv)).
  destruct (snd (weights_csv_to_vector _ _)) as [e|vec]; [by repeat split|].
  set (w1 := fst (weights_csv_to_vector _ _)). clearbody w1.
  unfold HE_encryptPtxt, PyCtxt_save. run.
  destruct (encodeVec HE vec) as [e|ptxt]; [repeat split; apply (Hsame _ (w1, inl e))|]. run.
  destruct (fst (encryptPtxt HE ptxt (rng w1))) as [e|c];
    [repeat split; apply (Hsame unit (_, inl e))|]. run.
  rewrite list_lookup_middle by done. run.
  fold (verify_block HE vec (length (heap w1)) true).
  match goal with |- context [ret _ ?w2] =>
    destruct (verify_block_prints HE vec (length (heap w1)) true w2)
      as (Hr & Hf & Hh & Hg & out & Ho & Hlen);
    rewrite (bind_run (verify_block HE vec (length (heap w1)) true)), Hr end.
  cbn [ret fst snd]. repeat split; [done..|]. by exists out.
Qed.
End Verify.

Section Keep.
Context `{F : PyFloat} {P : Pandas} {L : PyfhelLib}.

Lemma keeps_files_readonly {A} (m : M A) : readonly m → keeps_files m.
Proof. intros Hm w p Hp. by rewrite Hm. Qed.
Lemma keeps_files_bind {A B} (m : M A) (k : A → M B) :
  keeps_files m → (∀ a, keeps_files (k a)) → keeps_files (bind m k).
Proof.
  intros Hm Hk w p Hp. rewrite bind_run.
  destruct (snd (m w)) as [e|a]; cbn [fst]; [by apply Hm|].
  by apply Hk, Hm.
Qed.
Lemma keeps_files_if {A} (c : bool) (m1 m2 : M A) :
  keeps_files m1 → keeps_files m2 → keeps_files (if c then m1 else m2).
Proof. by destruct c. Qed.
Lemma keeps_files_try {A} (m : M A) (h : exn → M A) :
  keeps_files m → (∀ e, keeps_files (h e)) → keeps_files (try_except m h).
Proof.
  intros Hm Hh w p Hp. unfold try_except. specialize (Hm w p Hp).
  destruct (m w) as [w1 [e|a]]; cbn [fst] in *; [|done].
  by apply Hh.
Qed.
Lemma keeps_files_write_file q b : keeps_files (write_file q b).
Proof.
  intros w p Hp. cbn [write_file fst files]. apply lookup_insert_is_Some.
  destruct (decide (q = p)); [by left|by right].
Qed.
Lemma keeps_files_run {A} (m : M A) w w' r p :
  keeps_files m → m w = (w', r) → is_Some (files w !! p) → is_Some (files w' !! p).
Proof. intros Hm Hrun Hp. specialize (Hm w p Hp). by rewrite Hrun in Hm. Qed.
Lemma keeps_files_print l : keeps_files (print l).
Proof. by intros w p Hp. Qed.
Lemma keeps_files_with_rng {A} (f : Rng → res A * Rng) : keeps_files (with_rng f).
Proof. by intros w p Hp. Qed.
Lemma keeps_files_new_obj c : keeps_files (new_obj c).
Proof. by intros w p Hp. Qed.
Lemma keeps_files_set_obj r c : keeps_files (set_obj r c).
Proof. by intros w p Hp. Qed.
End Keep.

Create HintDb keep discriminated.
#[export] Hint Resolve keeps_files_write_file keeps_files_print keeps_files_with_rng
  keeps_files_new_obj keeps_files_set_obj : keep.

Ltac keep_step :=
  first [ apply keeps_files_bind; [|intros ?]
        | apply keeps_files_if
        | apply keeps_files_try; [|intros ?]
        | solve [eauto with keep]
        | apply keeps_files_readonly; solve [ro]
        | match goal with |- keeps_files (let '(_, _) := ?x in _) => destruct x end
        | match goal with |- keeps_files (match ?x with Some _ => _ | None => _ end) =>
            destruct x end ].
Ltac keep := repeat keep_step.

Section WholeRun.
Context `{F : PyFloat} {P : Pandas} {L : PyfhelLib}.
Variable HERE : string.

Lemma keeps_files_keygen n s b : keeps_files (keygen_if_missing HERE n s b).
Proof.
  unfold keygen_if_missing, contextGen, HE_keyGen, contextSave, savepublicKey, savesecretKey.
  keep.
Qed.

Lemma keeps_files_verify_loop vec dec range : keeps_files (verify_loop vec dec range).
Proof. induction range as [|i range IH]; cbn [verify_loop]; keep. Qed.

Lemma keeps_files_encrypt csv out_name v : keeps_files (encrypt_weights_csv HERE csv out_name v).
Proof.
  unfold encrypt_weights_csv, keygen_if_missing_default.
  apply keeps_files_bind; [apply keeps_files_keygen|intros HE].
  unfold HE_encryptPtxt, PyCtxt_save. keep. apply keeps_files_verify_loop.
Qed.

Lemma keeps_files_aggregate_loop HE agg ps : keeps_files (aggregate_loop HE agg ps).
Proof.
  induction ps as [|p ps IH]; cbn [aggregate_loop]; unfold PyCtxt_load, PyCtxt_iadd; keep.
Qed.

Lemma keeps_files_aggregate ct_paths average :
  keeps_files (aggregate_ciphertexts HERE ct_paths average).
Proof.
  unfold aggregate_ciphertexts, PyCtxt_load, PyCtxt_imul, PyCtxt_save. keep.
  apply keeps_files_aggregate_loop.
Qed.

Lemma keeps_files_decrypt ct_path feats :
  keeps_files (decrypt_ciphertext_to_csv HERE ct_path feats).
Proof. unfold decrypt_ciphertext_to_csv, PyCtxt_load, to_csv. keep. Qed.

Lemma keeps_files_main args : keeps_files (main HERE args).
Proof.
  unfold main, ensure_dirs.
  repeat first [ apply keeps_files_encrypt | apply keeps_files_aggregate
               | apply keeps_files_decrypt | keep_step ].
Qed.

Lemma writes_within_aggregate_loop S HE agg ps : writes_within S (aggregate_loop HE agg ps).
Proof.
  induction ps as [|p ps IH]; cbn [aggregate_loop]; unfold PyCtxt_load, PyCtxt_iadd; frame.
Qed.

Lemma writes_within_aggregate (S : list string) ct_paths (average : bool) :
  (if average then avg_path HERE else sum_path HERE) ∈ S →
  writes_within S (aggregate_ciphertexts HERE ct_paths average).
Proof.
  intros Ho. unfold aggregate_ciphertexts, PyCtxt_load, PyCtxt_imul.
  assert (os_path_join (GLOBAL_DIR HERE) (if average then "global_avg.ct" else "global_sum.ct")
          ∈ S) by (by destruct average).
  frame. apply writes_within_aggregate_loop.
Qed.

Lemma writes_within_decrypt (S : list string) ct_path feats :
  idx_csv_path HERE ∈ S → named_csv_path HERE ∈ S →
  writes_within S (decrypt_ciphertext_to_csv HERE ct_path feats).
Proof.
  intros Hi Hn. unfold decrypt_ciphertext_to_csv, PyCtxt_load, to_csv.
  fold (idx_csv_path HERE) (named_csv_path HERE). frame.
Qed.

Lemma main_outputs_elem do_sum :
  (∀ p, p ∈ encryption_outputs HERE → p ∈ main_outputs HERE do_sum)
  ∧ (if do_sum then sum_path HERE else avg_path HERE) ∈ main_outputs HERE do_sum
  ∧ idx_csv_path HERE ∈ main_outputs HERE do_sum
  ∧ named_csv_path HERE ∈ main_outputs HERE do_sum.
Proof.
  unfold main_outputs. split; [intros p Hp; apply elem_of_app; by left|].
  repeat split; apply elem_of_app; right; apply list_elem_of_In; simpl; tauto.
Qed.

Lemma writes_within_main args : writes_within (main_outputs HERE (do_sum args)) (main HERE args).
Proof.
  destruct (main_outputs_elem (do_sum args)) as (He & Ha & Hi & Hn).
  destruct (encryption_outputs_elem HERE) as (Hc & Hp & Hs & H1 & H2).
  unfold main, ensure_dirs.
  repeat first [ apply writes_within_encrypt; [by apply He..]
               | apply writes_within_aggregate; by destruct (do_sum args)
               | by apply writes_within_decrypt
               | frame_step ].
Qed.

(** X11.  Whatever its outcome, [main] changes no file outside the three
    key files, the two hospital ciphertexts, the aggregate of the chosen
    mode and the two CSV files, and it deletes no file; the aggregate file
    of the other mode is not among the files it may write. *)
Theorem main_touches_only_its_outputs (args : Args) (w : World) :
  (∀ p, p ∉ main_outputs HERE (do_sum args) →
        files (fst (main HERE args w)) !! p = files w !! p)
  ∧ (∀ p, is_Some (files w !! p) → is_Some (files (fst (main HERE args w)) !! p))
  ∧ (if do_sum args then avg_path HERE else sum_path HERE) ∉ main_outputs HERE (do_sum args).
Proof.
  split; [intros p; apply writes_within_main|]. split; [intros p; apply keeps_files_main|].
  unfold main_outputs, encryption_outputs.
  destruct (do_sum args);
    repeat (apply not_elem_of_cons; split; [path_neq|]); apply not_elem_of_nil.
Qed.

Lemma decrypt_success_files ct_path feats w w' r :
  decrypt_ciphertext_to_csv HERE ct_path feats w = (w', inr r) →
  is_Some (files w' !! idx_csv_path HERE) ∧ is_Some (files w' !! named_csv_path HERE)
  ∧ ∃ out, stdout w' = stdout w ++ out.
Proof.
  unfold decrypt_ciphertext_to_csv. intros Hrun.
  apply bind_inv_ok in Hrun as (w1 & HE & Hload & Hrun).
  pose proof (readonly_load_for_decrypt HERE w) as Hro. rewrite Hload in Hro.
  simpl in Hro. subst w1. revert Hrun.
  unfold PyCtxt_load, HE_decryptFrac, to_csv.
  fold (idx_csv_path HERE) (named_csv_path HERE). run.
  destruct (files w !! ct_path); [|done]. run.
  destruct (ctxt_from_bytes HE _); [done|]. run.
  rewrite list_lookup_middle by done. run.
  destruct (decryptFrac HE _) as [e|vec]; [done|]. run.
  destruct (DataFrame_of_dict "Index" _ "Value" _); [done|]. run.
  destruct (negb _); [done|]. run.
  destruct (DataFrame_of_dict "Feature" _ "Coefficient" _); [done|]. run.
  unfold ret. intros [= <- _]. cbn [files stdout].
  rewrite !lookup_insert_is_Some'. repeat split; auto.
  rewrite <-!app_assoc. eauto.
Qed.

(** X12.  When [main] returns, all of its eight output files exist, the two
    input files existed when it started, and the last two lines printed are
    the closing messages of lines 207-208. *)
Theorem main_success_leaves_all_outputs (args : Args) (w w' : World) :
  main HERE args w = (w', inr tt) →
  Forall (λ p, is_Some (files w' !! p)) (main_outputs HERE (do_sum args))
  ∧ is_Some (files w !! h1 args) ∧ is_Some (files w !! h2 args)
  ∧ ∃ out, stdout w' = out ++ [OutDone; OutKeepSecret].
Proof.
  unfold main, ensure_dirs. run.
  destruct (bool_decide (is_Some (files w !! h1 args))) eqn:E1; cbn [negb]; run; [|done].
  destruct (bool_decide (is_Some (files w !! h2 args))) eqn:E2; cbn [negb]; run; [|done].
  apply bool_decide_eq_true in E1, E2.
  intros Hrun.
  apply bind_inv_ok in Hrun as (w1 & ct1 & Henc1 & Hrun).
  apply bind_inv_ok in Hrun as (w2 & ct2 & Henc2 & Hrun).
  apply bind_inv_ok in Hrun as (w2' & v1 & Hv1 & Hrun).
  pose proof (readonly_weights_csv_to_vector (h1 args) w2) as Hro. rewrite Hv1 in Hro.
  simpl in Hro. subst w2'.
  apply bind_inv_ok in Hrun as (w2' & v2 & Hv2 & Hrun).
  pose proof (readonly_weights_csv_to_vector (h2 args) w2) as Hro. rewrite Hv2 in Hro.
  simpl in Hro. subst w2'.
  destruct (negb _); [done|]. revert Hrun. run. intros Hrun.
  apply bind_inv_ok in Hrun as (w3 & gct & Hagg & Hrun).
  apply bind_inv_ok in Hrun as (w3' & feats & Hnames & Hrun).
  pose proof (readonly_weights_csv_feature_names (h1 args) w3) as Hro. rewrite Hnames in Hro.
  simpl in Hro. subst w3'.
  apply bind_inv_ok in Hrun as (w4 & r & Hdec & Hrun).
  revert Hrun. run. unfold ret. intros [= <-]. cbn [files stdout].
  split; [|split; [done|split; [done|]]].
  2:{ exists (stdout w4). by rewrite <-app_assoc. }
  pose proof (encrypt_weights_csv_spec _ _ _ _ _ _ _ Henc1)
    as (w0 & HE1 & ? & ? & ? & Hkey1 & _ & _ & _ & -> & Hf1 & _).
  pose proof (encrypt_weights_csv_spec _ _ _ _ _ _ _ Henc2)
    as (w0' & HE2 & ? & ? & ? & _ & _ & _ & _ & -> & Hf2 & _).
  apply keygen_files_exist in Hkey1 as (Hc & Hp & Hs).
  pose proof (aggregate_ciphertexts_spec _ _ _ _ _ _ Hagg)
    as (? & ? & ? & ? & ? & _ & _ & _ & _ & _ & -> & Hf3 & _).
  pose proof (decrypt_success_files _ _ _ _ _ Hdec) as (Hi & Hn & _).
  assert (∀ p, is_Some (files w1 !! p) → is_Some (files w4 !! p)) as H14.
  { intros p Hp1.
    eapply keeps_files_run; [apply keeps_files_decrypt|exact Hdec|].
    eapply keeps_files_run; [apply keeps_files_aggregate|exact Hagg|].
    eapply keeps_files_run; [apply keeps_files_encrypt|exact Henc2|done]. }
  assert (∀ p, is_Some (files w2 !! p) → is_Some (files w4 !! p)) as H24.
  { intros p Hp2.
    eapply keeps_files_run; [apply keeps_files_decrypt|exact Hdec|].
    eapply keeps_files_run; [apply keeps_files_aggregate|exact Hagg|done]. }
  unfold main_outputs, encryption_outputs. cbn [app].
  repeat apply Forall_cons_2; [..|apply Forall_nil_2].
  - apply H14. rewrite Hf1, lookup_insert_is_Some'. by right.
  - apply H14. rewrite Hf1, lookup_insert_is_Some'. by right.
  - apply H14. rewrite Hf1, lookup_insert_is_Some'. by right.
  - apply H14. rewrite Hf1, lookup_insert_is_Some'. by left.
  - apply H24. rewrite Hf2, lookup_insert_is_Some'. by left.
  - eapply keeps_files_run; [apply keeps_files_decrypt|exact Hdec|].
    rewrite Hf3, lookup_insert_is_Some'. left. by destruct (do_sum args).
  - done.
  - done.
Qed.

(** X13.  [encrypt_weights_csv] generates keys before it reads the weights:
    when the key files are missing and the weights file cannot be read, the
    call raises the reader's exception and leaves the three freshly written
    key files behind, and nothing else. *)
Theorem encrypt_failure_keeps_fresh_keys (weights_csv out_name : string) (verify : bool)
    (w w1 : World) (HE : HE_t) (e : exn) :
  ¬ all_key_files_exist HERE w →
  keygen_if_missing_default HERE w = (w1, inr HE) →
  weights_csv ∉ [ctx_path HERE; pub_path HERE; sec_path HERE] →
  snd (weights_csv_to_vector weights_csv w) = inl e →
  encrypt_weights_csv HERE weights_csv out_name verify w = (w1, inl e)
  ∧ all_key_files_exist HERE w1
  ∧ ∀ p, p ∉ [ctx_path HERE; pub_path HERE; sec_path HERE] → files w1 !! p = files w !! p.
Proof.
  intros Hn Hkey Hcsv Hvec.
  pose proof (keygen_files_exist _ _ _ _ _ _ _ Hkey) as Hall.
  destruct (keygen_generates _ _ _ _ _ _ _ Hn Hkey) as (c & pk & sk & _ & _ & _ & Hf).
  assert (same_file weights_csv w w1) as Hsame.
  { unfold same_file. rewrite Hf. rewrite !not_elem_of_cons in Hcsv.
    destruct Hcsv as (? & ? & ? & _). by rewrite !lookup_insert_ne. }
  split; [|split; [done|]].
  - unfold encrypt_weights_csv. rewrite (bind_ok _ _ _ _ _ Hkey), bind_run.
    rewrite <-(weights_csv_to_vector_same_file _ _ _ Hsame), Hvec.
    by rewrite (readonly_weights_csv_to_vector weights_csv w1).
  - intros p Hp. rewrite !not_elem_of_cons in Hp. destruct Hp as (? & ? & ? & _).
    rewrite Hf. by rewrite !lookup_insert_ne.
Qed.

Lemma files_unchanged {A} (m : M A) w : writes_within [] m → files (fst (m w)) = files w.
Proof. intros Hm. apply map_eq. intros p. apply Hm, not_elem_of_nil. Qed.




(** X15.  On an empty list of paths [aggregate_ciphertexts] raises and
    leaves the world as it was; when the context and the public key load,
    the exception is the IndexError of [ct_paths[0]] (line 148), so the
    division by [len(ct_paths)] is never reached. *)
Theorem aggregate_of_no_ciphertexts (average : bool) (w : World) :
  ∃ e, aggregate_ciphertexts HERE [] average w = (w, inl e)
       ∧ (∀ HE, snd (load_for_server HERE w) = inr HE → ∃ msg, e = IndexError msg).
Proof.
  unfold aggregate_ciphertexts. rewrite bind_run.
  rewrite (readonly_load_for_server HERE w).
  destruct (snd (load_for_server HERE w)) as [e|HE]; [by exists e|].
  run. eexists. split; [done|]. intros _ _. by eexists.
Qed.

(** X16.  Without the secret key file [decrypt_ciphertext_to_csv] raises
    and changes nothing; when the context and the public key load, the
    exception is FileNotFoundError for the secret key file. *)
Theorem decrypt_needs_secret_key_file (ct_path : string) (feats : list string) (w : World) :
  files w !! sec_path HERE = None →
  ∃ e, decrypt_ciphertext_to_csv HERE ct_path feats w = (w, inl e)
       ∧ (∀ HE, snd (load_for_server HERE w) = inr HE → e = FileNotFoundError (sec_path HERE)).
Proof.
  intros Hsec.
  assert (∃ e, load_for_decrypt HERE w = (w, inl e)
               ∧ (∀ HE, snd (load_for_server HERE w) = inr HE
                        → e = FileNotFoundError (sec_path HERE))) as (e & Hload & He).
  { unfold load_for_decrypt, load_for_server, contextLoad, restorepublicKey, restoresecretKey.
    fold (sec_path HERE). run.
    destruct (files w !! os_path_join (KEY_DIR HERE) "ckks_context.bin"); [|by eexists]. run.
    destruct (context_from_bytes _); [by eexists|]. run.
    destruct (files w !! os_path_join (KEY_DIR HERE) "ckks_public.key"); [|by eexists]. run.
    destruct (publicKey_from_bytes _ _); [by eexists|]. run.
    rewrite Hsec. by eexists. }
  exists e. split; [|done].
  unfold decrypt_ciphertext_to_csv. rewrite bind_run. by rewrite Hload.
Qed.
End WholeRun.

(** * The script on a concrete machine *)

Import Toy.

(** The toy serialisers load back every context and key they saved. *)
Lemma toy_keys_load_back c pk sk : keys_load_back c pk sk.
Proof. by repeat split. Qed.

Example toy_main_runs : snd (main Toy.HERE args0 w0) = inr tt.
Proof. vm_compute. reflexivity. Qed.

Example toy_main_sum :
  snd (decrypt_vector Toy.HERE (sum_path Toy.HERE) w_done) = inr [4; 9; 20]%Z.
Proof. vm_compute. reflexivity. Qed.

(** C4, witness: aggregation on the toy machine is the same under two
    different secret-key files. *)
Lemma server_side_ignores_secret_key_witness :
  snd (aggregate_ciphertexts Toy.HERE ct_files true w_done)
  = snd (aggregate_ciphertexts Toy.HERE ct_files true w_other_key)
  ∧ files (fst (aggregate_ciphertexts Toy.HERE ct_files true w_done)) !! avg_path Toy.HERE
    = files (fst (aggregate_ciphertexts Toy.HERE ct_files true w_other_key)) !! avg_path Toy.HERE
  ∧ files w_done !! sec_path Toy.HERE ≠ files w_other_key !! sec_path Toy.HERE.
Proof.
  assert (sec_path Toy.HERE ∉ ct_files) as Hps.
  { apply not_elem_of_cons. split; [by vm_compute|].
    apply not_elem_of_cons. split; [by vm_compute|]. apply not_elem_of_nil. }
  assert (same_but_secret Toy.HERE w_done w_other_key) as HR.
  { repeat split. intros p Hp. symmetry. by apply lookup_insert_ne. }
  destruct (server_side_ignores_secret_key Toy.HERE ct_files true w_done w_other_key Hps HR)
    as (_ & _ & Hres & _ & Hfile).
  split; [exact Hres|]. split; [exact Hfile|]. by vm_compute.
Defined.

(** C5, witness: two feature names against the three decrypted values. *)
Lemma decrypt_length_mismatch_raises_witness :
  snd (decrypt_ciphertext_to_csv Toy.HERE (sum_path Toy.HERE) ["f0"; "Intercept"] w_done)
  = inl (ValueError ("Length mismatch: features(2) vs values(3). "
                       +:+ "Ensure both hospitals used identical feature order + intercept.")).
Proof.
  assert (∃ w1, decrypt_vector Toy.HERE (sum_path Toy.HERE) w_done = (w1, inr [4; 9; 20]%Z))
    as [w1 Hvec] by (eexists; vm_compute; reflexivity).
  destruct (decrypt_length_mismatch_raises Toy.HERE (sum_path Toy.HERE) ["f0"; "Intercept"]
              w_done w1 [4; 9; 20]%Z Hvec) as [Hraise _].
  apply Hraise. simpl. lia.
Defined.

(** C10, witness: a fresh machine holding only keys and the aggregate; after
    the failed call the Index/Value file exists and the named one does not. *)
Lemma decrypt_writes_index_csv_before_check_witness :
  ∃ w' e,
    decrypt_ciphertext_to_csv Toy.HERE (sum_path Toy.HERE) ["f0"] w_other_names = (w', inl e)
    ∧ is_Some (files w' !! idx_csv_path Toy.HERE)
    ∧ files w' !! named_csv_path Toy.HERE = None.
Proof.
  assert (∃ w1, decrypt_vector Toy.HERE (sum_path Toy.HERE) w_other_names
                = (w1, inr [4; 9; 20]%Z))
    as [w1 Hvec] by (eexists; vm_compute; reflexivity).
  destruct (decrypt_writes_index_csv_before_check Toy.HERE (sum_path Toy.HERE) ["f0"]
              w_other_names w1 [4; 9; 20]%Z Hvec ltac:(simpl; lia))
    as (w' & e & Hrun & Hidx & Hnamed & _).
  exists w', e. split; [exact Hrun|]. split; [by rewrite Hidx|].
  rewrite Hnamed. by vm_compute.
Defined.

(** ** The tiny engine produces values of the data model *)

Section TinyEngineOk.
Import Toy TinyEngine.
Local Open Scope N_scope.

Lemma constant_poly_ok (n : nat) (primes : list N) (x : N) :
  Forall (λ q, 0 < q) primes → Persisted.poly_ok n primes (constant_poly n primes x).
Proof.
  induction 1 as [|q primes Hq _ IH]; [constructor|].
  constructor; [|exact IH]. split; [apply length_replicate|].
  apply Forall_replicate. apply N.mod_upper_bound. lia.
Qed.

Lemma shifted_poly_ok (n : nat) (primes : list N) (k : N) (xs : list N) :
  Forall (λ q, 0 < q) primes → Persisted.poly_ok n primes (shifted_poly n primes k xs).
Proof.
  induction 1 as [|q primes Hq _ IH]; [constructor|].
  constructor; [|exact IH]. split.
  - rewrite length_take, length_app, length_replicate. lia.
  - apply Forall_take, Forall_app. split; [|by apply Forall_replicate].
    apply Forall_forall. intros y (x & <- & _)%list_elem_of_In%in_map_iff.
    apply N.mod_upper_bound. lia.
Qed.

Lemma positive_chain_true (ps : Persisted.ParameterSet) :
  positive_chain ps = true →
  Persisted.modulus_chain ps ≠ [] ∧ Forall (λ q, 0 < q) (Persisted.modulus_chain ps).
Proof. unfold positive_chain. by intros ?%bool_decide_eq_true. Qed.

Lemma tiny_engine_ok : Engine_ok 8 tiny_engine.
Proof.
  split.
  - intros n sc sec ps. cbn [createContext tiny_engine]. unfold tiny_createContext.
    case_bool_decide; [|done]. intros [= <-]. by repeat constructor.
  - intros ps g pk sk _. cbn [generateKeys tiny_engine]. unfold tiny_generateKeys.
    destruct (positive_chain ps) eqn:Hpos; [|done].
    apply positive_chain_true in Hpos as [_ Hpos]. cbn [fst]. intros [= <- <-].
    repeat split; by apply constant_poly_ok.
  - intros HE ps ptxt g c Hctx (_ & _ & Hsc & _). cbn [eng_encrypt tiny_engine].
    unfold tiny_encrypt. rewrite Hctx. destruct (he_pk HE); [|done].
    destruct (positive_chain ps) eqn:Hpos; [|done].
    apply positive_chain_true in Hpos as [Hne Hpos]. cbn [fst]. intros [= <-].
    assert (Forall (λ q, 0 < q) (Persisted.primes_at ps 1)) as Hpos1
      by (by apply Forall_take).
    split; [|split; [by apply shifted_poly_ok|split; [by apply constant_poly_ok|]]].
    + cbn [Persisted.ct_level]. destruct (Persisted.modulus_chain ps); [done|].
      cbn [length]. change (N.to_nat 1) with 1%nat. lia.
    + by split.
Qed.
End TinyEngineOk.

(** C6, witness: on the tiny engine with integers of 8 bytes, the file
    [encrypt_weights_csv] leaves for hospital 1 holds the saved form of the
    ciphertext it made, and [aggregate_ciphertexts] on that file ends with
    the same ciphertext as its aggregate. *)
Lemma saved_files_load_back_witness :
  ∃ w' out c w'' HEs,
    encrypt_weights_csv (L := TinyEngine.tiny_persisted) Toy.HERE "/data/h1.csv"
      "hospital1.ct" false TinyEngine.w_tiny
    = (w', inr out)
    ∧ files w' !! out = Some (Persisted.save_ciphertext 8 c)
    ∧ aggregate_ciphertexts (L := TinyEngine.tiny_persisted) Toy.HERE [out] false w'
      = (w'', inr (sum_path Toy.HERE))
    ∧ last (heap w'') = Some (mkPyCtxt HEs c).
Proof.
  destruct (saved_files_load_back 8 TinyEngine.tiny_engine Toy.HERE
              ltac:(lia) tiny_engine_ok) as (_ & _ & _ & _ & _ & Henc).
  assert (∃ w' out, encrypt_weights_csv (L := TinyEngine.tiny_persisted) Toy.HERE "/data/h1.csv"
                      "hospital1.ct" false TinyEngine.w_tiny = (w', inr out))
    as (w' & out & Hrun) by (eexists _, _; vm_compute; reflexivity).
  destruct (Henc _ "hospital1.ct" _ _ _ _ eq_refl Hrun)
    as (HE & c & Hlast & _ & Hfile & Hagg).
  eexists w', out, c, _, _. split; [exact Hrun|]. split; [exact Hfile|].
  split; [exact Hagg|]. cbn [heap]. by rewrite last_snoc.
Defined.

(** C7, witness: a machine without the first file, and the machine whose
    second file has one row more. *)
Lemma main_fails_on_bad_input_witness :
  main Toy.HERE (mkArgs "/data/none.csv" "/data/h2.csv" false false) w0
  = (w0, inl (FileNotFoundError "Hospital-1 weights not found: /data/none.csv"))
  ∧ ∃ w' e, main Toy.HERE args0 w_short = (w', inl e)
            ∧ files w' !! avg_path Toy.HERE = None
            ∧ files w' !! sum_path Toy.HERE = None.
Proof.
  split.
  - by apply (main_fails_on_bad_input Toy.HERE
                (mkArgs "/data/none.csv" "/data/h2.csv" false false) w0).
  - destruct (main_fails_on_bad_input Toy.HERE args0 w_short) as (_ & _ & Hlen).
    destruct (Hlen [1; 2; 5]%Z [3; 7; 15; 4]%Z) as (w' & e & Hrun & _ & Hf).
    + intros Hin. apply list_elem_of_In in Hin. vm_compute in Hin. intuition discriminate.
    + intros Hin. apply list_elem_of_In in Hin. vm_compute in Hin. intuition discriminate.
    + by vm_compute.
    + by vm_compute.
    + simpl. lia.
    + exists w', e. split; [exact Hrun|].
      split; (rewrite Hf; [by vm_compute|]);
        unfold aggregation_outputs; apply list_elem_of_In; simpl; tauto.
Defined.

(** C8, the claim as worded fails: on the toy machine, after a successful
    aggregation of the two hospital ciphertexts, the object built from the
    first ciphertext file holds the sum and no longer what was loaded from
    its file. *)
Lemma aggregate_mutates_first_input :
  ∃ w' out HE,
    aggregate_ciphertexts Toy.HERE ct_files false w_done = (w', inr out)
    ∧ snd (load_for_server Toy.HERE w_done) = inr HE
    ∧ ¬ input_object_unchanged HE ct_files w_done w' 0.
Proof.
  assert (∃ w' out, aggregate_ciphertexts Toy.HERE ct_files false w_done = (w', inr out)
                    ∧ heap w' !! (length (heap w_done) + 0)
                      = Some (mkPyCtxt (mkPyfhel (Some (b 128)) (Some (b 42)) None)
                                       [b 2; b 88; b 93; b 104]))
    as (w' & out & Hrun & Hheap) by (eexists _, _; split; vm_compute; reflexivity).
  exists w', out, (mkPyfhel (Some (b 128)) (Some (b 42)) None).
  split; [exact Hrun|]. split; [vm_compute; reflexivity|].
  intros (p & c & Hp & (bs & Hbs & Hc) & Hobj).
  pose proof (eq_trans (eq_sym Hheap) Hobj) as Heq. injection Heq as <-.
  injection Hp as <-. vm_compute in Hbs. injection Hbs as <-. vm_compute in Hc.
  discriminate Hc.
Qed.

(** C8, witness of the amended statement on the same run: the object built
    from the first file holds the sum of the two loaded values, which is
    what was saved, and the object built from the second file is as loaded. *)
Lemma aggregate_accumulates_in_place_witness :
  ∃ w' out HE c0 c1 final,
    aggregate_ciphertexts Toy.HERE ct_files false w_done = (w', inr out)
    ∧ Forall2 (loaded_value HE w_done) ct_files [c0; c1]
    ∧ ctxt_add HE c0 c1 = inr final
    ∧ heap w' !! length (heap w_done) = Some (mkPyCtxt HE final)
    ∧ files w' !! out = Some (ctxt_to_bytes final)
    ∧ input_object_unchanged HE ct_files w_done w' 1.
Proof.
  assert (∃ w' out, aggregate_ciphertexts Toy.HERE ct_files false w_done = (w', inr out))
    as (w' & out & Hrun) by (eexists _, _; vm_compute; reflexivity).
  destruct (aggregate_accumulates_in_place Toy.HERE ct_files false w_done w' out Hrun)
    as (HE & c0 & cs & acc & final & _ & Hcs & Hacc & Hfinal & Hagg & Hfile & Hin & _).
  pose proof (Forall2_length _ _ _ Hcs) as Hlen.
  destruct cs as [|c1 [|? ?]]; [done| |done].
  cbn [fold_add] in Hacc. destruct (ctxt_add HE c0 c1) as [e|s] eqn:Hadd; [done|].
  injection Hacc as <-. injection Hfinal as <-.
  exists w', out, HE, c0, c1, s. split; [exact Hrun|]. split; [exact Hcs|].
  split; [exact Hadd|]. split; [exact Hagg|]. split; [exact Hfile|].
  apply Hin. simpl. lia.
Defined.

(** C9, witness: the first call on a fresh machine generates the keys, and
    a call on the machine it leaves loads the same handle and writes nothing. *)
Lemma keygen_if_missing_reuses_keys_witness :
  ¬ all_key_files_exist Toy.HERE w0
  ∧ ∃ w' HE,
      keygen_if_missing_default Toy.HERE w0 = (w', inr HE)
      ∧ all_key_files_exist Toy.HERE w'
      ∧ keygen_if_missing_default Toy.HERE w' = (w', inr HE).
Proof.
  assert (¬ all_key_files_exist Toy.HERE w0) as Hn.
  { intros ([x Hx] & _). vm_compute in Hx. discriminate Hx. }
  split; [exact Hn|].
  assert (∃ w' HE, keygen_if_missing_default Toy.HERE w0 = (w', inr HE))
    as (w' & HE & Hrun) by (eexists _, _; vm_compute; reflexivity).
  destruct (keygen_if_missing_reuses_keys Toy.HERE (2 ^ 15) 40 128 w0)
    as (_ & Hgen & Hlater).
  destruct (Hgen Hn w' HE Hrun) as (c & pk & sk & HHE & _).
  destruct (Hlater w' HE Hrun) as (Hall & _ & Hsame).
  exists w', HE. split; [exact Hrun|]. split; [exact Hall|].
  apply Hsame; [|done]. right. exists c, pk, sk. split; [exact HHE|].
  apply toy_keys_load_back.
Defined.

(** ** Further properties on concrete machines *)

Import ToyFrames.

Lemma rectangular_one `{F : PyFloat} n (c : list cell) : rectangular (mkDataFrame [(n, c)]).
Proof.
  intros n1 c1 n2 c2 H1 H2. cbn [df_cols] in *.
  apply list_elem_of_singleton in H1, H2. congruence.
Qed.

Lemma rectangular_two `{F : PyFloat} n c n' (c' : list cell) :
  length c = length c' → rectangular (mkDataFrame [(n, c); (n', c')]).
Proof.
  intros Hlen n1 c1 n2 c2 H1 H2. cbn [df_cols] in *.
  apply elem_of_cons in H1 as [H1|H1%list_elem_of_singleton];
    apply elem_of_cons in H2 as [H2|H2%list_elem_of_singleton]; congruence.
Qed.

Lemma reads_as_named (p : string) (bs : bytes) (w : World) :
  files w !! p = Some bs → reads_as (P := named_pandas) w p (named_frame_of bs).
Proof. intros Hp. by exists bs. Qed.

(** X2, witness: a file with the rows x3, Intercept, x4. *)
Lemma feature_names_align_with_vector_witness :
  ∃ names, snd (weights_csv_feature_names (P := named_pandas) "/data/h1.csv" w_named)
           = inr names
           ∧ length names = 3%nat ∧ last names = Some "Intercept".
Proof.
  apply (feature_names_align_with_vector (P := named_pandas) "/data/h1.csv" w_named
           (named_frame_of h_named) [10; 20; 7]%Z).
  - by apply reads_as_named.
  - by apply rectangular_two.
  - by vm_compute.
Defined.

(** X3, witness: the first weights file of the toy machine, which has no
    "Feature" column. *)
Lemma vector_is_column_when_no_intercept_row_witness :
  snd (weights_csv_to_vector "/data/h1.csv" w0) = inr [1; 2; 5]%Z.
Proof.
  apply (vector_is_column_when_no_intercept_row "/data/h1.csv" w0
           (mkDataFrame [("Coefficient", [CInt 1; CInt 2; CInt 5]%Z)]) "Coefficient"
           [CInt 1; CInt 2; CInt 5]%Z).
  - exists [b 1; b 2; b 5]. split; by vm_compute.
  - by vm_compute.
  - by vm_compute.
  - left. by vm_compute.
  - done.
  - by vm_compute.
Defined.

(** X4, witness: the file with the rows x3 = 10, Intercept = 7, x4 = 20,
    Intercept = 9; the vector is 10, 20, 7. *)
Lemma vector_with_intercept_rows_witness :
  (∃ j c i,
     intercept_mask [@CStr Z "x3"; CStr "Intercept"; CStr "x4"; CStr "Intercept"] !! j
     = Some true
     ∧ (∀ k, k < j →
          intercept_mask [@CStr Z "x3"; CStr "Intercept"; CStr "x4"; CStr "Intercept"] !! k
          = Some false)
     ∧ [@CInt Z 10; CInt 7; CInt 20; CInt 9]%Z !! j = Some c
     ∧ cell_float c = inr i ∧ last [10; 20; 7]%Z = Some i)
  ∧ (length [10; 20; 7]%Z
     + intercept_rows [@CStr Z "x3"; CStr "Intercept"; CStr "x4"; CStr "Intercept"]
     = 4 + 1)%nat.
Proof.
  destruct (vector_with_intercept_rows (P := named_pandas) "/data/two.csv" w_named
              (named_frame_of h_two_intercepts) "Coefficient"
              [CInt 10; CInt 7; CInt 20; CInt 9]%Z
              [CStr "x3"; CStr "Intercept"; CStr "x4"; CStr "Intercept"] [10; 20; 7]%Z)
    as (Hfirst & Hlen & _).
  - by apply reads_as_named.
  - by apply rectangular_two.
  - by vm_compute.
  - by vm_compute.
  - by vm_compute.
  - by vm_compute.
  - by vm_compute.
  - split; [exact Hfirst|exact Hlen].
Defined.

(** X5, witness: a file without rows. *)
Lemma empty_weights_file_witness :
  snd (weights_csv_to_vector "/data/empty.csv" w_named)
  = inl (IndexError "index -1 is out of bounds for axis 0 with size 0")
  ∧ snd (weights_csv_feature_names "/data/empty.csv" w_named) = inr ["Intercept"].
Proof.
  apply (empty_weights_file "/data/empty.csv" w_named (mkDataFrame [("Coefficient", [])])
           "Coefficient").
  - exists []. split; by vm_compute.
  - apply rectangular_one.
  - by vm_compute.
  - by vm_compute.
Defined.

(** X6, witness: the three names of the first weights file of the toy machine. *)
Lemma synthesized_names_distinct_witness : NoDup ["f0"; "f1"; "Intercept"].
Proof.
  apply (synthesized_names_distinct "/data/h1.csv" w0
           (mkDataFrame [("Coefficient", [CInt 1; CInt 2; CInt 5]%Z)])).
  - exists [b 1; b 2; b 5]. split; by vm_compute.
  - by vm_compute.
  - by vm_compute.
Defined.

(** X7, witness: a file read as the frame of LogisticRegression.py. *)
Lemma hospital2_weights_rejected_witness :
  snd (weights_csv_to_vector (P := hospital2_pandas) "/data/h2.csv" w0)
  = inl (ValueError "Coefficient column not found. Available columns: ['feature', 'Coffiecients']")
  ∧ snd (weights_csv_feature_names (P := hospital2_pandas) "/data/h2.csv" w0)
    = inl (ValueError "Coefficient column not found. Available columns: ['feature', 'Coffiecients']").
Proof.
  apply (hospital2_weights_rejected (P := hospital2_pandas) "/data/h2.csv" w0
           ["x3"; "x7"; "x15"] [3; 7; 15]%Z 1%Z).
  exists [b 3; b 7; b 15]. split; by vm_compute.
Defined.

(** X8, witness: the same coefficients under the names x3, x4 and x8, x9. *)
Lemma vector_ignores_feature_names_witness :
  snd (weights_csv_to_vector (P := named_pandas) "/data/h1.csv" w_named)
  = snd (weights_csv_to_vector (P := named_pandas) "/data/h1_renamed.csv" w_named).
Proof.
  apply (vector_ignores_feature_names (P := named_pandas) _ _ _ _
           (named_frame_of h_named) (named_frame_of h_renamed)).
  - by apply reads_as_named.
  - by apply reads_as_named.
  - by vm_compute.
  - intros c Hc. unfold df_getitem, named_frame_of. cbn [df_cols assoc_col].
    by rewrite !bool_decide_eq_false_2 by done.
  - intros f1 f2 [= <-] [= <-]. by vm_compute.
Defined.

(** X9, witness: the file with the rows x3 = 10, Intercept = 7, x4 = 20; the
    names are x3, x4, Intercept and the vector is 10, 20, 7. *)
Lemma names_and_vector_share_rows_witness :
  ∃ rows irow,
    sublist rows (zip [@CStr Z "x3"; CStr "Intercept"; CStr "x4"] [@CInt Z 10; CInt 7; CInt 20]%Z)
    ∧ irow ∈ zip [@CStr Z "x3"; CStr "Intercept"; CStr "x4"] [@CInt Z 10; CInt 7; CInt 20]%Z
    ∧ ["x3"; "x4"; "Intercept"] = map (λ r, cell_str (fst r)) rows ++ ["Intercept"]
    ∧ astype_float (map snd rows ++ [snd irow]) = inr [10; 20; 7]%Z.
Proof.
  apply (names_and_vector_share_rows (P := named_pandas) "/data/h1.csv" w_named
           (named_frame_of h_named) "Coefficient").
  - by apply reads_as_named.
  - by apply rectangular_two.
  - by vm_compute.
  - by vm_compute.
  - by vm_compute.
  - by vm_compute.
  - by vm_compute.
Defined.

(** X12, witness: the complete run on the toy machine, in sum mode. *)
Lemma main_success_leaves_all_outputs_witness :
  Forall (λ p, is_Some (files w_done !! p)) (main_outputs Toy.HERE true)
  ∧ ∃ out, stdout w_done = out ++ [OutDone; OutKeepSecret].
Proof.
  destruct (main_success_leaves_all_outputs Toy.HERE args0 w0 w_done) as (Hall & _ & _ & Hout).
  - by vm_compute.
  - by split.
Defined.

(** X13, witness: a fresh machine and a weights file that does not exist. *)
Lemma encrypt_failure_keeps_fresh_keys_witness :
  encrypt_weights_csv Toy.HERE "/data/none.csv" "hospital1.ct" true w0
  = (w_keys, inl (FileNotFoundError "/data/none.csv"))
  ∧ all_key_files_exist Toy.HERE w_keys.
Proof.
  destruct (encrypt_failure_keeps_fresh_keys Toy.HERE "/data/none.csv" "hospital1.ct" true
              w0 w_keys HE_keys (FileNotFoundError "/data/none.csv")) as (Hrun & Hall & _).
  - intros (Hc & _). vm_compute in Hc. by destruct Hc.
  - by vm_compute.
  - repeat (apply not_elem_of_cons; split; [by vm_compute|]). apply not_elem_of_nil.
  - by vm_compute.
  - by split.
Defined.


(** X16, witness: the finished toy machine without its secret key file. *)
Lemma decrypt_needs_secret_key_file_witness :
  ∃ e, decrypt_ciphertext_to_csv Toy.HERE (sum_path Toy.HERE) ["f0"; "f1"; "Intercept"]
         w_no_secret = (w_no_secret, inl e)
       ∧ e = FileNotFoundError (sec_path Toy.HERE).
Proof.
  destruct (decrypt_needs_secret_key_file Toy.HERE (sum_path Toy.HERE)
              ["f0"; "f1"; "Intercept"] w_no_secret) as (e & Hrun & He).
  - by vm_compute.
  - exists e. split; [exact Hrun|]. eapply He. by vm_compute.
Defined.

